(** * read-ai: the reader-mode content script (src/readtest/content.js)

    A shallow embedding of the content script and the properties of its
    specification that concern the chat session, the settings store, the
    reader overlay and the extension message bridge, followed by further
    properties of these, of the notebook panel and of the resizer.

    Modelling conventions.
    - A JavaScript string is a [string]: a sequence of 8-bit units, the
      UTF-8 text of the source literal.
    - The page is single threaded.  A handler is a function from the
      [World] before it runs to the [World] after it has run to completion;
      what the environment answers during the run (the extracted article,
      the outcome of [fetch] and of the reads of the response body) is an
      argument of the handler.  A call whose transport never answers does
      not complete and has no world after it; it is outside the model.
    - An exception is a [Throw] completion; a rejected promise of an
      [async] function is the [Throw] completion of its body.
    - The host page is assumed not to use the ids of the overlay
      ([reader-overlay], [userInput], [sendButton], [messagesContainer]).
    - Host functions that the script calls but does not define
      ([JSON.parse], [marked.parse], the printing of numbers) are the
      fields of the class [Host]; [Browser.host] is the instance on which
      the examples run. *)

From stdpp Require Import base tactics option list gmap strings pretty relations.
From Stdlib Require Import Ascii ZArith Lia.

Local Open Scope Z_scope.
Local Open Scope nat_scope.

(** ** Strings *)

Module Str.

Definition newline : ascii := "010"%char.

(** [s.startsWith(p)] *)
Fixpoint startsWith (p s : string) : bool :=
  match p, s with
  | EmptyString, _ => true
  | String a p', String b s' => if decide (a = b) then startsWith p' s' else false
  | String _ _, EmptyString => false
  end.

(** [s.substring(n)] *)
Fixpoint substring (n : nat) (s : string) : string :=
  match n, s with
  | O, _ => s
  | S n', String _ s' => substring n' s'
  | S _, EmptyString => EmptyString
  end.

(** [s.split('\n')]: the segments between the newlines; never empty. *)
Fixpoint split (s : string) : list string :=
  match s with
  | EmptyString => [EmptyString]
  | String c s' =>
      if decide (c = newline) then EmptyString :: split s'
      else match split s' with
           | seg :: segs => String c seg :: segs
           | [] => [String c EmptyString]
           end
  end.

(** [parts.join(sep)] *)
Fixpoint join (sep : string) (parts : list string) : string :=
  match parts with
  | [] => ""
  | [p] => p
  | p :: ps => p +:+ sep +:+ join sep ps
  end.

Fixpoint concat (parts : list string) : string :=
  match parts with
  | [] => ""
  | p :: ps => p +:+ concat ps
  end.

(** The string of the bytes with the given codes. *)
Definition bytes (l : list N) : string :=
  foldr (fun n s => String (ascii_of_N n) s) EmptyString l.

(** The WhiteSpace and LineTerminator code points of ECMAScript, each as
    its UTF-8 text: TAB, LF, VT, FF, CR, SP, U+00A0, U+1680,
    U+2000..U+200A, U+2028, U+2029, U+202F, U+205F, U+3000, U+FEFF. *)
Definition whiteSpace : list string :=
  bytes <$> ([ [9]; [10]; [11]; [12]; [13]; [32]; [194; 160]; [225; 154; 128] ]
             ++ ((fun n => [226; 128; n]) <$> [128; 129; 130; 131; 132; 133; 134; 135; 136; 137; 138])
             ++ [ [226; 128; 168]; [226; 128; 169]; [226; 128; 175];
                  [226; 129; 159]; [227; 128; 128]; [239; 187; 191] ])%N.

(** [s] without one of the prefixes [ws], if it begins with one. *)
Fixpoint stripOneOf (ws : list string) (s : string) : option string :=
  match ws with
  | [] => None
  | p :: ws' =>
      if startsWith p s then Some (substring (String.length p) s)
      else stripOneOf ws' s
  end.

(** [s] without its prefixes from [ws]; each round removes a byte at
    least, so the length of [s] is fuel enough. *)
Fixpoint stripAll (ws : list string) (fuel : nat) (s : string) : string :=
  match fuel with
  | O => s
  | S fuel' =>
      match stripOneOf ws s with
      | Some s' => stripAll ws fuel' s'
      | None => s
      end
  end.

Definition trimStart (s : string) : string :=
  stripAll whiteSpace (String.length s) s.

Definition trimEnd (s : string) : string :=
  String.rev (stripAll (String.rev <$> whiteSpace) (String.length s) (String.rev s)).

(** [s.trim()] *)
Definition trim (s : string) : string := trimEnd (trimStart s).

(** Whether the character [c] occurs in [s]. *)
Fixpoint occurs (c : ascii) (s : string) : bool :=
  match s with
  | EmptyString => false
  | String x s' => if decide (x = c) then true else occurs c s'
  end.

(** [a || b] on strings: the empty string is falsy. *)
Definition or (a b : string) : string := if decide (a = "") then b else a.

(** The text [s] with every apostrophe replaced by a double quote: the
    way JSON text is written down in this file. *)
Fixpoint quoted (s : string) : string :=
  match s with
  | EmptyString => EmptyString
  | String c s' => String (if decide (c = "'"%char) then ascii_of_N 34 else c) (quoted s')
  end.

End Str.

(** ** Completions and host values *)

(** An [Error] object, as far as the script looks at one. *)
Record Error := mkError { name : string; message : string }.

(** The completion of an evaluation: a value, or a thrown exception. *)
Inductive Completion (A : Type) : Type :=
| Normal (a : A)
| Throw (e : Error).
Arguments Normal {A} a.
Arguments Throw {A} e.

#[global] Instance Completion_ret : MRet Completion := fun _ a => Normal a.
#[global] Instance Completion_bind : MBind Completion := fun _ _ f c =>
  match c with
  | Normal a => f a
  | Throw e => Throw e
  end.

Definition TypeError (msg : string) : Error := mkError "TypeError" msg.

(** A value produced by [JSON.parse].  A number is kept as the decimal it
    was written as, [mantissa] times ten to the [exponent]: rounding to a
    binary64 double is not modelled. *)
#[local] Unset Elimination Schemes.
Inductive JSON : Type :=
| JNull
| JBool (b : bool)
| JNumber (mantissa exponent : Z)
| JString (s : string)
| JArray (elements : list JSON)
| JObject (members : list (string * JSON)).
#[local] Set Elimination Schemes.

(** The result of reading a property: a value, or [undefined] ([None]). *)
Abbreviation JSValue := (option JSON).

Class Host := {
  (** [JSON.parse(text)]; it throws a [SyntaxError] on malformed text. *)
  JSON_parse : string -> Completion JSON;
  (** [String(x)] for the number [mantissa * 10 ^ exponent]. *)
  Number_toString : Z -> Z -> string;
  (** [marked.parse], when the Marked library is loaded in the page. *)
  marked_parse : option (string -> string);
}.

Module JS.

Definition ToBoolean (v : JSON) : bool :=
  match v with
  | JNull => false
  | JBool b => b
  | JNumber m _ => negb (m =? 0)%Z
  | JString s => negb (bool_decide (s = ""))
  | JArray _ | JObject _ => true
  end.

Definition truthy (v : JSValue) : bool := from_option ToBoolean false v.

(** The own property [key] of an object built by [JSON.parse]: of two
    members with the same key the later one stays. *)
Fixpoint member (key : string) (members : list (string * JSON)) : JSValue :=
  match members with
  | [] => None
  | (k, v) :: rest =>
      match member key rest with
      | Some v' => Some v'
      | None => if decide (k = key) then Some v else None
      end
  end.

(** [o.key], for a [key] that no prototype defines (the script reads
    [choices], [delta] and [content]).  Reading a property of [null] or
    [undefined] throws. *)
Definition Get (o : JSValue) (key : string) : Completion JSValue :=
  match o with
  | None => Throw (TypeError ("Cannot read properties of undefined (reading '" +:+ key +:+ "')"))
  | Some JNull => Throw (TypeError ("Cannot read properties of null (reading '" +:+ key +:+ "')"))
  | Some (JObject members) => Normal (member key members)
  | Some _ => Normal None
  end.

(** [o[i]] for an array index [i]. *)
Definition GetIndex (o : JSValue) (i : nat) : Completion JSValue :=
  match o with
  | None => Throw (TypeError ("Cannot read properties of undefined (reading '" +:+ pretty i +:+ "')"))
  | Some JNull => Throw (TypeError ("Cannot read properties of null (reading '" +:+ pretty i +:+ "')"))
  | Some (JObject members) => Normal (member (pretty i) members)
  | Some (JArray elements) => Normal (elements !! i)
  | Some (JString s) =>
      Normal (match Str.substring i s with
              | String c _ => Some (JString (String c ""))
              | EmptyString => None
              end)
  | Some _ => Normal None
  end.

Section WithHost.
Context `{Host}.

(** [String(v)], as string concatenation applies it to a JSON value. *)
Fixpoint ToString (v : JSON) : string :=
  match v with
  | JNull => "null"
  | JBool true => "true"
  | JBool false => "false"
  | JNumber m e => Number_toString m e
  | JString s => s
  | JArray elements =>
      Str.join "," ((fun x => match x with JNull => "" | _ => ToString x end) <$> elements)
  | JObject _ => "[object Object]"
  end.

End WithHost.

End JS.

(** ** The data model *)

(** The article that the bundled readability library extracts.  A missing
    text field is the empty string; a duration is in whole seconds;
    [imageTitle] and [videoTitle] are the [title] of an image and of a
    video. *)
Module Article.
Record Image := { alt : string; imageTitle : string }.
Record Video := { type : string; videoTitle : string; duration : nat }.
Record t := {
  title : string;
  byline : string;
  siteName : string;
  content : string;
  textContent : string;
  images : list Image;
  videos : list Video;
}.
End Article.

Record ChatMessage := { role : string; content : string }.

Record ChatState := {
  loading : bool;
  apiKey : string;
  messages : list ChatMessage;
  currentIndex : nat;
}.

(** The elements of the overlay that the script reads or writes. *)
Record Button := { disabled : bool; textContent : string }.

Inductive MessageBody :=
| innerHTML (html : string)
| bodyText (text : string).

Record MessageDiv := {
  className : string;
  header : string;
  body : MessageBody;
}.

(** The inline style that [applySettings] writes: the font size as text,
    the other properties as the values assigned to them. *)
Record Style := {
  fontSize : string;
  lineHeight : JSValue;
  fontFamily : JSValue;
  maxWidth : JSValue;
  color : JSValue;
  backgroundColor : JSValue;
}.

(** An element with id [reader-overlay], as [openReader] builds it.  The
    markup of the article is kept as the text assigned to [innerHTML]; the
    reshaping of its media elements is not modelled. *)
Record Overlay := {
  theme : string;
  themeButton : string;
  articleStyle : Style;
  heading : string;
  meta : string;
  readerContent : string;
  activeTab : string;
  messagesContainer : list MessageDiv;
  userInput : string;
  sendButton : Button;
}.

(** The document: the overlays mounted under [body], in document order,
    the class list of [body], and the title of the page. *)
Record Document := {
  overlays : list Overlay;
  classList : gset string;
  pageTitle : string;
}.

Inductive LogArg :=
| Text (s : string)
| Thrown (e : Error)
| History (ms : list ChatMessage).

Inductive ConsoleEntry :=
| console_log (args : list LogArg)
| console_warn (args : list LogArg)
| console_error (args : list LogArg).

(** A callback queued with [setTimeout]. *)
Inductive Timer := InitializeChatInterface.

Record World := {
  chatState : ChatState;
  document : Document;
  console : list ConsoleEntry;
  storage : gmap string JSON;
  timers : list Timer;
}.

(** *** Updates of a field *)

Definition withChatState (f : ChatState -> ChatState) (w : World) : World :=
  {| chatState := f (chatState w); document := document w; console := console w;
     storage := storage w; timers := timers w |}.

Definition withDocument (f : Document -> Document) (w : World) : World :=
  {| chatState := chatState w; document := f (document w); console := console w;
     storage := storage w; timers := timers w |}.

Definition print (entry : ConsoleEntry) (w : World) : World :=
  {| chatState := chatState w; document := document w; console := console w ++ [entry];
     storage := storage w; timers := timers w |}.

Definition withStorage (f : gmap string JSON -> gmap string JSON) (w : World) : World :=
  {| chatState := chatState w; document := document w; console := console w;
     storage := f (storage w); timers := timers w |}.

Definition setTimeout (t : Timer) (w : World) : World :=
  {| chatState := chatState w; document := document w; console := console w;
     storage := storage w; timers := timers w ++ [t] |}.

Definition setLoading (b : bool) (c : ChatState) : ChatState :=
  {| loading := b; apiKey := apiKey c; messages := messages c; currentIndex := currentIndex c |}.

Definition withMessages (f : list ChatMessage -> list ChatMessage) (c : ChatState) : ChatState :=
  {| loading := loading c; apiKey := apiKey c; messages := f (messages c);
     currentIndex := currentIndex c |}.

Definition withOverlays (f : list Overlay -> list Overlay) (d : Document) : Document :=
  {| overlays := f (overlays d); classList := classList d; pageTitle := pageTitle d |}.

Definition withClassList (f : gset string -> gset string) (d : Document) : Document :=
  {| overlays := overlays d; classList := f (classList d); pageTitle := pageTitle d |}.

(** An update of the first overlay in document order: the one in which
    [getElementById] finds the elements of the chat panel. *)
Definition withFirstOverlay (f : Overlay -> Overlay) (d : Document) : Document :=
  withOverlays (fun os => match os with [] => [] | o :: rest => f o :: rest end) d.

Definition setUserInput (value : string) (o : Overlay) : Overlay :=
  {| theme := theme o; themeButton := themeButton o; articleStyle := articleStyle o;
     heading := heading o; meta := meta o; readerContent := readerContent o;
     activeTab := activeTab o; messagesContainer := messagesContainer o;
     userInput := value; sendButton := sendButton o |}.

Definition setSendButton (b : Button) (o : Overlay) : Overlay :=
  {| theme := theme o; themeButton := themeButton o; articleStyle := articleStyle o;
     heading := heading o; meta := meta o; readerContent := readerContent o;
     activeTab := activeTab o; messagesContainer := messagesContainer o;
     userInput := userInput o; sendButton := b |}.

Definition setMessagesContainer (children : list MessageDiv) (o : Overlay) : Overlay :=
  {| theme := theme o; themeButton := themeButton o; articleStyle := articleStyle o;
     heading := heading o; meta := meta o; readerContent := readerContent o;
     activeTab := activeTab o; messagesContainer := children;
     userInput := userInput o; sendButton := sendButton o |}.

Definition setTheme (t label : string) (o : Overlay) : Overlay :=
  {| theme := t; themeButton := label; articleStyle := articleStyle o;
     heading := heading o; meta := meta o; readerContent := readerContent o;
     activeTab := activeTab o; messagesContainer := messagesContainer o;
     userInput := userInput o; sendButton := sendButton o |}.

Definition setActiveTab (tab : string) (o : Overlay) : Overlay :=
  {| theme := theme o; themeButton := themeButton o; articleStyle := articleStyle o;
     heading := heading o; meta := meta o; readerContent := readerContent o;
     activeTab := tab; messagesContainer := messagesContainer o;
     userInput := userInput o; sendButton := sendButton o |}.

(** *** What the environment answers *)

(** How the reads of a response body end: [done], or a rejected read. *)
Inductive ReadEnd :=
| EndOfStream
| ReadFails (e : Error).

(** The body of a response: for each read that delivers a chunk, the text
    that [decoder.decode(value, { stream: true })] returns for it, and how
    the reads end.  The decoder completes a character that the transport
    has cut with the bytes of the next chunk, so the texts of the reads
    make up the text of the body, however the transport cuts it. *)
Record Body := { chunks : list string; ending : ReadEnd }.

Record Response := { ok : bool; status : nat; responseBody : option Body }.

Inductive FetchOutcome :=
| Rejected (e : Error)
| Resolved (response : Response).

(** ** The script *)

Definition OVERLAY_ID : string := "reader-overlay".

Definition BODY_ACTIVE_CLASS : string := "reader-mode-active".

Definition DEFAULT_SETTINGS : gmap string JSON :=
  list_to_map [
    ("fontSize", JNumber 18 0);
    ("lineHeight", JNumber 18 (-1));
    ("fontFamily", JString (Str.quoted
       "-apple-system, BlinkMacSystemFont, 'Segoe UI', Roboto, Helvetica, Arial, sans-serif;"));
    ("backgroundColor", JString "#ffffff");
    ("textColor", JString "#1f2933");
    ("maxWidth", JString "1000px");
    ("darkMode", JBool false)
  ].

Definition SYSTEM_PROMPT : ChatMessage :=
  {| role := "system"; content := "You are a helpful assistant." |}.

(** The chat state when the script is loaded, for the key it embeds. *)
Definition initialChatState (key : string) : ChatState :=
  {| loading := false; apiKey := key; messages := [SYSTEM_PROMPT]; currentIndex := 0 |}.

(** [document.getElementById(OVERLAY_ID)] *)
Definition getOverlay (d : Document) : option Overlay := head (overlays d).

(** [document.getElementById("userInput")] and its [value] *)
Definition getUserInput (d : Document) : option string := userInput <$> head (overlays d).

(** [document.getElementById("sendButton")] *)
Definition getSendButton (d : Document) : option Button := sendButton <$> head (overlays d).

(** [document.getElementById("messagesContainer")] and its children *)
Definition getMessagesContainer (d : Document) : option (list MessageDiv) :=
  messagesContainer <$> head (overlays d).

Definition isReaderActive (d : Document) : bool :=
  match getOverlay d with
  | Some _ => true
  | None => false
  end.

Definition removeReader (d : Document) : Document :=
  let d := match getOverlay d with
           | Some _ => withOverlays (drop 1) d
           | None => d
           end in
  withClassList (fun classes => classes ∖ {[BODY_ACTIVE_CLASS]}) d.

(** The own enumerable properties of a value, which [Object.assign]
    copies. *)
Definition ownProperties (v : JSON) : gmap string JSON :=
  match v with
  | JObject members => list_to_map (reverse members)
  | JArray elements => list_to_map (imap (fun i x => (pretty i, x)) elements)
  | JString s =>
      list_to_map (imap (fun i c => (pretty i, JString (String c ""))) (String.list_ascii_of_string s))
  | _ => ∅
  end.

(** [Object.assign(target, ...sources)]: a later source overrides. *)
Definition Object_assign (target : gmap string JSON) (sources : list (gmap string JSON))
  : gmap string JSON :=
  foldl (fun acc source => source ∪ acc) target sources.

Section Script.
Context `{Host}.

Definition ToStringV (v : JSValue) : string :=
  match v with
  | Some x => JS.ToString x
  | None => "undefined"
  end.

Definition applySettings (settings : gmap string JSON) : Style :=
  {| fontSize := ToStringV (settings !! "fontSize") +:+ "px";
     lineHeight := settings !! "lineHeight";
     fontFamily := settings !! "fontFamily";
     maxWidth := settings !! "maxWidth";
     color := settings !! "textColor";
     backgroundColor := settings !! "backgroundColor" |}.

Definition fetchReaderSettings (w : World) : gmap string JSON :=
  let readerSettings := storage w !! "readerSettings" in
  Object_assign ∅ [DEFAULT_SETTINGS;
                   ownProperties (if JS.truthy readerSettings
                                  then default (JObject []) readerSettings
                                  else JObject [])].

(** [now] is the text of [new Date().toLocaleString()]. *)
Definition createMetaSection (article : Article.t) (now : string) : string :=
  let fragments := [] in
  let fragments := if decide (Article.siteName article = "") then fragments
                   else fragments ++ [Article.siteName article] in
  let fragments := if decide (Article.byline article = "") then fragments
                   else fragments ++ [Article.byline article] in
  let fragments := fragments ++ [now] in
  Str.join " · " fragments.

(** The scroll offset of the message list is not tracked. *)
Definition scrollToBottom (w : World) : World := w.

Definition formatContent (content : string) : string :=
  match marked_parse with
  | Some parse => parse content
  | None => content
  end.

(** The element that one round of the loop of [renderMessages] appends. *)
Definition messageDiv (item : ChatMessage) : MessageDiv :=
  {| className := "message " +:+ (if decide (role item = "user") then "user" else "assistant");
     header := if decide (role item = "user") then "你：" else "AI：";
     body := if decide (role item = "assistant")
             then innerHTML (Str.or (formatContent (content item)) "")
             else bodyText (Str.or (content item) "") |}.

(** [items.forEach((item, index) => ...)] appending to [children]. *)
Fixpoint forEachMessage (index : nat) (items : list ChatMessage) (children : list MessageDiv)
  : list MessageDiv :=
  match items with
  | [] => children
  | item :: rest =>
      forEachMessage (S index) rest
        (if decide (index = 0) then children else children ++ [messageDiv item])
  end.

Definition renderMessages (w : World) : World :=
  match getMessagesContainer (document w) with
  | None => w
  | Some _ =>
      withDocument (withFirstOverlay
        (setMessagesContainer (forEachMessage 0 (messages (chatState w)) []))) w
  end.

Definition showMessage (type message : string) (w : World) : World :=
  print (console_log [Text ("[" +:+ type +:+ "] " +:+ message)]) w.

Definition push (m : ChatMessage) (w : World) : World :=
  withChatState (withMessages (fun ms => ms ++ [m])) w.

(** [chatState.messages.pop()] *)
Definition pop (w : World) : World :=
  withChatState (withMessages (fun ms => take (length ms - 1) ms)) w.

(** *** [querycontent]: the text of the message about the page *)

Definition imageLine (index : nat) (img : Article.Image) : string :=
  String Str.newline "图片" +:+ pretty (index + 1) +:+ ": "
    +:+ Str.or (Article.alt img) (Str.or (Article.imageTitle img) "无标题").

Definition videoLine (index : nat) (video : Article.Video) : string :=
  let videoInfo :=
    if decide (Article.type video = "video")
    then "视频" +:+ pretty (index + 1) +:+ ": " +:+ Str.or (Article.videoTitle video) "无标题"
           +:+ (if decide (Article.duration video = 0) then ""
                else " (时长: " +:+ pretty (Article.duration video / 60) +:+ "分"
                       +:+ pretty (Article.duration video `mod` 60) +:+ "秒)")
    else "视频" +:+ pretty (index + 1) +:+ ": " +:+ Article.type video +:+ " 平台嵌入视频 - "
           +:+ Str.or (Article.videoTitle video) "无标题" in
  String Str.newline videoInfo.

Definition pageMessage (article : Article.t) : string :=
  let cleanText := Str.trim (Article.textContent article) in
  let contentMessage := "分析网页内容：" +:+ cleanText in
  let images := Article.images article in
  let contentMessage :=
    if decide (0 < length images) then
      let m := contentMessage +:+ String Str.newline (String Str.newline "包含 ")
                 +:+ pretty (length images) +:+ " 张图片" in
      let m := m +:+ Str.concat (imap imageLine (take 5 images)) in
      if decide (5 < length images)
      then m +:+ String Str.newline "...还有 " +:+ pretty (length images - 5) +:+ " 张图片"
      else m
    else contentMessage in
  let videos := Article.videos article in
  if decide (0 < length videos) then
    contentMessage +:+ String Str.newline (String Str.newline "包含 ")
      +:+ pretty (length videos) +:+ " 个视频"
      +:+ Str.concat (imap videoLine videos)
  else contentMessage.

(** *** [openReader] *)

Definition sendButtonMarkup : Button :=
  {| disabled := false;
     textContent := String Str.newline "        发送" +:+ String Str.newline "      " |}.

(** The overlay that [openReader] assembles from the article and the
    settings; [now] is the text of the current time. *)
Definition buildOverlay (article : Article.t) (settings : gmap string JSON)
    (now : string) (d : Document) : Overlay :=
  let darkMode := JS.truthy (settings !! "darkMode") in
  {| theme := if darkMode then "dark" else "light";
     themeButton := if darkMode then "浅色模式" else "暗色模式";
     articleStyle := applySettings settings;
     heading := Str.or (Article.title article) (Str.or (pageTitle d) "未命名文章");
     meta := createMetaSection article now;
     readerContent := Article.content article;
     activeTab := "tab1";
     messagesContainer := [];
     userInput := "";
     sendButton := sendButtonMarkup |}.

(** [document.body.appendChild(overlay)] *)
Definition appendOverlay (overlay : Overlay) (d : Document) : Document :=
  withOverlays (fun os => os ++ [overlay]) d.

(** The part of [openReader] after [await fetchReaderSettings()]; it runs
    without interruption.  The listeners that it binds are the handlers
    below; the keyboard focus and the drag of the resizer are not
    modelled. *)
Definition mountReader (article : Article.t) (settings : gmap string JSON)
    (now : string) (w : World) : World :=
  let w := withDocument removeReader w in
  let overlay := buildOverlay article settings now (document w) in
  let w := withDocument (appendOverlay overlay) w in
  let w := withDocument (withClassList (fun classes => classes ∪ {[BODY_ACTIVE_CLASS]})) w in
  setTimeout InitializeChatInterface w.

(** [extracted] is what [ReaderAbility.extractFromDocument(document)]
    returns: an article, or nothing. *)
Definition openReader (extracted : option Article.t) (now : string) (w : World)
  : Completion string * World :=
  match extracted with
  | None => (Throw (mkError "Error" "未能提取正文内容"), w)
  | Some article =>
      let settings := fetchReaderSettings w in
      (Normal (Article.content article), mountReader article settings now w)
  end.

Definition querycontent (extracted : option Article.t) (now : string) (w : World)
  : Completion unit * World :=
  if isReaderActive (document w) then
    match extracted with
    | None => (Throw (mkError "Error" "未能提取正文内容"), w)
    | Some article =>
        let w := push {| role := "user"; content := pageMessage article |} w in
        (Normal (), renderMessages w)
    end
  else
    match openReader extracted now w with
    | (Throw e, w) => (Throw e, w)
    | (Normal articleText, w) =>
        let cleanText := Str.trim articleText in
        let w := print (console_log [Text cleanText]) w in
        let w := push {| role := "user"; content := "网页内容：" +:+ cleanText |} w in
        (Normal (), renderMessages w)
    end.

(** *** [askChatGPT] *)

(** [data.choices && data.choices[0] && data.choices[0].delta] *)
Definition delta (data : JSON) : Completion JSValue :=
  choices ← JS.Get (Some data) "choices";
  if negb (JS.truthy choices) then mret choices else
  first ← JS.GetIndex choices 0;
  if negb (JS.truthy first) then mret first else
  JS.Get first "delta".

(** The part of the [try] block of a data line that only computes:
    [JSON.parse(line.substring(6))], the test on [delta], and
    [data.choices[0].delta.content || ''].  [Normal None]: the test on
    [delta] fails. *)
Definition deltaContent (line : string) : Completion (option JSValue) :=
  data ← JSON_parse (Str.substring 6 line);
  d ← delta data;
  if JS.truthy d then
    content ← JS.Get d "content";
    mret (Some (if JS.truthy content then content else Some (JString "")))
  else mret None.

(** [chatState.messages[chatState.messages.length - 1].content = text] *)
Definition setLastContent (text : string) (w : World) : Completion World :=
  let ms := messages (chatState w) in
  match last ms with
  | None => Throw (TypeError "Cannot set properties of undefined (setting 'content')")
  | Some m =>
      Normal (withChatState (withMessages
                (fun ms => <[length ms - 1 := {| role := role m; content := text |}]> ms)) w)
  end.

Definition parseFailed (e : Error) (w : World) : World :=
  print (console_warn [Text "解析JSON失败:"; Thrown e]) w.

(** The body of [for (const line of lines)], on the running text
    [accumulatedContent]. *)
Definition processLine (line : string) (accumulatedContent : string) (w : World)
  : string * World :=
  if decide (Str.trim line = "") then (accumulatedContent, w)
  else if decide (line = "data: [DONE]") then (accumulatedContent, w)
  else if Str.startsWith "data: " line then
    match deltaContent line with
    | Throw e => (accumulatedContent, parseFailed e w)
    | Normal None => (accumulatedContent, w)
    | Normal (Some content) =>
        if JS.truthy content then
          let accumulatedContent := accumulatedContent +:+ ToStringV content in
          match setLastContent accumulatedContent w with
          | Throw e => (accumulatedContent, parseFailed e w)
          | Normal w => (accumulatedContent, renderMessages w)
          end
        else (accumulatedContent, w)
    end
  else (accumulatedContent, w).

Fixpoint forLines (lines : list string) (accumulatedContent : string) (w : World)
  : string * World :=
  match lines with
  | [] => (accumulatedContent, w)
  | line :: rest =>
      let '(accumulatedContent, w) := processLine line accumulatedContent w in
      forLines rest accumulatedContent w
  end.

(** The [while (true)] loop over the reads of the body. *)
Fixpoint readLoop (reads : list string) (final : ReadEnd)
    (buffer accumulatedContent : string) (w : World) : Completion unit * World :=
  match reads with
  | [] =>
      match final with
      | EndOfStream => (Normal (), w)
      | ReadFails e => (Throw e, w)
      end
  | value :: reads' =>
      let buffer := buffer +:+ value in
      let lines := Str.split buffer in
      let buffer := Str.or (default "" (last lines)) "" in
      let lines := take (length lines - 1) lines in
      let '(accumulatedContent, w) := forLines lines accumulatedContent w in
      readLoop reads' final buffer accumulatedContent w
  end.

(** The [try] block. *)
Definition request (net : FetchOutcome) (w : World) : Completion unit * World :=
  match net with
  | Rejected e => (Throw e, w)
  | Resolved response =>
      if negb (ok response)
      then (Throw (mkError "Error" ("HTTP " +:+ pretty (status response))), w)
      else
        let w := push {| role := "assistant"; content := "" |} w in
        let w := renderMessages w in
        match responseBody response with
        | None => (Throw (TypeError "Cannot read properties of null (reading 'getReader')"), w)
        | Some body => readLoop (chunks body) (ending body) "" "" w
        end
  end.

(** The [catch] block. *)
Definition requestFailed (inputText : string) (error : Error) (w : World) : World :=
  let w := print (console_error [Text "请求失败:"; Thrown error]) w in
  let w := pop w in
  let w := renderMessages w in
  let w := withDocument (withFirstOverlay (setUserInput inputText)) w in
  showMessage "error" ("请求失败: " +:+ message error) w.

(** The [finally] block. *)
Definition restoreButton (w : World) : World :=
  let w := withChatState (setLoading false) w in
  let w := match getSendButton (document w) with
           | Some _ =>
               withDocument (withFirstOverlay
                 (setSendButton {| disabled := false; textContent := "发送" |})) w
           | None => w
           end in
  scrollToBottom w.

Definition askChatGPT (net : FetchOutcome) (w : World) : World :=
  match getUserInput (document w) with
  | None => print (console_error [Text "找不到输入框"]) w
  | Some value =>
      let inputText := Str.trim value in
      if decide (inputText = "") then showMessage "warning" "请输入内容" w
      else if loading (chatState w) then w
      else
        let w := withChatState (setLoading true) w in
        let w := match getSendButton (document w) with
                 | Some _ =>
                     scrollToBottom
                       (withDocument (withFirstOverlay
                          (setSendButton {| disabled := true; textContent := "发送中..." |})) w)
                 | None => w
                 end in
        let w := push {| role := "user"; content := inputText |} w in
        let w := renderMessages w in
        let w := print (console_log [History (messages (chatState w))]) w in
        let w := withDocument (withFirstOverlay (setUserInput "")) w in
        let w := match request net w with
                 | (Normal _, w) => w
                 | (Throw error, w) => requestFailed inputText error w
                 end in
        restoreButton w
  end.

Definition initializeChatInterface (w : World) : World := renderMessages w.

(** The event loop runs the oldest queued callback. *)
Definition runTimer (w : World) : World :=
  match timers w with
  | [] => w
  | InitializeChatInterface :: rest =>
      initializeChatInterface
        {| chatState := chatState w; document := document w; console := console w;
           storage := storage w; timers := rest |}
  end.

(** *** The toolbar, [toggleReader] and the message listener *)

(** The click handler of the toolbar; [settings] is the object that the
    call of [openReader] which built the toolbar had fetched.  The
    notebook panel is not modelled. *)
Definition toolbarClick (settings : gmap string JSON) (action : string) (w : World) : World :=
  if decide (action = "") then w
  else if decide (action = "close") then withDocument removeReader w
  else if decide (action = "toggle-theme") then
    match getOverlay (document w) with
    | None => w
    | Some overlay =>
        let current := bool_decide (theme overlay = "dark") in
        let w := withDocument (withFirstOverlay
                   (setTheme (if current then "light" else "dark")
                             (if current then "暗色模式" else "浅色模式"))) w in
        withStorage (fun st =>
          <["readerSettings" :=
              JObject (map_to_list (Object_assign ∅
                         [settings; {["darkMode" := JBool (negb current)]}]))]> st) w
    end
  else if decide (action = "setnote") then
    print (console_log [Text "切换到笔记本模式"])
      (withDocument (withFirstOverlay (setActiveTab "tab2")) w)
  else if decide (action = "ai") then
    print (console_log [Text "切换到AI模式"])
      (withDocument (withFirstOverlay (setActiveTab "tab1")) w)
  else w.

(** What [toggleReader] returns: the plain object [{ active: false }], or
    the promise of [openReader().then(...)], here with its settlement. *)
Inductive Toggled :=
| PlainObject (active : bool)
| Promise (settled : Completion bool).

Definition toggleReader (extracted : option Article.t) (now : string) (w : World)
  : Toggled * World :=
  if isReaderActive (document w) then
    (PlainObject false, withDocument removeReader w)
  else
    match openReader extracted now w with
    | (Normal _, w) => (Promise (Normal true), w)
    | (Throw error, w) =>
        let w := print (console_error [Text "Reader mode error:"; Thrown error]) w in
        (Promise (Throw error), withDocument removeReader w)
    end.

(** An answer passed to [sendResponse]. *)
Record Reply := { success : bool; active : option bool; error : option string }.

(** The listener of [chrome.runtime.onMessage] on a message with the given
    [action]: what it returns or throws, and the answers it sends. *)
Definition onMessage (action : string) (extracted : option Article.t) (now : string)
    (w : World) : Completion bool * list Reply * World :=
  if decide (action = "toggle-reader") then
    match toggleReader extracted now w with
    | (PlainObject _, w) =>
        (Throw (TypeError "toggleReader(...).then is not a function"), [], w)
    | (Promise (Normal state), w) =>
        (Normal true, [{| success := true; active := Some state; error := None |}], w)
    | (Promise (Throw e), w) =>
        (Normal true, [{| success := false; active := None; error := Some (message e) |}], w)
    end
  else if decide (action = "get-reader-state") then
    (Normal true,
     [{| success := true; active := Some (isReaderActive (document w)); error := None |}], w)
  else if decide (action = "close-reader") then
    let w := withDocument removeReader w in
    (Normal true, [{| success := true; active := Some false; error := None |}], w)
  else (Normal false, [], w).

End Script.

(** ** A host to run the script on

    A reader of JSON text after the grammar of ECMA-404, the printing of a
    decimal after [Number::toString], and a page without the Marked
    library. *)

Module Browser.

Definition code (c : ascii) : N := N_of_ascii c.

Definition isSpace (c : ascii) : bool :=
  bool_decide (code c ∈ [32; 9; 10; 13]%N).

Fixpoint skipSpace (s : string) : string :=
  match s with
  | String c s' => if isSpace c then skipSpace s' else s
  | EmptyString => s
  end.

Definition digit (c : ascii) : option Z :=
  if bool_decide (48 ≤ code c ≤ 57)%N then Some (Z.of_N (code c) - 48)%Z else None.

Definition hexDigit (c : ascii) : option N :=
  let n := code c in
  if bool_decide (48 ≤ n ≤ 57)%N then Some (n - 48)%N
  else if bool_decide (65 ≤ n ≤ 70)%N then Some (n - 55)%N
  else if bool_decide (97 ≤ n ≤ 102)%N then Some (n - 87)%N
  else None.

(** The longest run of digits at the head of [s]: its value after [acc],
    its length, and the rest. *)
Fixpoint digits (s : string) (acc : Z) (count : nat) : Z * nat * string :=
  match s with
  | String c s' =>
      match digit c with
      | Some d => digits s' (10 * acc + d)%Z (S count)
      | None => (acc, count, s)
      end
  | EmptyString => (acc, count, s)
  end.

(** A number: an optional minus sign, an integer part without leading
    zero, an optional fraction and an optional exponent. *)
Definition number (s : string) : option (JSON * string) :=
  let '(negative, s) := match s with
                        | String "-" s' => (true, s')
                        | _ => (false, s)
                        end in
  '(int, s) ← match s with
              | String "0" s' => Some (0%Z, s')
              | _ => let '(v, n, s') := digits s 0%Z 0 in
                     if decide (n = 0) then None else Some (v, s')
              end;
  '(mant, scale, s) ← match s with
                      | String "." s' =>
                          let '(v, n, s'') := digits s' int 0 in
                          if decide (n = 0) then None else Some (v, Z.of_nat n, s'')
                      | _ => Some (int, 0%Z, s)
                      end;
  '(exp, s) ← match s with
              | String c s' =>
                  if bool_decide (c = "e"%char ∨ c = "E"%char) then
                    let '(minus, s') := match s' with
                                        | String "+" t => (false, t)
                                        | String "-" t => (true, t)
                                        | _ => (false, s')
                                        end in
                    let '(v, n, s'') := digits s' 0%Z 0 in
                    if decide (n = 0) then None
                    else Some (if minus then (- v)%Z else v, s'')
                  else Some (0%Z, s)
              | EmptyString => Some (0%Z, s)
              end;
  Some (JNumber (if negative then - mant else mant)%Z (exp - scale)%Z, s).

(** The UTF-8 text of a code point. *)
Definition utf8 (cp : N) : string :=
  Str.bytes
    (if bool_decide (cp < 128)%N then [cp]
     else if bool_decide (cp < 2048)%N then [192 + cp / 64; 128 + cp `mod` 64]
     else if bool_decide (cp < 65536)%N
          then [224 + cp / 4096; 128 + (cp / 64) `mod` 64; 128 + cp `mod` 64]
     else [240 + cp / 262144; 128 + (cp / 4096) `mod` 64;
           128 + (cp / 64) `mod` 64; 128 + cp `mod` 64])%N.

(** Four hexadecimal digits. *)
Definition hex4 (s : string) : option (N * string) :=
  match s with
  | String a (String b (String c (String d rest))) =>
      a ← hexDigit a; b ← hexDigit b; c ← hexDigit c; d ← hexDigit d;
      Some (((a * 16 + b) * 16 + c) * 16 + d, rest)%N
  | _ => None
  end.

(** A [\uXXXX] escape whose digits stand at the head of [s]; a high
    surrogate takes the low surrogate escape that follows it. *)
Definition unicodeEscape (s : string) : option (string * string) :=
  '(u, rest) ← hex4 s;
  let alone := Some (utf8 u, rest) in
  if bool_decide (55296 ≤ u < 56320)%N then
    match rest with
    | String "\" (String "u" rest') =>
        match hex4 rest' with
        | Some (v, rest'') =>
            if bool_decide (56320 ≤ v < 57344)%N
            then Some (utf8 (65536 + (u - 55296) * 1024 + (v - 56320))%N, rest'')
            else alone
        | None => alone
        end
    | _ => alone
    end
  else alone.

Definition simpleEscape (c : ascii) : option ascii :=
  if decide (c = ascii_of_N 34) then Some c
  else if decide (c = "\"%char) then Some c
  else if decide (c = "/"%char) then Some c
  else if decide (c = "b"%char) then Some (ascii_of_N 8)
  else if decide (c = "f"%char) then Some (ascii_of_N 12)
  else if decide (c = "n"%char) then Some (ascii_of_N 10)
  else if decide (c = "r"%char) then Some (ascii_of_N 13)
  else if decide (c = "t"%char) then Some (ascii_of_N 9)
  else None.

(** The characters of a string literal after its opening quote. *)
Fixpoint characters (fuel : nat) (s : string) (acc : string) : option (string * string) :=
  match fuel with
  | O => None
  | S fuel' =>
      match s with
      | EmptyString => None
      | String c rest =>
          if decide (c = ascii_of_N 34) then Some (acc, rest)
          else if decide (c = "\"%char) then
            match rest with
            | String e rest' =>
                match simpleEscape e with
                | Some x => characters fuel' rest' (acc +:+ String x "")
                | None =>
                    if decide (e = "u"%char) then
                      '(text, rest'') ← unicodeEscape rest';
                      characters fuel' rest'' (acc +:+ text)
                    else None
                end
            | EmptyString => None
            end
          else if bool_decide (code c < 32)%N then None
          else characters fuel' rest (acc +:+ String c "")
      end
  end.

Definition stringLiteral (s : string) : option (string * string) :=
  match s with
  | String c rest =>
      if decide (c = ascii_of_N 34) then characters (String.length rest) rest "" else None
  | EmptyString => None
  end.

Definition keyword (word : string) (v : JSON) (s : string) : option (JSON * string) :=
  if Str.startsWith word s then Some (v, Str.substring (String.length word) s) else None.

(** A value at the head of [s], after white space; [elements] and
    [members] read the rest of an array and of an object. *)
Fixpoint value (fuel : nat) (s : string) : option (JSON * string) :=
  match fuel with
  | O => None
  | S fuel' =>
      let s := skipSpace s in
      match s with
      | EmptyString => None
      | String c rest =>
          if decide (c = "["%char) then
            match skipSpace rest with
            | String "]" rest' => Some (JArray [], rest')
            | _ => elements fuel' rest []
            end
          else if decide (c = "{"%char) then
            match skipSpace rest with
            | String "}" rest' => Some (JObject [], rest')
            | _ => members fuel' rest []
            end
          else if decide (c = ascii_of_N 34) then
            '(text, rest') ← stringLiteral s; Some (JString text, rest')
          else if decide (c = "t"%char) then keyword "true" (JBool true) s
          else if decide (c = "f"%char) then keyword "false" (JBool false) s
          else if decide (c = "n"%char) then keyword "null" JNull s
          else number s
      end
  end
with elements (fuel : nat) (s : string) (acc : list JSON) : option (JSON * string) :=
  match fuel with
  | O => None
  | S fuel' =>
      '(v, rest) ← value fuel' s;
      match skipSpace rest with
      | String "," rest' => elements fuel' rest' (acc ++ [v])
      | String "]" rest' => Some (JArray (acc ++ [v]), rest')
      | _ => None
      end
  end
with members (fuel : nat) (s : string) (acc : list (string * JSON)) : option (JSON * string) :=
  match fuel with
  | O => None
  | S fuel' =>
      '(key, rest) ← stringLiteral (skipSpace s);
      match skipSpace rest with
      | String ":" rest' =>
          '(v, rest'') ← value fuel' rest';
          match skipSpace rest'' with
          | String "," rest3 => members fuel' rest3 (acc ++ [(key, v)])
          | String "}" rest3 => Some (JObject (acc ++ [(key, v)]), rest3)
          | _ => None
          end
      | _ => None
      end
  end.

Definition SyntaxError : Error := mkError "SyntaxError" "Unexpected token in JSON".

Definition parse (text : string) : Completion JSON :=
  match value (2 * String.length text + 2) text with
  | Some (v, rest) =>
      match skipSpace rest with
      | EmptyString => Normal v
      | String _ _ => Throw SyntaxError
      end
  | None => Throw SyntaxError
  end.

(** The digits of [s] without its trailing zeros, and their number. *)
Fixpoint trimZeros (fuel : nat) (m : Z) (e : Z) : Z * Z :=
  match fuel with
  | O => (m, e)
  | S fuel' => if decide (m `mod` 10 = 0)%Z then trimZeros fuel' (m / 10)%Z (e + 1)%Z else (m, e)
  end.

Definition zeros (n : Z) : string :=
  Str.concat (replicate (Z.to_nat n) "0").

Fixpoint takeString (n : nat) (s : string) : string :=
  match n, s with
  | S n', String c s' => String c (takeString n' s')
  | _, _ => EmptyString
  end.

(** [Number::toString] in radix ten for the decimal [m * 10 ^ e]. *)
Definition printNumber (m e : Z) : string :=
  if decide (m = 0)%Z then "0" else
  let '(d, e) := trimZeros (Z.to_nat (Z.log2 (Z.abs m))) (Z.abs m) e in
  let s : string := pretty d in
  let k := Z.of_nat (String.length s) in
  let n := (k + e)%Z in
  let sign : string := if decide (m < 0)%Z then "-" else "" in
  sign +:+
  (if bool_decide (k ≤ n ≤ 21)%Z then s +:+ zeros (n - k)
   else if bool_decide (0 < n ≤ 21)%Z
        then takeString (Z.to_nat n) s +:+ "." +:+ Str.substring (Z.to_nat n) s
   else if bool_decide (-6 < n ≤ 0)%Z then "0." +:+ zeros (- n) +:+ s
   else
     let exponent : string :=
       (if decide (0 ≤ n - 1)%Z then "+" else "-") +:+ pretty (Z.abs (n - 1)) in
     if decide (k = 1)%Z then s +:+ "e" +:+ exponent
     else takeString 1 s +:+ "." +:+ Str.substring 1 s +:+ "e" +:+ exponent).

#[export] Instance host : Host :=
  {| JSON_parse := parse; Number_toString := printNumber; marked_parse := None |}.

End Browser.

(** ** The states that the page can reach *)

Section Reachable.
Context `{Host}.

(** The world when the script has been loaded into a page: the chat holds
    the system prompt only, nothing is mounted, logged or queued. *)
Definition initial (w : World) : Prop :=
  (∃ key, chatState w = initialChatState key)
  ∧ overlays (document w) = []
  ∧ console w = []
  ∧ timers w = [].

(** One handler runs, the user edits the input, or the stored settings
    change.  [step_mountReader] is a suspended call of [openReader] that
    resumes. *)
Inductive step : World -> World -> Prop :=
| step_askChatGPT net w :
    step w (askChatGPT net w)
| step_querycontent extracted now w :
    step w (querycontent extracted now w).2
| step_openReader extracted now w :
    step w (openReader extracted now w).2
| step_mountReader article settings now w :
    step w (mountReader article settings now w)
| step_removeReader w :
    step w (withDocument removeReader w)
| step_toggleReader extracted now w :
    step w (toggleReader extracted now w).2
| step_onMessage action extracted now w :
    step w (onMessage action extracted now w).2
| step_toolbarClick settings action w :
    step w (toolbarClick settings action w)
| step_runTimer w :
    step w (runTimer w)
| step_input value w :
    step w (withDocument (withFirstOverlay (setUserInput value)) w)
| step_storage st w :
    step w (withStorage (fun _ => st) w).

Definition reachable (w : World) : Prop :=
  ∃ w0, initial w0 ∧ rtc step w0 w.

(** ** The stream, after the specification

    Section 4.3: blank lines and the sentinel line are ignored; a line
    with the data marker is stripped of the marker and parsed as one JSON
    event; a line that does not parse is skipped; a parsed event may
    carry a text fragment, at [choices[0].delta.content]. *)

(** The value below [v] at a key or at an index, if there is one. *)
Definition child (v : JSValue) (at_ : string + nat) : JSValue :=
  match v, at_ with
  | Some (JObject members), inl key => JS.member key members
  | Some (JObject members), inr i => JS.member (pretty i) members
  | Some (JArray elements), inr i => elements !! i
  | Some (JString s), inr i =>
      match Str.substring i s with
      | String c _ => Some (JString (String c ""))
      | EmptyString => None
      end
  | _, _ => None
  end.

Definition eventFragment (event : JSON) : string :=
  let content := foldl child (Some event) [inl "choices"; inr 0; inl "delta"; inl "content"] in
  if JS.truthy content then ToStringV content else "".

Definition lineFragment (line : string) : string :=
  if decide (Str.trim line = "") then ""
  else if decide (line = "data: [DONE]") then ""
  else if Str.startsWith "data: " line then
    match JSON_parse (Str.substring 6 line) with
    | Normal event => eventFragment event
    | Throw _ => ""
    end
  else "".

(** [line] is a data line whose event carries the fragment [text]: the
    marker, then JSON text that parses to an event with the string [text]
    at [choices[0].delta.content]. *)
Definition carries (line text : string) : Prop :=
  ∃ payload event,
    line = "data: " +:+ payload
    ∧ payload ≠ "[DONE]"
    ∧ JSON_parse payload = Normal event
    ∧ foldl child (Some event) [inl "choices"; inr 0; inl "delta"; inl "content"]
      = Some (JString text).

(** The text of a sequence of lines, each ended by a newline. *)
Definition streamText (lines : list string) : string :=
  Str.concat ((fun line => line +:+ String Str.newline "") <$> lines).

(** The complete lines of a text, and what follows its last newline. *)
Definition completeLines (text : string) : list string :=
  take (length (Str.split text) - 1) (Str.split text).

Definition remainder (text : string) : string :=
  default "" (last (Str.split text)).

(** A line has no newline inside. *)
Definition isLine (line : string) : Prop := Str.split line = [line].

(** A response with a success status whose body delivers [reads] and
    then ends. *)
Definition streamed (reads : list string) : FetchOutcome :=
  Resolved {| ok := true; status := 200;
              responseBody := Some {| chunks := reads; ending := EndOfStream |} |}.

(** A message of the conversation proper: of the user or of the assistant. *)
Definition spoken (m : ChatMessage) : Prop := role m = "user" ∨ role m = "assistant".

(** What the loop over the reads completes with. *)
Definition settled (final : ReadEnd) : Completion () :=
  match final with
  | EndOfStream => Normal ()
  | ReadFails e => Throw e
  end.

(** The world in which [askChatGPT] enters its [try] block, when the call
    has passed the guards with the text [inputText]. *)
Definition entered (inputText : string) (w : World) : World :=
  let w := withChatState (setLoading true) w in
  let w := match getSendButton (document w) with
           | Some _ =>
               scrollToBottom
                 (withDocument (withFirstOverlay
                    (setSendButton {| disabled := true; textContent := "发送中..." |})) w)
           | None => w
           end in
  let w := push {| role := "user"; content := inputText |} w in
  let w := renderMessages w in
  let w := print (console_log [History (messages (chatState w))]) w in
  withDocument (withFirstOverlay (setUserInput "")) w.

(** A response with a success status whose body delivers [reads] and
    then fails with [e]. *)
Definition interrupted (reads : list string) (e : Error) : FetchOutcome :=
  Resolved {| ok := true; status := 200;
              responseBody := Some {| chunks := reads; ending := ReadFails e |} |}.

(** The call passes the guards of [askChatGPT]: the input is there, its
    trimmed text is not empty, and no send is in progress. *)
Definition accepts (w : World) (inputText : string) : Prop :=
  ∃ value, getUserInput (document w) = Some value
           ∧ inputText = Str.trim value
           ∧ inputText ≠ ""
           ∧ loading (chatState w) = false.

End Reachable.

(** ** Worlds to run the script in *)

Module Example.

Definition article : Article.t :=
  {| Article.title := "A title"; Article.byline := "An author"; Article.siteName := "";
     Article.content := "<p>Some text</p>"; Article.textContent := "Some text";
     Article.images := []; Article.videos := [] |}.

(** A page into which the script has just been loaded. *)
Definition loaded : World :=
  {| chatState := initialChatState "key";
     document := {| overlays := []; classList := ∅; pageTitle := "A page" |};
     console := []; storage := ∅; timers := [] |}.

(** The reader has been opened on it. *)
Definition opened : World := (openReader (H := Browser.host) (Some article) "now" loaded).2.

(** The user has typed [text] into the input. *)
Definition typed (text : string) : World :=
  withDocument (withFirstOverlay (setUserInput text)) opened.

(** A send is in progress. *)
Definition sending (text : string) : World :=
  withChatState (setLoading true) (typed text).

Definition event (text : string) : string :=
  Str.quoted "data: {'choices':[{'delta':{'content':'" +:+ text +:+ Str.quoted "'}}]}".

(** A page for which the dark mode and a font size have been stored. *)
Definition storedSettings : list (string * JSON) :=
  [("darkMode", JBool true); ("fontSize", JNumber 20 0)].

Definition themed : World :=
  withStorage (fun _ => {["readerSettings" := JObject storedSettings]}) loaded.

(** The three chunks of section 8 of the specification. *)
Definition threeChunks : list string :=
  [event "Hi" +:+ String Str.newline "";
   event " there" +:+ String Str.newline "";
   "data: [DONE]" +:+ String Str.newline ""].

Definition httpFailure (code : nat) : FetchOutcome :=
  Resolved {| ok := false; status := code; responseBody := None |}.

End Example.

(** ** The rest of the script *)

Section Keys.
Context `{Host}.

(** [extracted] is what [ReaderAbility.extractFromDocument(document)]
    returns. *)
Definition extractArticleContent (extracted : option Article.t) : Completion string :=
  match extracted with
  | None => Throw (mkError "Error" "未能提取正文内容")
  | Some article => Normal (Str.or (Article.textContent article) "")
  end.

(** The [keydown] listener of the input, on the key [key] with or without
    Shift: whether it prevents the default action, and the world after. *)
Definition handleKeyPress (key : string) (shiftKey : bool) (net : FetchOutcome) (w : World)
  : bool * World :=
  if bool_decide (key = "Enter") && negb shiftKey then (true, askChatGPT net w)
  else (false, w).

(** The message list of the page shows the history: every message but the
    first. *)
Definition shown (w : World) : Prop :=
  getMessagesContainer (document w)
  = Some (messageDiv <$> drop 1 (messages (chatState w))).

End Keys.

(** What a handler of the chat leaves of a document: the class list, the
    title, every overlay after the first, and of the first overlay all but
    the message list, the input and the send button. *)
Definition sameReader (o o' : Overlay) : Prop :=
  theme o' = theme o
  ∧ themeButton o' = themeButton o
  ∧ articleStyle o' = articleStyle o
  ∧ heading o' = heading o
  ∧ meta o' = meta o
  ∧ readerContent o' = readerContent o
  ∧ activeTab o' = activeTab o.

Definition chatOnly (d d' : Document) : Prop :=
  classList d' = classList d
  ∧ pageTitle d' = pageTitle d
  ∧ match overlays d, overlays d' with
    | [], [] => True
    | o :: os, o' :: os' => sameReader o o' ∧ os' = os
    | _, _ => False
    end.

(** What a handler of the chat leaves of a world: the document as
    [chatOnly] says, the stored settings, the queued callbacks, and the key
    and the index of the chat state. *)
Definition chatFrame (w w' : World) : Prop :=
  chatOnly (document w) (document w')
  ∧ storage w' = storage w
  ∧ timers w' = timers w
  ∧ apiKey (chatState w') = apiKey (chatState w)
  ∧ currentIndex (chatState w') = currentIndex (chatState w).

(** The body is marked as the reader is mounted: one overlay at most, and
    the class [BODY_ACTIVE_CLASS] on the body exactly when there is one. *)
Definition marked (d : Document) : Prop :=
  length (overlays d) ≤ 1
  ∧ (BODY_ACTIVE_CLASS ∈ classList d ↔ overlays d ≠ []).

(** ** The notebook panel

    The notebook of one mounted overlay: its text area, its save button,
    the local storage, and the callbacks queued with [setTimeout], each
    with the time at which it is due.  Time is counted in milliseconds; an
    id of a timer is greater than zero.  Every click on the notebook tab
    queues a run of [initializeNotebook], which is a step of its own here;
    the load of the stored note, which the run awaits, and the writes to
    the storage complete at once. *)

Module Notebook.

Inductive Callback :=
| Autosave
| ResetSaveButton.

#[global] Instance Callback_eq_dec : EqDecision Callback.
Proof. solve_decision. Defined.

Record Pending := { id : nat; due : nat; callback : Callback }.

Record SaveButton := { label : string; background : string }.

(** [saveTimeouts] holds the variable [saveTimeout] of each [input]
    listener, [clickListeners] counts the [click] listeners of each button:
    one of each for every run of [initializeNotebook]. *)
Record t := {
  page : World;
  clock : nat;
  local : gmap string JSON;
  mounted : bool;
  notebookTextarea : string;
  saveBtn : SaveButton;
  queue : list Pending;
  nextId : nat;
  saveTimeouts : list (option nat);
  clickListeners : nat;
  downloads : list (string * string);
}.

Definition withPage (f : World -> World) (n : t) : t :=
  {| page := f (page n); clock := clock n; local := local n; mounted := mounted n;
     notebookTextarea := notebookTextarea n; saveBtn := saveBtn n; queue := queue n;
     nextId := nextId n; saveTimeouts := saveTimeouts n;
     clickListeners := clickListeners n; downloads := downloads n |}.

Definition withLocal (f : gmap string JSON -> gmap string JSON) (n : t) : t :=
  {| page := page n; clock := clock n; local := f (local n); mounted := mounted n;
     notebookTextarea := notebookTextarea n; saveBtn := saveBtn n; queue := queue n;
     nextId := nextId n; saveTimeouts := saveTimeouts n;
     clickListeners := clickListeners n; downloads := downloads n |}.

Definition setTextarea (value : string) (n : t) : t :=
  {| page := page n; clock := clock n; local := local n; mounted := mounted n;
     notebookTextarea := value; saveBtn := saveBtn n; queue := queue n;
     nextId := nextId n; saveTimeouts := saveTimeouts n;
     clickListeners := clickListeners n; downloads := downloads n |}.

Definition setSaveBtn (b : SaveButton) (n : t) : t :=
  {| page := page n; clock := clock n; local := local n; mounted := mounted n;
     notebookTextarea := notebookTextarea n; saveBtn := b; queue := queue n;
     nextId := nextId n; saveTimeouts := saveTimeouts n;
     clickListeners := clickListeners n; downloads := downloads n |}.

Definition withQueue (f : list Pending -> list Pending) (n : t) : t :=
  {| page := page n; clock := clock n; local := local n; mounted := mounted n;
     notebookTextarea := notebookTextarea n; saveBtn := saveBtn n; queue := f (queue n);
     nextId := nextId n; saveTimeouts := saveTimeouts n;
     clickListeners := clickListeners n; downloads := downloads n |}.

Definition withSaveTimeouts (f : list (option nat) -> list (option nat)) (n : t) : t :=
  {| page := page n; clock := clock n; local := local n; mounted := mounted n;
     notebookTextarea := notebookTextarea n; saveBtn := saveBtn n; queue := queue n;
     nextId := nextId n; saveTimeouts := f (saveTimeouts n);
     clickListeners := clickListeners n; downloads := downloads n |}.

(** [setTimeout(callback, delay)]: the id of the new timer and the state. *)
Definition setTimeout (cb : Callback) (delay : nat) (n : t) : nat * t :=
  (nextId n,
   {| page := page n; clock := clock n; local := local n; mounted := mounted n;
      notebookTextarea := notebookTextarea n; saveBtn := saveBtn n;
      queue := queue n ++ [{| id := nextId n; due := clock n + delay; callback := cb |}];
      nextId := S (nextId n); saveTimeouts := saveTimeouts n;
      clickListeners := clickListeners n; downloads := downloads n |}).

(** [clearTimeout(id)] *)
Definition clearTimeout (i : nat) (n : t) : t :=
  withQueue (filter (fun p => id p ≠ i)) n.

(** [chrome.storage.local.set({ notebookContent: content })] *)
Definition saveNotebook (content : string) (st : gmap string JSON) : gmap string JSON :=
  <["notebookContent" := JString content]> st.

(** [data.notebookContent || ''] *)
Definition loadNotebook (st : gmap string JSON) : JSON :=
  let notebookContent := st !! "notebookContent" in
  if JS.truthy notebookContent then default (JString "") notebookContent else JString "".

(** [s.slice(0, n)] *)
Fixpoint slice (n : nat) (s : string) : string :=
  match n, s with
  | S n', String c s' => String c (slice n' s')
  | _, _ => EmptyString
  end.

(** [s.replace(/c/g, d)] for a character [c] *)
Fixpoint replaceAll (c d : ascii) (s : string) : string :=
  match s with
  | EmptyString => EmptyString
  | String x s' => String (if decide (x = c) then d else x) (replaceAll c d s')
  end.

(** [s.replace(c, d)] for a character [c]: the first one only *)
Fixpoint replaceFirst (c d : ascii) (s : string) : string :=
  match s with
  | EmptyString => EmptyString
  | String x s' => if decide (x = c) then String d s' else String x (replaceFirst c d s')
  end.

(** The stamp in the name of an exported file; [iso] is the text of
    [new Date().toISOString()]. *)
Definition dateStr (iso : string) : string :=
  replaceFirst "T" "_" (replaceAll ":" "-" (slice 19 iso)).

Section WithHost.
Context `{Host}.

(** A download is a file name with the text of the file; the release of
    the object URL is not modelled. *)
Definition exportNotebookAsText (content iso : string) (n : t) : t :=
  if bool_decide (content = "") || bool_decide (Str.trim content = "") then
    withPage (showMessage "warning" "笔记内容为空，无法导出") n
  else
    let n := {| page := page n; clock := clock n; local := local n; mounted := mounted n;
                notebookTextarea := notebookTextarea n; saveBtn := saveBtn n;
                queue := queue n; nextId := nextId n; saveTimeouts := saveTimeouts n;
                clickListeners := clickListeners n;
                downloads := downloads n ++ [("笔记_" +:+ dateStr iso +:+ ".txt", content)] |} in
    withPage (showMessage "success" "笔记已导出") n.

Definition initializeNotebook (n : t) : t :=
  if negb (mounted n) then n
  else
    let savedContent := loadNotebook (local n) in
    let n := if JS.ToBoolean savedContent
             then setTextarea (JS.ToString savedContent) n
             else n in
    {| page := page n; clock := clock n; local := local n; mounted := mounted n;
       notebookTextarea := notebookTextarea n; saveBtn := saveBtn n; queue := queue n;
       nextId := nextId n; saveTimeouts := saveTimeouts n ++ [None];
       clickListeners := S (clickListeners n); downloads := downloads n |}.

(** One [click] listener of the save button. *)
Definition saveClicked (n : t) : t :=
  let content := notebookTextarea n in
  let n := withLocal (saveNotebook content) n in
  let n := setSaveBtn {| label := "已保存"; background := "#4caf50" |} n in
  let n := (setTimeout ResetSaveButton 2000 n).2 in
  withPage (showMessage "success" "笔记已保存") n.

(** A click on the save button runs its listeners. *)
Definition clickSave (n : t) : t := Nat.iter (clickListeners n) saveClicked n.

(** A click on the export button runs its listeners. *)
Definition clickExport (iso : string) (n : t) : t :=
  Nat.iter (clickListeners n) (fun n => exportNotebookAsText (notebookTextarea n) iso n) n.

(** The [input] listener that holds its [saveTimeout] at index [i]. *)
Definition onInput (i : nat) (n : t) : t :=
  let n := match saveTimeouts n !! i with
           | Some (Some old) => clearTimeout old n
           | _ => n
           end in
  let '(new, n) := setTimeout Autosave 2000 n in
  withSaveTimeouts (fun ts => <[i := Some new]> ts) n.

(** The user edits the text area: its value is [value] and the [input]
    listeners run in the order in which they were added. *)
Definition input (value : string) (n : t) : t :=
  foldl (fun n i => onInput i n) (setTextarea value n) (seq 0 (length (saveTimeouts n))).

(** A queued callback runs. *)
Definition run (cb : Callback) (n : t) : t :=
  match cb with
  | Autosave =>
      let content := notebookTextarea n in
      let n := withLocal (saveNotebook content) n in
      withPage (print (console_log [Text "笔记已自动保存"])) n
  | ResetSaveButton => setSaveBtn {| label := "保存笔记"; background := "" |} n
  end.

(** [dt] milliseconds pass: the callbacks that are due by then run, in the
    order in which they were queued. *)
Definition advance (dt : nat) (n : t) : t :=
  let now := clock n + dt in
  let ready := filter (fun p => due p ≤ now) (queue n) in
  let n := {| page := page n; clock := now; local := local n; mounted := mounted n;
              notebookTextarea := notebookTextarea n; saveBtn := saveBtn n;
              queue := filter (fun p => now < due p) (queue n);
              nextId := nextId n; saveTimeouts := saveTimeouts n;
              clickListeners := clickListeners n; downloads := downloads n |} in
  foldl (fun n p => run (callback p) n) n ready.

(** The panel when the overlay has been mounted: no listener, no timer. *)
Definition fresh (n : t) : Prop :=
  mounted n = true ∧ queue n = [] ∧ saveTimeouts n = [] ∧ clickListeners n = 0
  ∧ 0 < nextId n ∧ downloads n = [].

Inductive step : t -> t -> Prop :=
| step_initializeNotebook n : step n (initializeNotebook n)
| step_input value n : step n (input value n)
| step_clickSave n : step n (clickSave n)
| step_clickExport iso n : step n (clickExport iso n)
| step_advance dt n : step n (advance dt n).

Definition reachable (n : t) : Prop := ∃ n0, fresh n0 ∧ rtc step n0 n.

(** The entry that the autosave logs. *)
Definition isAutosaveLog (entry : ConsoleEntry) : bool :=
  match entry with
  | console_log [Text s] => bool_decide (s = "笔记已自动保存")
  | _ => false
  end.

(** How many times the autosave has logged its message. *)
Definition autosaved (n : t) : nat :=
  length (filter (fun entry => isAutosaveLog entry) (console (page n))).

(** The callbacks of a kind in the queue. *)
Definition pending (cb : Callback) (n : t) : list Pending :=
  filter (fun p => callback p = cb) (queue n).

End WithHost.

(** The panel of a newly mounted overlay, over the storage [st]. *)
Definition mountedOn (w : World) (st : gmap string JSON) : t :=
  {| page := w; clock := 0; local := st; mounted := true; notebookTextarea := "";
     saveBtn := {| label := "保存笔记"; background := "" |};
     queue := []; nextId := 1; saveTimeouts := []; clickListeners := 0; downloads := [] |}.

(** The timers are in order: the ids in the queue and in the variables of
    the listeners have been given out, and every pending autosave is held
    by the variable of a listener. *)
Definition tidy (n : t) : Prop :=
  Forall (fun p => id p < nextId n) (queue n)
  ∧ Forall (fun slot => ∀ i, slot = Some i -> i < nextId n) (saveTimeouts n)
  ∧ Forall (fun p => callback p = Autosave -> Some (id p) ∈ saveTimeouts n) (queue n).

(** The autosaves that the first [count] listeners queue on an edit in
    the state [n]. *)
Definition rearmed (n : t) (count : nat) : list Pending :=
  (fun i => {| id := nextId n + i; due := clock n + 2000; callback := Autosave |})
    <$> seq 0 count.

End Notebook.

(** ** The resizer

    The drag of the bar between the article and the side panel.  Every
    [mousedown] on the bar adds a pair of listeners to the document, which
    hold the position and the width at which the drag began; they share the
    flag [isResizing]. *)

Module Resizer.

Record Drag := { startX : Z; startWidth : Z }.

Record t := {
  isResizing : bool;
  listeners : list Drag;
  width : option Z;
  cursor : string;
  userSelect : string;
}.

(** A [mousedown] on the bar at [clientX], when the panel is
    [offsetWidth] pixels wide. *)
Definition mousedown (clientX offsetWidth : Z) (r : t) : t :=
  {| isResizing := true;
     listeners := listeners r ++ [{| startX := clientX; startWidth := offsetWidth |}];
     width := width r;
     cursor := "col-resize";
     userSelect := "none" |}.

Definition onMouseMove (clientX : Z) (d : Drag) (r : t) : t :=
  if negb (isResizing r) then r
  else
    let dx := (clientX - startX d)%Z in
    let newWidth := Z.max 200 (Z.min 1200 (startWidth d + dx)) in
    {| isResizing := isResizing r; listeners := listeners r; width := Some newWidth;
       cursor := cursor r; userSelect := userSelect r |}.

(** A [mousemove] on the document runs the listeners in their order. *)
Definition mousemove (clientX : Z) (r : t) : t :=
  foldl (fun r d => onMouseMove clientX d r) r (listeners r).

(** One [mouseup] listener; it removes itself and its [mousemove]
    listener.  When it runs, the listeners added before it have removed
    themselves, so it is the first of the list. *)
Definition onMouseUp (r : t) : t :=
  {| isResizing := false; listeners := drop 1 (listeners r); width := width r;
     cursor := ""; userSelect := "" |}.

(** A [mouseup] on the document runs every listener. *)
Definition mouseup (r : t) : t :=
  Nat.iter (length (listeners r)) onMouseUp r.

(** The bar when the overlay has been mounted. *)
Definition fresh (r : t) : Prop :=
  isResizing r = false ∧ listeners r = [] ∧ width r = None.

Inductive step : t -> t -> Prop :=
| step_mousedown clientX offsetWidth r : step r (mousedown clientX offsetWidth r)
| step_mousemove clientX r : step r (mousemove clientX r)
| step_mouseup r : step r (mouseup r).

Definition reachable (r : t) : Prop := ∃ r0, fresh r0 ∧ rtc step r0 r.

(** The width that the script has given to the panel, if it has, is
    within the bounds. *)
Definition inRange (r : t) : Prop :=
  ∀ px, width r = Some px -> (200 ≤ px ≤ 1200)%Z.

(** No drag is going on, and no listener is left on the document. *)
Definition idle (r : t) : Prop := isResizing r = false ∧ listeners r = [].

End Resizer.

(** * Properties *)

(** ** The host of the examples *)

Example trim_example :
  Str.trim ("  hi there" +:+ Str.bytes [194; 160; 10]%N) = "hi there".
Proof. vm_compute. reflexivity. Qed.

Example split_example :
  Str.split ("a" +:+ String Str.newline "" +:+ String Str.newline "b") = ["a"; ""; "b"].
Proof. vm_compute. reflexivity. Qed.

Example parse_event :
  Browser.parse (Str.quoted "{'choices':[{'delta':{'content':'Hi'}}]}")
  = Normal (JObject [("choices", JArray [JObject [("delta", JObject [("content", JString "Hi")])]])]).
Proof. vm_compute. reflexivity. Qed.

Example parse_values :
  Browser.parse (Str.quoted " [1, -2.50e3, true, null, 'a\né😀', {}, {'k': []}] ")
  = Normal (JArray [JNumber 1 0; JNumber (-250) 1; JBool true; JNull;
                    JString ("a" +:+ Str.bytes [10; 195; 169; 240; 159; 152; 128]%N);
                    JObject []; JObject [("k", JArray [])]]).
Proof. vm_compute. reflexivity. Qed.

Example parse_escapes :
  Browser.parse (Str.quoted "'\u4f60\ud83d\ude00\t\u0041'")
  = Normal (JString (Str.bytes [228; 189; 160; 240; 159; 152; 128; 9; 65]%N)).
Proof. vm_compute. reflexivity. Qed.

Example parse_rejects :
  Browser.parse <$> ["[DONE]"; "{oops"; "01"; "1."; "[1,]"; Str.quoted "{'a' 1}"; ""; "nul"; "1 2"]
  = replicate 9 (Throw Browser.SyntaxError).
Proof. vm_compute. reflexivity. Qed.

Example printNumber_examples :
  (fun '(m, e) => Browser.printNumber m e) <$>
    [(18, 0); (18, -1); (-250, 1); (5, -7); (1, 21); (123456, -3); (12, -8); (0, 5); (1500, -3)]%Z
  = ["18"; "1.8"; "-2500"; "5e-7"; "1e+21"; "123.456"; "1.2e-7"; "0"; "1.5"].
Proof. vm_compute. reflexivity. Qed.

(** ** Strings *)

Lemma append_nil_r (s : string) : s +:+ "" = s.
Proof.
  induction s as [|c s IH]; [done|].
  change (String c (s +:+ "") = String c s). by rewrite IH.
Qed.

Lemma append_assoc (a b c : string) : (a +:+ b) +:+ c = a +:+ (b +:+ c).
Proof.
  induction a as [|x a IH]; [done|].
  change (String x ((a +:+ b) +:+ c) = String x (a +:+ (b +:+ c))). by rewrite IH.
Qed.

(** ** Lines and chunks *)

Section Splitting.

Lemma split_cons_newline s : Str.split (String Str.newline s) = "" :: Str.split s.
Proof. done. Qed.

Lemma split_nonempty s : ∃ seg segs, Str.split s = seg :: segs.
Proof.
  induction s as [|c s (seg & segs & IH)]; [by eexists _, _|].
  cbn [Str.split]. case_decide; [by eexists _, _|]. rewrite IH. by eexists _, _.
Qed.

Lemma split_cons_other c s seg segs :
  c ≠ Str.newline -> Str.split s = seg :: segs ->
  Str.split (String c s) = String c seg :: segs.
Proof. intros Hc Hs. cbn [Str.split]. case_decide; [done|]. by rewrite Hs. Qed.

Lemma take_pred_snoc {A} (l : list A) x : take (length (l ++ [x]) - 1) (l ++ [x]) = l.
Proof.
  rewrite length_app. simpl. replace (length l + 1 - 1) with (length l) by lia.
  by rewrite take_app_length.
Qed.

Lemma split_snoc s : Str.split s = completeLines s ++ [remainder s].
Proof.
  unfold completeLines, remainder.
  destruct (split_nonempty s) as (seg & segs & ->).
  destruct (exists_last (l := seg :: segs)) as (l & x & ->); [done|].
  change (l ++ x :: nil) with (l ++ [x]).
  by rewrite take_pred_snoc, last_snoc.
Qed.

Lemma completeLines_snoc l r : ∀ s, Str.split s = l ++ [r] -> completeLines s = l.
Proof. intros s Hs. unfold completeLines. by rewrite Hs, take_pred_snoc. Qed.

Lemma remainder_snoc l r : ∀ s, Str.split s = l ++ [r] -> remainder s = r.
Proof. intros s Hs. unfold remainder. by rewrite Hs, last_snoc. Qed.

(** Appending text leaves the complete lines in place and continues the
    remainder. *)
Lemma split_app a b :
  Str.split (a +:+ b) = completeLines a ++ Str.split (remainder a +:+ b).
Proof.
  induction a as [|c a IH]; [done|].
  change (String c a +:+ b) with (String c (a +:+ b)).
  destruct (decide (c = Str.newline)) as [->|Hc].
  - rewrite split_cons_newline, IH.
    rewrite (completeLines_snoc ("" :: completeLines a) (remainder a) (String Str.newline a)),
            (remainder_snoc ("" :: completeLines a) (remainder a) (String Str.newline a));
      [done|by rewrite split_cons_newline, (split_snoc a) at 1..].
  - pose proof (split_snoc a) as Ha.
    destruct (completeLines a) as [|seg segs] eqn:Hl.
    + simpl in Ha.
      rewrite (completeLines_snoc [] (String c (remainder a)) (String c a)),
              (remainder_snoc [] (String c (remainder a)) (String c a));
        [|by apply split_cons_other..].
      simpl in IH. simpl. by rewrite IH.
    + simpl in Ha.
      rewrite (completeLines_snoc (String c seg :: segs) (remainder a) (String c a)),
              (remainder_snoc (String c seg :: segs) (remainder a) (String c a));
        [|by apply split_cons_other..].
      simpl. apply split_cons_other; [done|]. by rewrite IH.
Qed.

Lemma completeLines_app a b :
  completeLines (a +:+ b) = completeLines a ++ completeLines (remainder a +:+ b).
Proof.
  apply (completeLines_snoc _ (remainder (remainder a +:+ b))).
  rewrite split_app, <- app_assoc. f_equal. apply split_snoc.
Qed.

Lemma remainder_app a b : remainder (a +:+ b) = remainder (remainder a +:+ b).
Proof.
  apply (remainder_snoc (completeLines a ++ completeLines (remainder a +:+ b))).
  rewrite split_app, <- app_assoc. f_equal. apply split_snoc.
Qed.

Lemma isLine_cons c l : isLine (String c l) -> c ≠ Str.newline ∧ isLine l.
Proof.
  unfold isLine. cbn [Str.split]. case_decide; [done|].
  destruct (split_nonempty l) as (seg & segs & Hl). rewrite Hl.
  intros [= -> ->]. done.
Qed.

Lemma split_line l t : isLine l -> Str.split (l +:+ String Str.newline t) = l :: Str.split t.
Proof.
  induction l as [|c l IH]; intros Hl; [done|].
  apply isLine_cons in Hl as [Hc Hl].
  change (String c l +:+ ?x) with (String c (l +:+ x)).
  apply split_cons_other; auto.
Qed.

Lemma split_segments s : Forall isLine (Str.split s).
Proof.
  induction s as [|c s IH]; [by repeat constructor|].
  cbn [Str.split]. case_decide; [by constructor|].
  destruct (split_nonempty s) as (seg & segs & Hs). rewrite Hs in *.
  apply Forall_cons in IH as [Hseg Hsegs]. constructor; [|done].
  unfold isLine in *. by apply split_cons_other.
Qed.

Lemma remainder_isLine s : isLine (remainder s).
Proof.
  pose proof (split_segments s) as Hall. rewrite split_snoc in Hall.
  apply Forall_app in Hall as [_ Hr]. by inversion_clear Hr.
Qed.

Lemma completeLines_isLine l : isLine l -> completeLines l = [].
Proof. intros Hl. unfold completeLines. by rewrite Hl. Qed.

Lemma remainder_of_line l : isLine l -> remainder l = l.
Proof. intros Hl. unfold remainder. by rewrite Hl. Qed.

(** The text of a sequence of lines splits into these lines. *)
Lemma split_streamText lines :
  Forall isLine lines -> Str.split (streamText lines) = lines ++ [""].
Proof.
  induction 1 as [|l ls Hl _ IH]; [done|].
  unfold streamText in *. cbn [fmap list_fmap Str.concat].
  rewrite append_assoc.
  change (String Str.newline "" +:+ ?x) with (String Str.newline x).
  by rewrite (split_line l _ Hl), IH.
Qed.

End Splitting.

(** ** Blank lines *)

Section Blank.

Lemma occurs_app c a b : Str.occurs c (a +:+ b) = Str.occurs c a || Str.occurs c b.
Proof.
  induction a as [|x a IH]; [done|].
  change (String x a +:+ b) with (String x (a +:+ b)). cbn [Str.occurs].
  by case_decide.
Qed.

Lemma rev_app_occurs c a b : Str.occurs c (String.rev_app a b) = Str.occurs c a || Str.occurs c b.
Proof.
  revert b. induction a as [|x a IH]; intros b; [done|].
  cbn [String.rev_app Str.occurs]. rewrite IH. cbn [Str.occurs].
  case_decide; [by rewrite orb_true_r|done].
Qed.

Lemma rev_occurs c s : Str.occurs c (String.rev s) = Str.occurs c s.
Proof. unfold String.rev. by rewrite rev_app_occurs, orb_false_r. Qed.

Lemma startsWith_app p s :
  Str.startsWith p s = true -> s = p +:+ Str.substring (String.length p) s.
Proof.
  revert s. induction p as [|a p IH]; intros s Hs; [done|].
  destruct s as [|b s]; [done|]. cbn [Str.startsWith] in Hs.
  case_decide as Hab; [|done]. subst b.
  change (String a s = String a (p +:+ Str.substring (String.length p) s)).
  by rewrite <- IH.
Qed.

Lemma stripOneOf_occurs c ws s s' :
  Forall (fun p => Str.occurs c p = false) ws ->
  Str.stripOneOf ws s = Some s' -> Str.occurs c s' = Str.occurs c s.
Proof.
  induction 1 as [|p ws Hp _ IH]; [done|]. cbn [Str.stripOneOf].
  destruct (Str.startsWith p s) eqn:Hstarts; [|done].
  intros [= <-]. rewrite (startsWith_app p s Hstarts) at 2.
  by rewrite occurs_app, Hp.
Qed.

Lemma stripAll_occurs c ws fuel s :
  Forall (fun p => Str.occurs c p = false) ws ->
  Str.occurs c (Str.stripAll ws fuel s) = Str.occurs c s.
Proof.
  intros Hws. revert s. induction fuel as [|fuel IH]; intros s; [done|].
  cbn [Str.stripAll]. destruct (Str.stripOneOf ws s) as [s'|] eqn:Hstrip; [|done].
  by rewrite IH, (stripOneOf_occurs c ws s s' Hws Hstrip).
Qed.

(** Trimming removes no character that is not white space. *)
Lemma trim_occurs c s :
  Forall (fun p => Str.occurs c p = false) Str.whiteSpace -> Str.occurs c (Str.trim s) = Str.occurs c s.
Proof.
  intros Hws. unfold Str.trim, Str.trimEnd, Str.trimStart.
  rewrite rev_occurs, stripAll_occurs.
  - rewrite rev_occurs. by apply stripAll_occurs.
  - clear -Hws. induction Hws as [|p ws Hp _ IH]; constructor; [|done].
    by rewrite rev_occurs.
Qed.

(** A line with the data marker is not blank. *)
Lemma data_line_not_blank line : Str.startsWith "data: " line = true -> Str.trim line ≠ "".
Proof.
  intros Hstarts Hblank.
  assert (Str.occurs "d" (Str.trim line) = true) as Hd.
  { rewrite trim_occurs; [|by vm_compute; repeat constructor].
    rewrite (startsWith_app _ _ Hstarts). by rewrite occurs_app. }
  by rewrite Hblank in Hd.
Qed.

End Blank.

(** ** What the handlers leave alone *)

Section Frames.
Context `{Host}.

Lemma renderMessages_chatState w : chatState (renderMessages w) = chatState w.
Proof. unfold renderMessages. by destruct (getMessagesContainer _). Qed.

Lemma renderMessages_length w :
  length (overlays (document (renderMessages w))) = length (overlays (document w)).
Proof.
  unfold renderMessages, getMessagesContainer.
  destruct w as [c [os cl t] k st tm]; simpl. by destruct os.
Qed.

End Frames.

(** ** The guards of [askChatGPT] *)

(** C5. A call of [askChatGPT] while a send is in progress changes nothing:
    the message list, the loading flag and the value of the input are what
    they were; so are the whole chat state and the whole document. When the
    input holds text, the world is left as it is. *)
Theorem askChatGPT_while_sending `{Host} (net : FetchOutcome) (w : World) :
  loading (chatState w) = true ->
  messages (chatState (askChatGPT net w)) = messages (chatState w)
  ∧ loading (chatState (askChatGPT net w)) = true
  ∧ getUserInput (document (askChatGPT net w)) = getUserInput (document w)
  ∧ chatState (askChatGPT net w) = chatState w
  ∧ document (askChatGPT net w) = document w
  ∧ (∀ value, getUserInput (document w) = Some value ->
       Str.trim value ≠ "" -> askChatGPT net w = w).
Proof.
  intros Hloading.
  assert (chatState (askChatGPT net w) = chatState w
          ∧ document (askChatGPT net w) = document w) as [Hc Hd].
  { unfold askChatGPT.
    destruct (getUserInput (document w)) as [value|]; [|done].
    case_decide; [done|]. by rewrite Hloading. }
  rewrite Hc, Hd, Hloading. repeat split; try done.
  intros value Hinput Htrim. unfold askChatGPT.
  rewrite Hinput. case_decide; [done|]. by rewrite Hloading.
Qed.

Lemma askChatGPT_while_sending_witness :
  loading (chatState (Example.sending "hello")) = true
  ∧ askChatGPT (H := Browser.host) (streamed Example.threeChunks) (Example.sending "hello")
    = Example.sending "hello".
Proof.
  split; [reflexivity|].
  destruct (askChatGPT_while_sending (H := Browser.host)
              (streamed Example.threeChunks) (Example.sending "hello") eq_refl)
    as (_ & _ & _ & _ & _ & Hsame).
  apply (Hsame "hello"); [reflexivity|].
  vm_compute. discriminate.
Defined.

(** ** One line of the stream *)

Section Lines.
Context `{Host}.

Lemma child_falsy (v : JSValue) at_ : JS.truthy v = false -> child v at_ = None.
Proof.
  destruct v as [[]|], at_ as [key|i]; simpl; try done.
  - rewrite negb_false_iff, bool_decide_eq_true. intros ->. by destruct i.
Qed.

Lemma Get_child (v : JSValue) key :
  JS.truthy v = true -> JS.Get v key = Normal (child v (inl key)).
Proof. by destruct v as [[]|]. Qed.

Lemma GetIndex_child (v : JSValue) i :
  JS.truthy v = true -> JS.GetIndex v i = Normal (child v (inr i)).
Proof. by destruct v as [[]|]. Qed.

(** The reads of the script and the path of the specification arrive at
    the same fragment. *)
Lemma bind_Normal {A B} (a : A) (f : A -> Completion B) : Normal a ≫= f = f a.
Proof. done. Qed.

Lemma bind_ret {A B} (a : A) (f : A -> Completion B) : mret a ≫= f = f a.
Proof. done. Qed.

Lemma deltaContent_eventFragment line event :
  JSON_parse (Str.substring 6 line) = Normal event ->
  match deltaContent line with
  | Normal (Some content) => if JS.truthy content then ToStringV content else ""
  | Normal None | Throw _ => ""
  end = eventFragment event.
Proof.
  intros Hparse. unfold deltaContent, eventFragment. rewrite Hparse, bind_Normal.
  change (foldl child (Some event) [inl "choices"; inr 0; inl "delta"; inl "content"])
    with (child (child (child (child (Some event) (inl "choices")) (inr 0))
                   (inl "delta")) (inl "content")).
  assert (event = JNull
          ∨ JS.Get (Some event) "choices" = Normal (child (Some event) (inl "choices")))
    as [->|Hget] by (destruct event; auto); [done|].
  unfold delta. rewrite Hget, bind_Normal.
  set (c1 := child (Some event) (inl "choices")) in *.
  set (c2 := child c1 (inr 0)).
  set (c3 := child c2 (inl "delta")).
  set (c4 := child c3 (inl "content")).
  destruct (JS.truthy c1) eqn:H1; cbn [negb].
  - rewrite (GetIndex_child _ _ H1), bind_Normal. fold c2.
    destruct (JS.truthy c2) eqn:H2; cbn [negb].
    + rewrite (Get_child _ _ H2), bind_Normal. fold c3.
      destruct (JS.truthy c3) eqn:H3.
      * rewrite (Get_child _ _ H3), bind_Normal. fold c4.
        change (mret ?x) with (Normal x).
        by destruct (JS.truthy c4) eqn:H4; [rewrite H4|].
      * subst c4. by rewrite (child_falsy c3).
    + rewrite bind_ret, H2. subst c4 c3. by rewrite (child_falsy c2), (child_falsy None).
  - rewrite bind_ret, H1. subst c4 c3 c2. by rewrite (child_falsy c1), !(child_falsy None).
Qed.

Lemma deltaContent_parse_error line e :
  JSON_parse (Str.substring 6 line) = Throw e -> deltaContent line = Throw e.
Proof. intros Hparse. unfold deltaContent. by rewrite Hparse. Qed.

(** What a line adds to the running text. *)
Lemma processLine_text line acc w :
  (processLine line acc w).1 = acc +:+ lineFragment line.
Proof.
  unfold processLine, lineFragment.
  repeat case_decide; try by rewrite append_nil_r.
  destruct (Str.startsWith "data: " line); [|by rewrite append_nil_r].
  destruct (JSON_parse (Str.substring 6 line)) as [event|e] eqn:Hparse.
  - rewrite <- (deltaContent_eventFragment line event Hparse).
    destruct (deltaContent line) as [[content|]|]; try by rewrite append_nil_r.
    destruct (JS.truthy content); [|by rewrite append_nil_r].
    by destruct (setLastContent _ w).
  - rewrite (deltaContent_parse_error _ _ Hparse). by rewrite append_nil_r.
Qed.

Lemma setLastContent_messages text w ms m :
  messages (chatState w) = ms ++ [m] ->
  ∃ w', setLastContent text w = Normal w'
        ∧ messages (chatState w') = ms ++ [{| role := role m; content := text |}]
        ∧ document w' = document w ∧ console w' = console w.
Proof.
  intros Hms. unfold setLastContent. rewrite Hms, last_snoc.
  eexists; split; [done|]. simpl. rewrite Hms. repeat split.
  rewrite length_app. simpl.
  replace (length ms + 1 - 1) with (length ms + 0) by lia.
  by rewrite insert_app_r.
Qed.

Lemma processLine_messages line w ms m :
  messages (chatState w) = ms ++ [m] ->
  messages (chatState (processLine line (content m) w).2)
  = ms ++ [{| role := role m; content := content m +:+ lineFragment line |}].
Proof.
  intros Hms.
  pose proof (processLine_text line (content m) w) as Htext.
  assert (messages (chatState w) = ms ++ [{| role := role m; content := content m |}]) as Heta
    by (by rewrite Hms; destruct m).
  unfold processLine in *.
  repeat case_decide; cbn [fst snd] in *; try by rewrite <- Htext.
  destruct (Str.startsWith "data: " line); cbn [fst snd] in *; [|by rewrite <- Htext].
  destruct (deltaContent line) as [[c|]|]; cbn [fst snd] in *; try by rewrite <- Htext.
  destruct (JS.truthy c); cbn [fst snd] in *; [|by rewrite <- Htext].
  destruct (setLastContent_messages (content m +:+ ToStringV c) w ms m Hms)
    as (w' & Hset & Hms' & _).
  rewrite Hset in *. cbn [fst snd] in *. by rewrite renderMessages_chatState, Hms', <- Htext.
Qed.

Lemma processLine_length line acc w :
  length (overlays (document (processLine line acc w).2)) = length (overlays (document w)).
Proof.
  unfold processLine.
  repeat case_decide; try done.
  destruct (Str.startsWith "data: " line); [|done].
  destruct (deltaContent line) as [[c|]|]; try done.
  destruct (JS.truthy c); [|done].
  unfold setLastContent. destruct (last _); [|done].
  cbn [snd]. by rewrite renderMessages_length.
Qed.

(** The console only grows. *)
Lemma renderMessages_console w : console (renderMessages w) = console w.
Proof. unfold renderMessages. by destruct (getMessagesContainer _). Qed.

Lemma processLine_console line acc w :
  ∃ entries, console (processLine line acc w).2 = console w ++ entries.
Proof.
  unfold processLine.
  repeat case_decide; try by (exists []; rewrite app_nil_r).
  destruct (Str.startsWith "data: " line); [|by (exists []; rewrite app_nil_r)].
  destruct (deltaContent line) as [[c|]|]; try by (exists []; rewrite app_nil_r).
  - destruct (JS.truthy c); [|by (exists []; rewrite app_nil_r)].
    unfold setLastContent. destruct (last _); [|by eexists].
    cbn [snd]. rewrite renderMessages_console. by (exists []; rewrite app_nil_r).
  - by eexists.
Qed.

Lemma forLines_text lines acc w :
  (forLines lines acc w).1 = acc +:+ Str.concat (lineFragment <$> lines).
Proof.
  revert acc w. induction lines as [|line rest IH]; intros acc w.
  - by rewrite append_nil_r.
  - cbn [forLines fmap list_fmap Str.concat].
    pose proof (processLine_text line acc w) as Htext.
    destruct (processLine line acc w) as [acc' w']. cbn [fst] in Htext.
    by rewrite IH, Htext, append_assoc.
Qed.

Lemma forLines_messages lines w ms m :
  messages (chatState w) = ms ++ [m] ->
  messages (chatState (forLines lines (content m) w).2)
  = ms ++ [{| role := role m; content := content m +:+ Str.concat (lineFragment <$> lines) |}].
Proof.
  revert w m. induction lines as [|line rest IH]; intros w m Hms.
  - cbn [forLines snd fmap list_fmap Str.concat]. rewrite append_nil_r, Hms. by destruct m.
  - cbn [forLines fmap list_fmap Str.concat].
    pose proof (processLine_text line (content m) w) as Htext.
    pose proof (processLine_messages line w ms m Hms) as Hms'.
    destruct (processLine line (content m) w) as [acc' w']. cbn [fst snd] in *.
    subst acc'.
    specialize (IH w' {| role := role m; content := content m +:+ lineFragment line |} Hms').
    cbn [role content] in IH. by rewrite IH, append_assoc.
Qed.

Lemma forLines_length lines acc w :
  length (overlays (document (forLines lines acc w).2)) = length (overlays (document w)).
Proof.
  revert acc w. induction lines as [|line rest IH]; intros acc w; [done|].
  cbn [forLines].
  pose proof (processLine_length line acc w) as Hlen.
  destruct (processLine line acc w) as [acc' w']. cbn [snd] in Hlen.
  by rewrite IH.
Qed.

Lemma forLines_console lines acc w :
  ∃ entries, console (forLines lines acc w).2 = console w ++ entries.
Proof.
  revert acc w. induction lines as [|line rest IH]; intros acc w.
  - exists []. by rewrite app_nil_r.
  - cbn [forLines].
    destruct (processLine_console line acc w) as [e1 He1].
    destruct (processLine line acc w) as [acc' w']. cbn [snd] in He1.
    destruct (IH acc' w') as [e2 He2].
    exists (e1 ++ e2). by rewrite He2, He1, app_assoc.
Qed.

Lemma forLines_app l1 l2 acc w :
  forLines (l1 ++ l2) acc w = forLines l2 (forLines l1 acc w).1 (forLines l1 acc w).2.
Proof.
  revert acc w. induction l1 as [|line rest IH]; intros acc w; [done|].
  cbn [forLines app]. destruct (processLine line acc w) as [acc' w']. apply IH.
Qed.

(** The loop over the reads processes the complete lines of the text that
    the reads deliver, however the text is cut into chunks. *)
Lemma readLoop_lines reads final buffer acc w :
  isLine buffer ->
  readLoop reads final buffer acc w
  = (settled final, (forLines (completeLines (buffer +:+ Str.concat reads)) acc w).2).
Proof.
  revert buffer acc w. induction reads as [|value reads IH]; intros buffer acc w Hbuffer.
  - cbn [readLoop Str.concat]. rewrite append_nil_r, (completeLines_isLine _ Hbuffer).
    by destruct final.
  - cbn [readLoop Str.concat].
    rewrite <- append_assoc, completeLines_app, forLines_app.
    fold (completeLines (buffer +:+ value)).
    destruct (forLines (completeLines (buffer +:+ value)) acc w) as [acc' w'].
    rewrite IH.
    + unfold Str.or. fold (remainder (buffer +:+ value)). by case_decide as Hr; [rewrite Hr|].
    + unfold Str.or. fold (remainder (buffer +:+ value)).
      case_decide; [done|]. apply remainder_isLine.
Qed.

End Lines.

(** ** A call of [askChatGPT] that passes the guards *)

Section Chat.
Context `{Host}.

Lemma askChatGPT_accepted net w inputText :
  accepts w inputText ->
  askChatGPT net w
  = restoreButton (match request net (entered inputText w) with
                   | (Normal _, w') => w'
                   | (Throw error, w') => requestFailed inputText error w'
                   end).
Proof.
  intros (value & Hinput & -> & Htrim & Hloading).
  unfold askChatGPT. rewrite Hinput, Hloading. by case_decide.
Qed.

Lemma accepts_mounted w inputText : accepts w inputText -> overlays (document w) ≠ [].
Proof.
  intros (value & Hinput & _). unfold getUserInput in Hinput.
  by destruct (overlays (document w)).
Qed.

Lemma entered_messages inputText w :
  messages (chatState (entered inputText w))
  = messages (chatState w) ++ [{| role := "user"; content := inputText |}].
Proof.
  unfold entered. cbn -[renderMessages]. rewrite renderMessages_chatState.
  by destruct (getSendButton _).
Qed.

Lemma withFirstOverlay_length f d :
  length (overlays (withFirstOverlay f d)) = length (overlays d).
Proof. destruct d as [[|o os] cl t]; done. Qed.

Lemma entered_length inputText w :
  length (overlays (document (entered inputText w))) = length (overlays (document w)).
Proof.
  unfold entered. cbn -[renderMessages withFirstOverlay].
  rewrite withFirstOverlay_length, renderMessages_length.
  destruct (getSendButton _); cbn -[withFirstOverlay]; [|done].
  by rewrite withFirstOverlay_length.
Qed.

Lemma request_length net w :
  length (overlays (document (request net w).2)) = length (overlays (document w)).
Proof.
  unfold request. destruct net as [e|response]; [done|].
  destruct (ok response); cbn [negb]; [|done].
  destruct (responseBody response) as [body|]; cbn [snd].
  - rewrite readLoop_lines by done. cbn [snd].
    by rewrite forLines_length, renderMessages_length.
  - by rewrite renderMessages_length.
Qed.

Lemma requestFailed_length inputText error w :
  length (overlays (document (requestFailed inputText error w))) = length (overlays (document w)).
Proof.
  unfold requestFailed. cbn -[renderMessages withFirstOverlay].
  by rewrite withFirstOverlay_length, renderMessages_length.
Qed.

Lemma restoreButton_length w :
  length (overlays (document (restoreButton w))) = length (overlays (document w)).
Proof.
  unfold restoreButton, scrollToBottom. cbn -[withFirstOverlay].
  destruct (getSendButton _); cbn -[withFirstOverlay]; [|done].
  by rewrite withFirstOverlay_length.
Qed.

Lemma askChatGPT_length net w :
  length (overlays (document (askChatGPT net w))) = length (overlays (document w)).
Proof.
  unfold askChatGPT.
  destruct (getUserInput (document w)) as [value|] eqn:Hinput; [|done].
  case_decide as Htrim; [done|].
  destruct (loading (chatState w)) eqn:Hloading; [done|].
  change (length (overlays (document (restoreButton
            (match request net (entered (Str.trim value) w) with
             | (Normal _, w') => w'
             | (Throw error, w') => requestFailed (Str.trim value) error w'
             end)))) = length (overlays (document w))).
  rewrite restoreButton_length.
  pose proof (request_length net (entered (Str.trim value) w)) as Hreq.
  destruct (request net (entered (Str.trim value) w)) as [[[]|error] w']; cbn [snd] in Hreq.
  - by rewrite Hreq, entered_length.
  - by rewrite requestFailed_length, Hreq, entered_length.
Qed.

(** After the [finally] block no send is in progress and the button of a
    mounted panel is enabled again. *)
Lemma restoreButton_restores w :
  overlays (document w) ≠ [] ->
  loading (chatState (restoreButton w)) = false
  ∧ getSendButton (document (restoreButton w))
    = Some {| disabled := false; textContent := "发送" |}.
Proof.
  intros Hmounted. unfold restoreButton, scrollToBottom, getSendButton.
  destruct w as [c [[|o os] cl t] k st tm]; done.
Qed.

Lemma restoreButton_loading w : loading (chatState (restoreButton w)) = false.
Proof. unfold restoreButton, scrollToBottom. cbn. by destruct (getSendButton _). Qed.

Lemma restoreButton_messages w :
  messages (chatState (restoreButton w)) = messages (chatState w).
Proof. unfold restoreButton, scrollToBottom. cbn. by destruct (getSendButton _). Qed.

Lemma restoreButton_userInput w :
  getUserInput (document (restoreButton w)) = getUserInput (document w).
Proof.
  unfold restoreButton, scrollToBottom, getUserInput, getSendButton.
  destruct w as [c [[|o os] cl t] k st tm]; done.
Qed.

Lemma restoreButton_console w : console (restoreButton w) = console w.
Proof. unfold restoreButton, scrollToBottom. cbn. by destruct (getSendButton _). Qed.

End Chat.

(** C7. A call of [askChatGPT] that passes the guards ends with no send in
    progress and with the send button enabled, whatever the request did:
    whether it succeeded, answered with a failure status, was rejected, or
    failed while the body was read. *)
Theorem askChatGPT_cleanup `{Host} (net : FetchOutcome) (w : World) (inputText : string) :
  accepts w inputText ->
  loading (chatState (askChatGPT net w)) = false
  ∧ getSendButton (document (askChatGPT net w))
    = Some {| disabled := false; textContent := "发送" |}.
Proof.
  intros Haccepts. rewrite (askChatGPT_accepted net w inputText Haccepts).
  apply restoreButton_restores.
  pose proof (accepts_mounted w inputText Haccepts) as Hmounted.
  pose proof (request_length net (entered inputText w)) as Hreq.
  rewrite entered_length in Hreq.
  destruct (request net (entered inputText w)) as [[[]|error] w']; cbn [snd] in Hreq.
  - intros Hnil. rewrite Hnil in Hreq. by destruct (overlays (document w)).
  - intros Hnil.
    pose proof (requestFailed_length inputText error w') as Hlen.
    rewrite Hnil, Hreq in Hlen. by destruct (overlays (document w)).
Qed.

Lemma askChatGPT_cleanup_witness :
  accepts (Example.typed "hello") "hello"
  ∧ Forall (fun net =>
      loading (chatState (askChatGPT (H := Browser.host) net (Example.typed "hello"))) = false
      ∧ getSendButton (document (askChatGPT (H := Browser.host) net (Example.typed "hello")))
        = Some {| disabled := false; textContent := "发送" |})
      [streamed Example.threeChunks; Example.httpFailure 500;
       Rejected (TypeError "Failed to fetch");
       Resolved {| ok := true; status := 200;
                   responseBody := Some {| chunks := [Example.event "Hi"];
                                           ending := ReadFails (TypeError "network error") |} |}].
Proof.
  assert (accepts (Example.typed "hello") "hello") as Haccepts.
  { exists "hello". repeat split; [vm_compute; discriminate]. }
  split; [exact Haccepts|].
  repeat (apply List.Forall_cons;
            [exact (askChatGPT_cleanup (H := Browser.host) _ _ _ Haccepts)|]).
  apply List.Forall_nil.
Defined.

(** ** The outcomes of the request *)

Section Outcomes.
Context `{Host}.

(** A request that fails before the placeholder is added. *)
Lemma askChatGPT_failed_request net w inputText error :
  accepts w inputText ->
  request net (entered inputText w) = (Throw error, entered inputText w) ->
  messages (chatState (askChatGPT net w)) = messages (chatState w)
  ∧ getUserInput (document (askChatGPT net w)) = Some inputText.
Proof.
  intros Haccepts Hreq.
  rewrite (askChatGPT_accepted net w inputText Haccepts), Hreq.
  rewrite restoreButton_messages, restoreButton_userInput.
  pose proof (accepts_mounted w inputText Haccepts) as Hmounted.
  pose proof (entered_length inputText w) as Hlen.
  pose proof (entered_messages inputText w) as Hms.
  unfold requestFailed, showMessage, pop.
  cbn -[renderMessages withFirstOverlay entered]. split.
  - rewrite renderMessages_chatState. cbn -[entered]. rewrite Hms. apply take_pred_snoc.
  - set (w1 := renderMessages _).
    assert (length (overlays (document w1)) = length (overlays (document w))) as Hlen1.
    { subst w1. rewrite renderMessages_length. cbn -[entered]. done. }
    unfold getUserInput.
    destruct (document w1) as [[|o os] cl t]; [|done].
    by destruct (overlays (document w)).
Qed.

Lemma request_http_failure response w :
  ok response = false ->
  request (Resolved response) w
  = (Throw (mkError "Error" ("HTTP " +:+ pretty (status response))), w).
Proof. intros Hok. unfold request. by rewrite Hok. Qed.

(** A request whose body streams to its end. *)
Lemma askChatGPT_streamed_messages reads w inputText :
  accepts w inputText ->
  messages (chatState (askChatGPT (streamed reads) w))
  = messages (chatState w)
    ++ [{| role := "user"; content := inputText |};
        {| role := "assistant";
           content := Str.concat (lineFragment <$> completeLines (Str.concat reads)) |}].
Proof.
  intros Haccepts. rewrite (askChatGPT_accepted _ w inputText Haccepts).
  unfold request, streamed. cbn [ok negb responseBody chunks ending].
  rewrite readLoop_lines by done. cbn [settled snd].
  rewrite restoreButton_messages.
  change ("" +:+ Str.concat reads) with (Str.concat reads).
  rewrite (forLines_messages _ _ (messages (chatState w) ++ [{| role := "user"; content := inputText |}])
             {| role := "assistant"; content := "" |}).
  - by rewrite <- app_assoc.
  - rewrite renderMessages_chatState. cbn -[entered]. by rewrite entered_messages.
Qed.
End Outcomes.

(** C1. On a failure status the [catch] block pops the message list although
    no placeholder has been added yet: the message it removes is the one of
    the user.  With the history [[SYSTEM_PROMPT]], the input [hello] and an
    answer with status 500 the list has its old length afterwards, not one
    more; the input holds the submitted text again. *)
Theorem askChatGPT_http_failure_pops_user_message :
  accepts (Example.typed "hello") "hello"
  ∧ messages (chatState (Example.typed "hello")) = [SYSTEM_PROMPT]
  ∧ messages (chatState (askChatGPT (H := Browser.host) (Example.httpFailure 500)
                           (Example.typed "hello"))) = [SYSTEM_PROMPT]
  ∧ length (messages (chatState (askChatGPT (H := Browser.host) (Example.httpFailure 500)
                                   (Example.typed "hello"))))
    ≠ length (messages (chatState (Example.typed "hello"))) + 1
  ∧ getUserInput (document (askChatGPT (H := Browser.host) (Example.httpFailure 500)
                              (Example.typed "hello"))) = Some "hello".
Proof.
  assert (accepts (Example.typed "hello") "hello") as Haccepts.
  { exists "hello". repeat split; [vm_compute; discriminate]. }
  destruct (askChatGPT_failed_request (H := Browser.host) (Example.httpFailure 500)
              (Example.typed "hello") "hello" _ Haccepts
              (request_http_failure {| ok := false; status := 500; responseBody := None |}
                 (entered "hello" (Example.typed "hello")) eq_refl)) as [Hms Hinput].
  rewrite Hms, Hinput. repeat split; [exact Haccepts|..]; try done.
Qed.

(** ** The stream put together again *)

Section Reassembly.
Context `{Host}.

Lemma completeLines_streamText lines :
  Forall isLine lines -> completeLines (streamText lines) = lines.
Proof. intros Hlines. apply (completeLines_snoc lines ""). by apply split_streamText. Qed.

(** A data line gives the fragment that its event carries. *)
Lemma lineFragment_carries line text : carries line text -> lineFragment line = text.
Proof.
  intros (payload & event & -> & Hsentinel & Hparse & Hpath).
  unfold lineFragment.
  case_decide as Hblank; [by apply data_line_not_blank in Hblank|].
  case_decide as Hdone; [by injection Hdone|].
  change (Str.startsWith "data: " ("data: " +:+ payload)) with true.
  change (Str.substring 6 ("data: " +:+ payload)) with payload.
  rewrite Hparse. unfold eventFragment. rewrite Hpath.
  cbn [JS.truthy from_option JS.ToBoolean ToStringV JS.ToString].
  by case_bool_decide as Hempty; [rewrite Hempty|].
Qed.

Lemma lineFragment_events (events : list (string * string)) :
  Forall (fun event => carries event.1 event.2) events ->
  lineFragment <$> events.*1 = events.*2.
Proof.
  induction 1 as [|[line text] events Hcarries _ IH]; [done|].
  cbn [fmap list_fmap fst snd] in *. by rewrite (lineFragment_carries _ _ Hcarries), <- IH.
Qed.

End Reassembly.

(** C2. For every sequence of lines and every way of cutting their text into
    chunks, also inside a line, the streaming loop of [askChatGPT] puts the
    lines together again and leaves, as the content of the assistant
    message, the fragments of the lines joined in the order of arrival; for
    data lines these are the texts that their events carry.  For the three
    chunks of the specification this content is [Hi there]. *)
Theorem askChatGPT_reassembles_stream :
  (∀ `(Host) (lines reads : list string) (w : World) (inputText : string),
     accepts w inputText ->
     Forall isLine lines ->
     Str.concat reads = streamText lines ->
     messages (chatState (askChatGPT (streamed reads) w))
     = messages (chatState w)
       ++ [{| role := "user"; content := inputText |};
           {| role := "assistant"; content := Str.concat (lineFragment <$> lines) |}])
  ∧ (∀ `(Host) (events : list (string * string)) (reads : list string)
       (w : World) (inputText : string),
       accepts w inputText ->
       Forall (fun event => isLine event.1 ∧ carries event.1 event.2) events ->
       Str.concat reads = streamText events.*1 ->
       messages (chatState (askChatGPT (streamed reads) w))
       = messages (chatState w)
         ++ [{| role := "user"; content := inputText |};
             {| role := "assistant"; content := Str.concat events.*2 |}])
  ∧ last (messages (chatState (askChatGPT (H := Browser.host) (streamed Example.threeChunks)
                                 (Example.typed "hello"))))
    = Some {| role := "assistant"; content := "Hi there" |}.
Proof.
  split; [|split].
  - intros Hhost lines reads w inputText Haccepts Hlines Htext.
    rewrite (askChatGPT_streamed_messages reads w inputText Haccepts), Htext.
    by rewrite completeLines_streamText.
  - intros Hhost events reads w inputText Haccepts Hevents Htext.
    rewrite (askChatGPT_streamed_messages reads w inputText Haccepts), Htext.
    rewrite completeLines_streamText.
    + rewrite lineFragment_events; [done|].
      eapply Forall_impl; [exact Hevents|]. by intros event [_ Hcarries].
    + apply Forall_fmap. eapply Forall_impl; [exact Hevents|]. by intros event [Hline _].
  - vm_compute. reflexivity.
Qed.

Lemma askChatGPT_reassembles_stream_witness :
  accepts (Example.typed "hello") "hello"
  ∧ Forall isLine [Example.event "Hi"; Example.event " there"; "data: [DONE]"]
  ∧ Str.concat [Browser.takeString 20 (Str.concat Example.threeChunks);
                Browser.takeString 50 (Str.substring 20 (Str.concat Example.threeChunks));
                Str.substring 70 (Str.concat Example.threeChunks)]
    = streamText [Example.event "Hi"; Example.event " there"; "data: [DONE]"]
  ∧ messages (chatState (askChatGPT (H := Browser.host)
       (streamed [Browser.takeString 20 (Str.concat Example.threeChunks);
                  Browser.takeString 50 (Str.substring 20 (Str.concat Example.threeChunks));
                  Str.substring 70 (Str.concat Example.threeChunks)])
       (Example.typed "hello")))
    = [SYSTEM_PROMPT; {| role := "user"; content := "hello" |};
       {| role := "assistant"; content := "Hi there" |}]
  ∧ Forall (fun event => isLine event.1 ∧ carries (H := Browser.host) event.1 event.2)
      [(Example.event "Hi", "Hi"); (Example.event " there", " there")]
  ∧ messages (chatState (askChatGPT (H := Browser.host)
       (streamed [Example.event "Hi" +:+ String Str.newline "data: ";
                  Str.substring 6 (Example.event " there") +:+ String Str.newline ""])
       (Example.typed "hello")))
    = [SYSTEM_PROMPT; {| role := "user"; content := "hello" |};
       {| role := "assistant"; content := "Hi there" |}].
Proof.
  assert (accepts (Example.typed "hello") "hello") as Haccepts.
  { exists "hello". repeat split; [vm_compute; discriminate]. }
  assert (Forall isLine [Example.event "Hi"; Example.event " there"; "data: [DONE]"]) as Hlines.
  { repeat (apply List.Forall_cons; [vm_compute; reflexivity|]). apply List.Forall_nil. }
  assert (Str.concat [Browser.takeString 20 (Str.concat Example.threeChunks);
                Browser.takeString 50 (Str.substring 20 (Str.concat Example.threeChunks));
                Str.substring 70 (Str.concat Example.threeChunks)]
          = streamText [Example.event "Hi"; Example.event " there"; "data: [DONE]"]) as Htext.
  { vm_compute. reflexivity. }
  assert (Forall (fun event => isLine event.1 ∧ carries (H := Browser.host) event.1 event.2)
            [(Example.event "Hi", "Hi"); (Example.event " there", " there")]) as Hevents.
  { repeat (apply List.Forall_cons;
              [split; [vm_compute; reflexivity|];
               eexists _, _; split; [reflexivity|]; split; [discriminate|];
               split; vm_compute; reflexivity|]).
    apply List.Forall_nil. }
  assert (Str.concat [Example.event "Hi" +:+ String Str.newline "data: ";
                      Str.substring 6 (Example.event " there") +:+ String Str.newline ""]
          = streamText [(Example.event "Hi", "Hi"); (Example.event " there", " there")].*1)
    as Hcut by (vm_compute; reflexivity).
  destruct askChatGPT_reassembles_stream as (Hany & Hdata & _).
  split; [exact Haccepts|]. split; [exact Hlines|]. split; [exact Htext|].
  split; [|split; [exact Hevents|]].
  - by rewrite (Hany Browser.host _ _ _ _ Haccepts Hlines Htext).
  - by rewrite (Hdata Browser.host _ _ _ _ Haccepts Hevents Hcut).
Defined.

(** ** A line that does not parse *)

Section Malformed.
Context `{Host}.

Lemma concat_app l1 l2 : Str.concat (l1 ++ l2) = Str.concat l1 +:+ Str.concat l2.
Proof.
  induction l1 as [|x l1 IH]; [done|].
  cbn [app Str.concat]. by rewrite IH, append_assoc.
Qed.

(** A data line that does not parse is logged and changes nothing else. *)
Lemma processLine_malformed bad e acc w :
  Str.startsWith "data: " bad = true ->
  bad ≠ "data: [DONE]" ->
  JSON_parse (Str.substring 6 bad) = Throw e ->
  processLine bad acc w = (acc, parseFailed e w).
Proof.
  intros Hstarts Hsentinel Hparse. unfold processLine.
  case_decide as Hblank; [by apply data_line_not_blank in Hblank|].
  case_decide; [done|].
  by rewrite Hstarts, (deltaContent_parse_error _ _ Hparse).
Qed.

Lemma lineFragment_malformed bad e :
  JSON_parse (Str.substring 6 bad) = Throw e -> lineFragment bad = "".
Proof.
  intros Hparse. unfold lineFragment. repeat case_decide; try done.
  rewrite Hparse. by destruct (Str.startsWith _ _).
Qed.

Lemma forLines_logs_malformed before bad after e acc w :
  Str.startsWith "data: " bad = true ->
  bad ≠ "data: [DONE]" ->
  JSON_parse (Str.substring 6 bad) = Throw e ->
  console_warn [Text "解析JSON失败:"; Thrown e]
    ∈ console (forLines (before ++ bad :: after) acc w).2.
Proof.
  intros Hstarts Hsentinel Hparse.
  rewrite forLines_app. cbn [forLines].
  rewrite (processLine_malformed bad e _ _ Hstarts Hsentinel Hparse).
  destruct (forLines_console after (forLines before acc w).1
              (parseFailed e (forLines before acc w).2)) as [entries ->].
  unfold parseFailed. cbn [console print]. set_solver.
Qed.

Lemma askChatGPT_streamed_console reads w inputText :
  accepts w inputText ->
  console (askChatGPT (streamed reads) w)
  = console (forLines (completeLines (Str.concat reads)) ""
               (renderMessages (push {| role := "assistant"; content := "" |}
                                  (entered inputText w)))).2.
Proof.
  intros Haccepts. rewrite (askChatGPT_accepted _ w inputText Haccepts).
  unfold request, streamed. cbn [ok negb responseBody chunks ending].
  rewrite readLoop_lines by done. cbn [settled snd].
  by rewrite restoreButton_console.
Qed.

End Malformed.

(** C4. A line with the data marker whose JSON does not parse is caught and
    logged, and the stream goes on: the lines before it and the lines after
    it all give their fragments to the assistant message, which stays in the
    list, and the call ends as one that succeeded. *)
Theorem askChatGPT_skips_malformed_line `{Host}
    (before after reads : list string) (bad : string) (e : Error)
    (w : World) (inputText : string) :
  accepts w inputText ->
  Forall isLine (before ++ bad :: after) ->
  Str.startsWith "data: " bad = true ->
  bad ≠ "data: [DONE]" ->
  JSON_parse (Str.substring 6 bad) = Throw e ->
  Str.concat reads = streamText (before ++ bad :: after) ->
  messages (chatState (askChatGPT (streamed reads) w))
  = messages (chatState w)
    ++ [{| role := "user"; content := inputText |};
        {| role := "assistant";
           content := Str.concat (lineFragment <$> before)
                      +:+ Str.concat (lineFragment <$> after) |}]
  ∧ console_warn [Text "解析JSON失败:"; Thrown e] ∈ console (askChatGPT (streamed reads) w)
  ∧ loading (chatState (askChatGPT (streamed reads) w)) = false.
Proof.
  intros Haccepts Hlines Hstarts Hsentinel Hparse Htext. repeat split.
  - rewrite (askChatGPT_streamed_messages reads w inputText Haccepts), Htext.
    rewrite (completeLines_streamText _ Hlines).
    rewrite fmap_app, concat_app. cbn [fmap list_fmap Str.concat].
    by rewrite (lineFragment_malformed bad e Hparse).
  - rewrite (askChatGPT_streamed_console reads w inputText Haccepts), Htext.
    rewrite (completeLines_streamText _ Hlines).
    by apply forLines_logs_malformed.
  - rewrite (askChatGPT_accepted _ w inputText Haccepts). apply restoreButton_loading.
Qed.

Lemma askChatGPT_skips_malformed_line_witness :
  accepts (Example.typed "hello") "hello"
  ∧ Forall isLine ([Example.event "Hi"] ++ "data: {oops" :: [Example.event " there"; "data: [DONE]"])
  ∧ Str.startsWith "data: " "data: {oops" = true
  ∧ "data: {oops" ≠ "data: [DONE]"
  ∧ JSON_parse (Host := Browser.host) (Str.substring 6 "data: {oops") = Throw Browser.SyntaxError
  ∧ Str.concat [Example.event "Hi" +:+ String Str.newline "data: {o";
                "ops" +:+ String Str.newline (Example.event " there");
                String Str.newline "data: [DONE]" +:+ String Str.newline ""]
    = streamText ([Example.event "Hi"] ++ "data: {oops" :: [Example.event " there"; "data: [DONE]"])
  ∧ messages (chatState (askChatGPT (H := Browser.host)
       (streamed [Example.event "Hi" +:+ String Str.newline "data: {o";
                  "ops" +:+ String Str.newline (Example.event " there");
                  String Str.newline "data: [DONE]" +:+ String Str.newline ""])
       (Example.typed "hello")))
    = [SYSTEM_PROMPT; {| role := "user"; content := "hello" |};
       {| role := "assistant"; content := "Hi there" |}].
Proof.
  assert (accepts (Example.typed "hello") "hello") as Haccepts.
  { exists "hello". repeat split; [vm_compute; discriminate]. }
  assert (Forall isLine ([Example.event "Hi"] ++ "data: {oops"
                           :: [Example.event " there"; "data: [DONE]"])) as Hlines.
  { repeat constructor; vm_compute; reflexivity. }
  assert ("data: {oops" ≠ "data: [DONE]") as Hsentinel by discriminate.
  assert (JSON_parse (Host := Browser.host) (Str.substring 6 "data: {oops")
          = Throw Browser.SyntaxError) as Hparse by (vm_compute; reflexivity).
  assert (Str.concat [Example.event "Hi" +:+ String Str.newline "data: {o";
                "ops" +:+ String Str.newline (Example.event " there");
                String Str.newline "data: [DONE]" +:+ String Str.newline ""]
          = streamText ([Example.event "Hi"] ++ "data: {oops"
                          :: [Example.event " there"; "data: [DONE]"])) as Htext
    by (vm_compute; reflexivity).
  split; [exact Haccepts|]. split; [exact Hlines|]. split; [reflexivity|].
  split; [exact Hsentinel|]. split; [exact Hparse|]. split; [exact Htext|].
  rewrite (proj1 (askChatGPT_skips_malformed_line (H := Browser.host) _ _ _ _ _ _ _
                    Haccepts Hlines eq_refl Hsentinel Hparse Htext)).
  vm_compute. reflexivity.
Defined.

(** ** The settings store *)

Lemma ownProperties_member (members : list (string * JSON)) (key : string) :
  ownProperties (JObject members) !! key = JS.member key members.
Proof.
  unfold ownProperties. induction members as [|[k v] rest IH]; [done|].
  rewrite reverse_cons, list_to_map_app. cbn [JS.member]. rewrite <- IH.
  destruct (list_to_map (reverse rest) !! key) as [v'|] eqn:Hrest.
  - by apply lookup_union_Some_l.
  - rewrite lookup_union_r by done. cbn [list_to_map foldr].
    case_decide as Hk.
    + subst k. apply lookup_insert_eq.
    + by rewrite lookup_insert_ne.
Qed.

(** C6. Whatever partial settings object is stored under [readerSettings],
    or none at all, [fetchReaderSettings] gives an object in which every
    field of the stored object has the stored value, every other field has
    its value of [DEFAULT_SETTINGS], and every field of [DEFAULT_SETTINGS]
    is present; the seven settings are fields of [DEFAULT_SETTINGS]. *)
Theorem fetchReaderSettings_merges_defaults
    (w : World) (stored : option (list (string * JSON))) :
  storage w !! "readerSettings" = JObject <$> stored ->
  (∀ key value, stored ≫= JS.member key = Some value ->
     fetchReaderSettings w !! key = Some value)
  ∧ (∀ key, stored ≫= JS.member key = None ->
       fetchReaderSettings w !! key = DEFAULT_SETTINGS !! key)
  ∧ (∀ key, is_Some (DEFAULT_SETTINGS !! key) -> is_Some (fetchReaderSettings w !! key))
  ∧ (∀ key, key ∈ ["fontSize"; "lineHeight"; "fontFamily"; "backgroundColor";
                   "textColor"; "maxWidth"; "darkMode"] ->
       is_Some (DEFAULT_SETTINGS !! key)).
Proof.
  intros Hstored.
  assert (∀ key, fetchReaderSettings w !! key
                 = match stored ≫= JS.member key with
                   | Some value => Some value
                   | None => DEFAULT_SETTINGS !! key
                   end) as Hlookup.
  { intros key. unfold fetchReaderSettings, Object_assign. rewrite Hstored.
    cbn [foldl]. rewrite (right_id_L ∅ (∪)).
    destruct stored as [members|]; cbn [fmap option_fmap option_map JS.truthy from_option
                                         JS.ToBoolean default mbind option_bind].
    - rewrite <- ownProperties_member.
      destruct (ownProperties (JObject members) !! key) as [value|] eqn:Hmember.
      + by apply lookup_union_Some_l.
      + by rewrite lookup_union_r.
    - rewrite lookup_union_r; [done|]. by rewrite ownProperties_member. }
  split; [|split; [|split]].
  - intros key value Hkey. by rewrite Hlookup, Hkey.
  - intros key Hkey. by rewrite Hlookup, Hkey.
  - intros key Hdefault. rewrite Hlookup. by destruct (stored ≫= JS.member key).
  - intros key Hin.
    repeat (apply elem_of_cons in Hin as [->|Hin]; [by eexists|]).
    by apply elem_of_nil in Hin.
Qed.

Lemma fetchReaderSettings_merges_defaults_witness :
  storage Example.themed !! "readerSettings" = JObject <$> Some Example.storedSettings
  ∧ fetchReaderSettings Example.themed !! "darkMode" = Some (JBool true)
  ∧ fetchReaderSettings Example.themed !! "fontSize" = Some (JNumber 20 0)
  ∧ fetchReaderSettings Example.themed !! "maxWidth" = Some (JString "1000px").
Proof.
  assert (storage Example.themed !! "readerSettings" = JObject <$> Some Example.storedSettings)
    as Hstored by (vm_compute; reflexivity).
  destruct (fetchReaderSettings_merges_defaults Example.themed (Some Example.storedSettings)
              Hstored) as (Hpresent & Hmissing & _).
  split; [exact Hstored|].
  split; [by apply Hpresent|]. split; [by apply Hpresent|].
  by rewrite Hmissing.
Defined.

(** ** The history of the chat *)

Section History.
Context `{Host}.

Ltac all_spoken :=
  repeat (apply List.Forall_cons; [solve [by left | by right]|]); apply List.Forall_nil.

Lemma requestFailed_messages inputText error w :
  messages (chatState (requestFailed inputText error w))
  = take (length (messages (chatState w)) - 1) (messages (chatState w)).
Proof.
  unfold requestFailed, showMessage, pop. cbn -[renderMessages withFirstOverlay].
  by rewrite renderMessages_chatState.
Qed.

(** The request leaves the history as it is and throws, or it adds the
    message of the assistant. *)
Lemma request_messages net w :
  (∃ e, (request net w).1 = Throw e
        ∧ messages (chatState (request net w).2) = messages (chatState w))
  ∨ (∃ text, messages (chatState (request net w).2)
             = messages (chatState w) ++ [{| role := "assistant"; content := text |}]).
Proof.
  unfold request. destruct net as [e|response]; [left; by eexists|].
  destruct (ok response); cbn [negb]; [|left; by eexists].
  right. destruct (responseBody response) as [body|].
  - rewrite readLoop_lines by done. cbn [snd]. eexists.
    apply (forLines_messages _ _ _ {| role := "assistant"; content := "" |}).
    by rewrite renderMessages_chatState.
  - eexists. cbn [snd]. by rewrite renderMessages_chatState.
Qed.

(** A call of [askChatGPT] keeps every message that was in the list before
    it, and adds messages of the user and of the assistant only. *)
Lemma askChatGPT_history net w :
  ∃ added, messages (chatState (askChatGPT net w)) = messages (chatState w) ++ added
           ∧ Forall spoken added.
Proof.
  destruct (getUserInput (document w)) as [value|] eqn:Hinput;
    [|exists []; unfold askChatGPT; rewrite Hinput; by rewrite app_nil_r].
  destruct (decide (Str.trim value = "")) as [Hblank|Htrim];
    [exists []; unfold askChatGPT; rewrite Hinput; case_decide; [|done]; by rewrite app_nil_r|].
  destruct (loading (chatState w)) eqn:Hloading;
    [exists []; unfold askChatGPT; rewrite Hinput, Hloading; case_decide; [done|];
     by rewrite app_nil_r|].
  assert (accepts w (Str.trim value)) as Haccepts by by exists value.
  rewrite (askChatGPT_accepted net w _ Haccepts), restoreButton_messages.
  pose proof (entered_messages (Str.trim value) w) as Hentered.
  destruct (request_messages net (entered (Str.trim value) w))
    as [(e & Hthrow & Hms)|(text & Hms)];
    destruct (request net (entered (Str.trim value) w)) as [[[]|error] w'];
    cbn [fst snd] in *; try done.
  - exists []. rewrite requestFailed_messages, Hms, Hentered, take_pred_snoc.
    by rewrite app_nil_r.
  - exists [{| role := "user"; content := Str.trim value |};
            {| role := "assistant"; content := text |}].
    rewrite Hms, Hentered, <- app_assoc. split; [done|].
    all_spoken.
  - exists [{| role := "user"; content := Str.trim value |}].
    rewrite requestFailed_messages, Hms, take_pred_snoc, Hentered. split; [done|].
    all_spoken.
Qed.

Lemma querycontent_history extracted now w :
  ∃ added, messages (chatState (querycontent extracted now w).2)
           = messages (chatState w) ++ added
           ∧ Forall spoken added.
Proof.
  unfold querycontent. destruct (isReaderActive (document w)).
  - destruct extracted as [article|]; [|exists []; by rewrite app_nil_r].
    eexists [_]. cbn [snd]. rewrite renderMessages_chatState. split; [done|].
    all_spoken.
  - destruct extracted as [article|]; [|exists []; by rewrite app_nil_r].
    eexists [_]. cbn -[renderMessages]. rewrite renderMessages_chatState. split; [done|].
    all_spoken.
Qed.

Lemma toggleReader_chatState extracted now w :
  chatState (toggleReader extracted now w).2 = chatState w.
Proof.
  unfold toggleReader. destruct (isReaderActive (document w)); [done|].
  by destruct extracted.
Qed.

Lemma onMessage_chatState action extracted now w :
  chatState (onMessage action extracted now w).2 = chatState w.
Proof.
  unfold onMessage. repeat case_decide; try done.
  pose proof (toggleReader_chatState extracted now w) as Htoggle.
  by destruct (toggleReader extracted now w) as [[?|[?|?]] w'].
Qed.

Lemma toolbarClick_chatState settings action w :
  chatState (toolbarClick settings action w) = chatState w.
Proof.
  unfold toolbarClick. repeat case_decide; try done.
  by destruct (getOverlay (document w)).
Qed.

Lemma runTimer_chatState w : chatState (runTimer w) = chatState w.
Proof.
  unfold runTimer. destruct (timers w) as [|[] rest]; [done|].
  unfold initializeChatInterface. by rewrite renderMessages_chatState.
Qed.

(** No handler removes a message of an earlier call. *)
Lemma step_history w w' :
  step w w' ->
  ∃ added, messages (chatState w') = messages (chatState w) ++ added ∧ Forall spoken added.
Proof.
  destruct 1 as [net w|extracted now w|extracted now w|article settings now w|w
                |extracted now w|action extracted now w|settings action w|w|value w|st w].
  - apply askChatGPT_history.
  - apply querycontent_history.
  - exists []. rewrite app_nil_r. by destruct extracted.
  - exists []. by rewrite app_nil_r.
  - exists []. by rewrite app_nil_r.
  - exists []. by rewrite app_nil_r, toggleReader_chatState.
  - exists []. by rewrite app_nil_r, onMessage_chatState.
  - exists []. by rewrite app_nil_r, toolbarClick_chatState.
  - exists []. by rewrite app_nil_r, runTimer_chatState.
  - exists []. by rewrite app_nil_r.
  - exists []. by rewrite app_nil_r.
Qed.

Lemma reachable_history w :
  reachable w ->
  ∃ rest, messages (chatState w) = SYSTEM_PROMPT :: rest ∧ Forall spoken rest.
Proof.
  intros (w0 & ((key & Hchat) & _) & Hsteps).
  revert w Hsteps.
  apply (rtc_ind_r (fun w => ∃ rest, messages (chatState w) = SYSTEM_PROMPT :: rest
                                      ∧ Forall spoken rest)).
  - exists []. by rewrite Hchat.
  - intros w1 w2 _ Hstep (rest & Hms & Hspoken).
    destruct (step_history w1 w2 Hstep) as (added & Hadded & Hnew).
    exists (rest ++ added). rewrite Hadded, Hms. split; [done|]. by apply Forall_app.
Qed.

(** [renderMessages] renders the messages after the first. *)
Lemma forEachMessage_succ index items children :
  forEachMessage (S index) items children = children ++ (messageDiv <$> items).
Proof.
  revert index children. induction items as [|item rest IH]; intros index children.
  - by rewrite app_nil_r.
  - cbn [forEachMessage fmap list_fmap]. case_decide; [done|].
    by rewrite IH, <- app_assoc.
Qed.

Lemma forEachMessage_skips_first first rest :
  forEachMessage 0 (first :: rest) [] = messageDiv <$> rest.
Proof. cbn [forEachMessage]. case_decide; [|done]. by rewrite forEachMessage_succ. Qed.

End History.

(** C3. In every state that the page can reach, the message list is not
    empty and begins with the system prompt, whose role is [system]; all
    messages after it are of the user or of the assistant; no handler
    removes the system prompt; and [renderMessages] fills the message list
    of the page with the messages after the first, never with the first. *)
Theorem system_prompt_stays_first `{Host} (w : World) :
  reachable w ->
  ∃ rest,
    messages (chatState w) = SYSTEM_PROMPT :: rest
    ∧ role SYSTEM_PROMPT = "system"
    ∧ Forall spoken rest
    ∧ (∀ w', step w w' -> ∃ rest', messages (chatState w') = SYSTEM_PROMPT :: rest')
    ∧ (∀ children,
         getMessagesContainer (document (renderMessages w)) = Some children ->
         children = messageDiv <$> rest).
Proof.
  intros Hreachable.
  destruct (reachable_history w Hreachable) as (rest & Hms & Hspoken).
  exists rest. split; [done|]. split; [done|]. split; [done|]. split.
  - intros w' Hstep. destruct (step_history w w' Hstep) as (added & Hadded & _).
    exists (rest ++ added). by rewrite Hadded, Hms.
  - intros children. unfold renderMessages, getMessagesContainer.
    destruct w as [c [[|o os] cl t] k st tm]; cbn in *; [done|].
    intros [= <-]. rewrite Hms. apply forEachMessage_skips_first.
Qed.

Lemma system_prompt_stays_first_witness :
  reachable (H := Browser.host)
    (askChatGPT (H := Browser.host) (streamed Example.threeChunks) (Example.typed "hello"))
  ∧ ∃ rest,
      messages (chatState (askChatGPT (H := Browser.host) (streamed Example.threeChunks)
                             (Example.typed "hello"))) = SYSTEM_PROMPT :: rest
      ∧ length rest = 2.
Proof.
  assert (reachable (H := Browser.host)
            (askChatGPT (H := Browser.host) (streamed Example.threeChunks)
               (Example.typed "hello"))) as Hreachable.
  { exists Example.loaded. split.
    - split; [by exists "key"|done].
    - eapply rtc_l; [apply (step_openReader (Some Example.article) "now")|].
      eapply rtc_l; [apply (step_input "hello")|].
      eapply rtc_l; [apply (step_askChatGPT (streamed Example.threeChunks))|].
      apply rtc_refl. }
  split; [exact Hreachable|].
  destruct (system_prompt_stays_first (H := Browser.host) _ Hreachable)
    as (rest & Hms & _ & _ & _ & _).
  exists rest. split; [exact Hms|].
  apply (f_equal length) in Hms. vm_compute in Hms. by injection Hms.
Defined.

(** ** The overlay *)

Section OverlayCount.
Context `{Host}.

(** How many elements with the id of the overlay are mounted. *)
Lemma removeReader_overlays d : overlays (removeReader d) = drop 1 (overlays d).
Proof. unfold removeReader, getOverlay. by destruct d as [[|o os] cl t]. Qed.

Lemma isReaderActive_mounted d : isReaderActive d = bool_decide (overlays d ≠ []).
Proof. unfold isReaderActive, getOverlay. by destruct (overlays d). Qed.

Lemma mountReader_overlays article settings now w :
  overlays (document (mountReader article settings now w))
  = drop 1 (overlays (document w))
    ++ [buildOverlay article settings now (removeReader (document w))].
Proof. unfold mountReader. cbn -[removeReader buildOverlay]. by rewrite removeReader_overlays. Qed.

Lemma openReader_count extracted now w :
  length (overlays (document w)) ≤ 1 ->
  length (overlays (document (openReader extracted now w).2)) ≤ 1.
Proof.
  intros Hone. unfold openReader. destruct extracted as [article|]; [|done].
  cbn [snd]. rewrite mountReader_overlays, length_app, length_drop. simpl. lia.
Qed.

Lemma querycontent_count extracted now w :
  length (overlays (document w)) ≤ 1 ->
  length (overlays (document (querycontent extracted now w).2)) ≤ 1.
Proof.
  intros Hone. unfold querycontent. destruct (isReaderActive (document w)).
  - destruct extracted as [article|]; [|done]. cbn [snd]. by rewrite renderMessages_length.
  - pose proof (openReader_count extracted now w Hone) as Hopen.
    destruct (openReader extracted now w) as [[articleText|e] w']; cbn [snd] in *; [|done].
    by rewrite renderMessages_length.
Qed.

Lemma toggleReader_count extracted now w :
  length (overlays (document w)) ≤ 1 ->
  length (overlays (document (toggleReader extracted now w).2)) ≤ 1.
Proof.
  intros Hone. unfold toggleReader. destruct (isReaderActive (document w)).
  - cbn -[removeReader]. rewrite removeReader_overlays, length_drop. lia.
  - pose proof (openReader_count extracted now w Hone) as Hopen.
    destruct (openReader extracted now w) as [[articleText|e] w']; cbn [snd] in *; [done|].
    cbn -[removeReader]. rewrite removeReader_overlays, length_drop. lia.
Qed.

Lemma onMessage_count action extracted now w :
  length (overlays (document w)) ≤ 1 ->
  length (overlays (document (onMessage action extracted now w).2)) ≤ 1.
Proof.
  intros Hone. unfold onMessage. repeat case_decide; try done.
  - pose proof (toggleReader_count extracted now w Hone) as Htoggle.
    by destruct (toggleReader extracted now w) as [[?|[?|?]] w'].
  - cbn -[removeReader]. rewrite removeReader_overlays, length_drop. lia.
Qed.

Lemma toolbarClick_count settings action w :
  length (overlays (document w)) ≤ 1 ->
  length (overlays (document (toolbarClick settings action w))) ≤ 1.
Proof.
  intros Hone. unfold toolbarClick. repeat case_decide; try done.
  - cbn -[removeReader]. rewrite removeReader_overlays, length_drop. lia.
  - destruct (getOverlay (document w)); [|done].
    cbn -[withFirstOverlay]. by rewrite withFirstOverlay_length.
  - cbn -[withFirstOverlay]. by rewrite withFirstOverlay_length.
  - cbn -[withFirstOverlay]. by rewrite withFirstOverlay_length.
Qed.

Lemma runTimer_length w :
  length (overlays (document (runTimer w))) = length (overlays (document w)).
Proof.
  unfold runTimer. destruct (timers w) as [|[] rest]; [done|].
  unfold initializeChatInterface. by rewrite renderMessages_length.
Qed.

(** No handler leaves a second overlay behind. *)
Lemma step_count w w' :
  step w w' -> length (overlays (document w)) ≤ 1 -> length (overlays (document w')) ≤ 1.
Proof.
  destruct 1 as [net w|extracted now w|extracted now w|article settings now w|w
                |extracted now w|action extracted now w|settings action w|w|value w|st w];
    intros Hone.
  - by rewrite askChatGPT_length.
  - by apply querycontent_count.
  - by apply openReader_count.
  - rewrite mountReader_overlays, length_app, length_drop. simpl. lia.
  - cbn -[removeReader]. rewrite removeReader_overlays, length_drop. lia.
  - by apply toggleReader_count.
  - by apply onMessage_count.
  - by apply toolbarClick_count.
  - by rewrite runTimer_length.
  - cbn -[withFirstOverlay]. by rewrite withFirstOverlay_length.
  - done.
Qed.

Lemma reachable_count w : reachable w -> length (overlays (document w)) ≤ 1.
Proof.
  intros (w0 & (_ & Hnone & _) & Hsteps). revert w Hsteps.
  apply (rtc_ind_r (fun w => length (overlays (document w)) ≤ 1)).
  - rewrite Hnone. simpl. lia.
  - intros w1 w2 _ Hstep Hone. by apply (step_count w1 w2).
Qed.

End OverlayCount.

(** C8. [openReader] removes a mounted overlay before it builds the new one:
    in every state that the page can reach at most one overlay is mounted;
    after the [removeReader] of [openReader] none is; after a call of
    [openReader] that found an article exactly one is, the one just built;
    a call that found no article mounts nothing. *)
Theorem openReader_mounts_one_overlay `{Host} (w : World) :
  reachable w ->
  length (overlays (document w)) ≤ 1
  ∧ overlays (document (withDocument removeReader w)) = []
  ∧ (∀ article now,
       openReader (Some article) now w
       = (Normal (Article.content article),
          mountReader article (fetchReaderSettings w) now w)
       ∧ overlays (document (mountReader article (fetchReaderSettings w) now w))
         = [buildOverlay article (fetchReaderSettings w) now (removeReader (document w))]
       ∧ reachable (mountReader article (fetchReaderSettings w) now w))
  ∧ (∀ now, (openReader None now w).2 = w).
Proof.
  intros Hreachable.
  pose proof (reachable_count w Hreachable) as Hone.
  assert (drop 1 (overlays (document w)) = []) as Hdrop.
  { destruct (overlays (document w)) as [|o [|o' os]]; [done..|]. simpl in Hone. lia. }
  split; [done|]. split.
  - cbn -[removeReader]. by rewrite removeReader_overlays.
  - split; [|done]. intros article now. split; [done|]. split.
    + by rewrite mountReader_overlays, Hdrop.
    + destruct Hreachable as (w0 & Hinitial & Hsteps). exists w0. split; [done|].
      eapply rtc_r; [exact Hsteps|]. apply step_mountReader.
Qed.

Lemma openReader_mounts_one_overlay_witness :
  reachable (H := Browser.host) Example.opened
  ∧ length (overlays (document Example.opened)) = 1
  ∧ length (overlays (document
       (openReader (H := Browser.host) (Some Example.article) "later" Example.opened).2)) = 1.
Proof.
  assert (reachable (H := Browser.host) Example.opened) as Hreachable.
  { exists Example.loaded. split.
    - split; [by exists "key"|done].
    - eapply rtc_l; [apply (step_openReader (Some Example.article) "now")|]. apply rtc_refl. }
  split; [exact Hreachable|]. split; [reflexivity|].
  destruct (openReader_mounts_one_overlay (H := Browser.host) _ Hreachable)
    as (_ & _ & Hopen & _).
  destruct (Hopen Example.article "later") as (Hcall & Hmounted & _).
  rewrite Hcall. cbn [snd]. by rewrite Hmounted.
Defined.

(** ** Closing the reader *)

Lemma removeReader_twice d :
  length (overlays d) ≤ 1 -> removeReader (removeReader d) = removeReader d.
Proof.
  intros Hone. unfold removeReader, getOverlay, withClassList, withOverlays.
  destruct d as [[|o [|o' os]] cl t]; cbn in *; [| |lia].
  - f_equal. apply difference_twice_L.
  - f_equal. apply difference_twice_L.
Qed.

(** C10. In every state that the page can reach [removeReader] leaves no
    overlay mounted, whether one was mounted or not; running it twice gives
    what running it once gives; and the listener answers a [close-reader]
    message with [{success: true, active: false}], after which the reader is
    not active. *)
Theorem removeReader_idempotent `{Host} (w : World) :
  reachable w ->
  isReaderActive (removeReader (document w)) = false
  ∧ removeReader (removeReader (document w)) = removeReader (document w)
  ∧ (isReaderActive (document w) = false ->
       overlays (removeReader (document w)) = overlays (document w))
  ∧ (∀ extracted now,
       (onMessage "close-reader" extracted now w).1
       = (Normal true, [{| success := true; active := Some false; error := None |}])
       ∧ isReaderActive (document (onMessage "close-reader" extracted now w).2) = false).
Proof.
  intros Hreachable.
  pose proof (reachable_count w Hreachable) as Hone.
  assert (isReaderActive (removeReader (document w)) = false) as Hinactive.
  { rewrite isReaderActive_mounted, removeReader_overlays.
    destruct (overlays (document w)) as [|o [|o' os]]; [done..|]. simpl in Hone. lia. }
  split; [done|]. split; [by apply removeReader_twice|]. split.
  - rewrite isReaderActive_mounted, removeReader_overlays.
    by destruct (overlays (document w)).
  - intros extracted now. by split.
Qed.

Lemma removeReader_idempotent_witness :
  reachable (H := Browser.host) Example.opened
  ∧ isReaderActive (document Example.opened) = true
  ∧ isReaderActive (removeReader (document Example.opened)) = false
  ∧ removeReader (removeReader (document Example.opened)) = removeReader (document Example.opened).
Proof.
  assert (reachable (H := Browser.host) Example.opened) as Hreachable.
  { exists Example.loaded. split.
    - split; [by exists "key"|done].
    - eapply rtc_l; [apply (step_openReader (Some Example.article) "now")|]. apply rtc_refl. }
  split; [exact Hreachable|]. split; [reflexivity|].
  destruct (removeReader_idempotent (H := Browser.host) _ Hreachable)
    as (Hinactive & Htwice & _).
  split; [exact Hinactive|exact Htwice].
Defined.

(** ** The message listener *)

Section Listener.
Context `{Host}.

(** A [toggle-reader] message while the reader is closed: the listener
    answers with the new state, or with the failure of [openReader]. *)
Lemma onMessage_toggle_inactive extracted now w :
  isReaderActive (document w) = false ->
  (onMessage "toggle-reader" extracted now w).1
  = (Normal true,
     [match extracted with
      | Some _ => {| success := true; active := Some true; error := None |}
      | None => {| success := false; active := None; error := Some "未能提取正文内容" |}
      end]).
Proof.
  intros Hinactive. unfold onMessage, toggleReader. cbn [decide_rel]. rewrite Hinactive.
  by destruct extracted.
Qed.

(** A [toggle-reader] message while the reader is open: [toggleReader]
    closes the reader and returns a plain object, on which the listener
    calls [then]. *)
Lemma onMessage_toggle_active extracted now w :
  isReaderActive (document w) = true ->
  toggleReader extracted now w = (PlainObject false, withDocument removeReader w)
  ∧ onMessage "toggle-reader" extracted now w
    = (Throw (TypeError "toggleReader(...).then is not a function"), [],
       withDocument removeReader w).
Proof.
  intros Hactive. unfold onMessage, toggleReader. cbn [decide_rel]. by rewrite Hactive.
Qed.

End Listener.

(** C9. A [toggle-reader] message that arrives while the reader is open is
    not answered: [toggleReader] closes the reader and returns the plain
    object [{ active: false }], not a promise, so the call of [then] in the
    listener throws a [TypeError] and [sendResponse] is never called.  The
    same message on the closed reader is answered as the claim says. *)
Theorem toggle_reader_unanswered_when_active :
  isReaderActive (document Example.opened) = true
  ∧ (toggleReader (H := Browser.host) (Some Example.article) "later" Example.opened).1
    = PlainObject false
  ∧ (onMessage (H := Browser.host) "toggle-reader" (Some Example.article) "later"
       Example.opened).1
    = (Throw (TypeError "toggleReader(...).then is not a function"), [])
  ∧ (onMessage (H := Browser.host) "toggle-reader" (Some Example.article) "now"
       Example.loaded).1
    = (Normal true, [{| success := true; active := Some true; error := None |}])
  ∧ (onMessage (H := Browser.host) "toggle-reader" None "now" Example.loaded).1
    = (Normal true,
       [{| success := false; active := None; error := Some "未能提取正文内容" |}]).
Proof.
  assert (isReaderActive (document Example.opened) = true) as Hactive by reflexivity.
  destruct (onMessage_toggle_active (H := Browser.host) (Some Example.article) "later"
              Example.opened Hactive) as [Htoggle Hlistener].
  split; [exact Hactive|]. split; [by rewrite Htoggle|]. split; [by rewrite Hlistener|].
  split; by rewrite onMessage_toggle_inactive.
Qed.

(** * Further properties *)

(** ** What a call of [askChatGPT] leaves alone *)

Section ChatFrame.
Context `{Host}.

Lemma sameReader_refl o : sameReader o o.
Proof. by repeat split. Qed.

Lemma sameReader_trans o1 o2 o3 : sameReader o1 o2 -> sameReader o2 o3 -> sameReader o1 o3.
Proof.
  intros (?&?&?&?&?&?&?) (?&?&?&?&?&?&?). repeat split; congruence.
Qed.

Lemma chatOnly_refl d : chatOnly d d.
Proof.
  repeat split. destruct (overlays d); [done|]. split; [apply sameReader_refl|done].
Qed.

Lemma chatOnly_trans d1 d2 d3 : chatOnly d1 d2 -> chatOnly d2 d3 -> chatOnly d1 d3.
Proof.
  intros (Hc1 & Ht1 & Ho1) (Hc2 & Ht2 & Ho2).
  split; [congruence|]. split; [congruence|].
  destruct (overlays d1) as [|o1 os1], (overlays d2) as [|o2 os2],
    (overlays d3) as [|o3 os3]; try done.
  destruct Ho1 as [Hs1 ->], Ho2 as [Hs2 ->]. split; [|done].
  by apply (sameReader_trans o1 o2 o3).
Qed.

Lemma chatOnly_withFirstOverlay f d :
  (∀ o, sameReader o (f o)) -> chatOnly d (withFirstOverlay f d).
Proof.
  intros Hf. repeat split. destruct d as [[|o os] cl t]; [done|]. by split.
Qed.

Lemma chatFrame_refl w : chatFrame w w.
Proof. split; [apply chatOnly_refl|done]. Qed.

Lemma chatFrame_trans w1 w2 w3 : chatFrame w1 w2 -> chatFrame w2 w3 -> chatFrame w1 w3.
Proof.
  intros (Hd1 & ? & ? & ? & ?) (Hd2 & ? & ? & ? & ?).
  split; [by apply (chatOnly_trans _ (document w2))|]. repeat split; congruence.
Qed.

Lemma chatFrame_withFirstOverlay f w :
  (∀ o, sameReader o (f o)) -> chatFrame w (withDocument (withFirstOverlay f) w).
Proof. intros Hf. split; [by apply chatOnly_withFirstOverlay|done]. Qed.

Lemma chatFrame_print entry w : chatFrame w (print entry w).
Proof. split; [apply chatOnly_refl|done]. Qed.

Lemma chatFrame_messages f w : chatFrame w (withChatState (withMessages f) w).
Proof. split; [apply chatOnly_refl|done]. Qed.

Lemma chatFrame_loading b w : chatFrame w (withChatState (setLoading b) w).
Proof. split; [apply chatOnly_refl|done]. Qed.

Lemma chatFrame_renderMessages w : chatFrame w (renderMessages w).
Proof.
  unfold renderMessages. destruct (getMessagesContainer _); [|apply chatFrame_refl].
  apply chatFrame_withFirstOverlay. intros o. by repeat split.
Qed.

Ltac frame_step :=
  first [ apply chatFrame_print
        | apply chatFrame_messages
        | apply chatFrame_loading
        | apply chatFrame_renderMessages
        | apply chatFrame_withFirstOverlay; intros ?; by repeat split ].

Ltac frame :=
  first [ apply chatFrame_refl
        | frame_step
        | eapply chatFrame_trans; [|frame_step]; frame ].

Lemma chatFrame_processLine line acc w : chatFrame w (processLine line acc w).2.
Proof.
  unfold processLine, parseFailed. repeat case_decide; try apply chatFrame_refl.
  destruct (Str.startsWith "data: " line); [|apply chatFrame_refl].
  destruct (deltaContent line) as [[c|]|]; cbn [snd]; [|frame..].
  destruct (JS.truthy c); [|apply chatFrame_refl].
  unfold setLastContent. destruct (last _); cbn [snd]; frame.
Qed.

Lemma chatFrame_forLines lines acc w : chatFrame w (forLines lines acc w).2.
Proof.
  revert acc w. induction lines as [|line rest IH]; intros acc w; [apply chatFrame_refl|].
  cbn [forLines]. pose proof (chatFrame_processLine line acc w) as Hline.
  destruct (processLine line acc w) as [acc' w']. cbn [snd] in Hline.
  by apply (chatFrame_trans _ w').
Qed.

Lemma chatFrame_request net w : chatFrame w (request net w).2.
Proof.
  unfold request. destruct net as [e|response]; [apply chatFrame_refl|].
  destruct (ok response); cbn [negb]; [|apply chatFrame_refl].
  destruct (responseBody response) as [body|]; cbn [snd].
  - rewrite readLoop_lines by done. cbn [snd].
    eapply chatFrame_trans; [|apply chatFrame_forLines]. unfold push. frame.
  - unfold push. frame.
Qed.

Lemma chatFrame_requestFailed inputText error w : chatFrame w (requestFailed inputText error w).
Proof. unfold requestFailed, showMessage, pop. frame. Qed.

Lemma chatFrame_restoreButton w : chatFrame w (restoreButton w).
Proof.
  unfold restoreButton, scrollToBottom. cbn zeta.
  destruct (getSendButton _); frame.
Qed.

Lemma chatFrame_entered inputText w : chatFrame w (entered inputText w).
Proof.
  unfold entered, scrollToBottom, push. cbn zeta.
  destruct (getSendButton _); frame.
Qed.

(** The call once it has passed the guards. *)
Lemma chatFrame_sent net inputText w :
  chatFrame w (restoreButton (match request net (entered inputText w) with
                              | (Normal _, w') => w'
                              | (Throw error, w') => requestFailed inputText error w'
                              end)).
Proof.
  eapply chatFrame_trans; [|apply chatFrame_restoreButton].
  pose proof (chatFrame_request net (entered inputText w)) as Hrequest.
  pose proof (chatFrame_entered inputText w) as Hentered.
  destruct (request net (entered inputText w)) as [[[]|error] w']; cbn [snd] in Hrequest.
  - by apply (chatFrame_trans _ (entered inputText w)).
  - eapply chatFrame_trans; [|apply chatFrame_requestFailed].
    by apply (chatFrame_trans _ (entered inputText w)).
Qed.

Lemma askChatGPT_chatOnly net w : chatOnly (document w) (document (askChatGPT net w)).
Proof.
  unfold askChatGPT.
  destruct (getUserInput (document w)) as [value|]; [|apply chatOnly_refl].
  case_decide; [apply chatOnly_refl|].
  destruct (loading (chatState w)); [apply chatOnly_refl|].
  apply (chatFrame_sent net (Str.trim value) w).
Qed.

End ChatFrame.

(** X1. A call of [askChatGPT], whatever the request does, changes nothing
    of the page but the message list, the input and the send button of the
    chat panel: the class list of the body, the title, the theme, the
    article and the tabs of the overlay stay, and so do the stored
    settings, the queued callbacks and the key of the chat state. *)
Theorem askChatGPT_changes_chat_panel_only `{Host} (net : FetchOutcome) (w : World) :
  chatFrame w (askChatGPT net w).
Proof.
  unfold askChatGPT.
  destruct (getUserInput (document w)) as [value|]; [|apply chatFrame_print].
  case_decide; [apply chatFrame_print|].
  destruct (loading (chatState w)); [apply chatFrame_refl|].
  apply (chatFrame_sent net (Str.trim value) w).
Qed.

(** ** The message list follows the history *)

Section Shown.
Context `{Host}.

Lemma forEachMessage_drop items :
  forEachMessage 0 items [] = messageDiv <$> drop 1 items.
Proof. destruct items as [|first rest]; [done|]. apply forEachMessage_skips_first. Qed.

Lemma shown_renderMessages w : overlays (document w) ≠ [] -> shown (renderMessages w).
Proof.
  intros Hmounted. unfold shown, renderMessages, getMessagesContainer.
  destruct w as [c [[|o os] cl t] k st tm]; [done|]. cbn. by rewrite forEachMessage_drop.
Qed.

Lemma shown_mounted w : shown w -> overlays (document w) ≠ [].
Proof. unfold shown, getMessagesContainer. by destruct (overlays (document w)). Qed.

(** A step that keeps the history and the message list keeps [shown]. *)
Lemma shown_kept w w' :
  messages (chatState w') = messages (chatState w) ->
  getMessagesContainer (document w') = getMessagesContainer (document w) ->
  shown w -> shown w'.
Proof. unfold shown. by intros -> ->. Qed.

Lemma shown_print entry w : shown w -> shown (print entry w).
Proof. by apply shown_kept. Qed.

Lemma shown_setUserInput value w :
  shown w -> shown (withDocument (withFirstOverlay (setUserInput value)) w).
Proof.
  apply shown_kept; [done|]. unfold getMessagesContainer.
  by destruct w as [c [[|o os] cl t] k st tm].
Qed.

Lemma shown_restoreButton w : shown w -> shown (restoreButton w).
Proof.
  apply shown_kept; [apply restoreButton_messages|].
  unfold restoreButton, scrollToBottom, getMessagesContainer, getSendButton.
  by destruct w as [c [[|o os] cl t] k st tm].
Qed.

Lemma shown_processLine line acc w : shown w -> shown (processLine line acc w).2.
Proof.
  intros Hshown. unfold processLine, parseFailed. repeat case_decide; try done.
  destruct (Str.startsWith "data: " line); [|done].
  destruct (deltaContent line) as [[c|]|]; cbn [snd]; [|done|by apply shown_print].
  destruct (JS.truthy c); [|done].
  unfold setLastContent. destruct (last _); cbn [snd]; [|by apply shown_print].
  apply shown_renderMessages. by apply shown_mounted in Hshown.
Qed.

Lemma shown_forLines lines acc w : shown w -> shown (forLines lines acc w).2.
Proof.
  revert acc w. induction lines as [|line rest IH]; intros acc w Hshown; [done|].
  cbn [forLines]. pose proof (shown_processLine line acc w Hshown) as Hline.
  destruct (processLine line acc w) as [acc' w']. by apply IH.
Qed.

Lemma shown_requestFailed inputText error w :
  overlays (document w) ≠ [] -> shown (requestFailed inputText error w).
Proof.
  intros Hmounted. unfold requestFailed, showMessage.
  apply shown_print, shown_setUserInput, shown_renderMessages.
  by destruct w as [c [[|o os] cl t] k st tm].
Qed.

Lemma request_mounted net w :
  overlays (document w) ≠ [] -> overlays (document (request net w).2) ≠ [].
Proof.
  intros Hmounted Hnil. apply (f_equal length) in Hnil.
  rewrite request_length in Hnil. by destruct (overlays (document w)).
Qed.

Lemma shown_request net w :
  overlays (document w) ≠ [] ->
  (∃ e, (request net w).1 = Throw e) ∨ shown (request net w).2.
Proof.
  intros Hmounted. unfold request. destruct net as [e|response]; [left; by eexists|].
  destruct (ok response); cbn [negb]; [|left; by eexists].
  assert (shown (renderMessages (push {| role := "assistant"; content := "" |} w))) as Hshown.
  { apply shown_renderMessages. by destruct w as [c [[|o os] cl t] k st tm]. }
  destruct (responseBody response) as [body|]; [|left; by eexists].
  right. rewrite readLoop_lines by done. cbn [snd]. by apply shown_forLines.
Qed.

End Shown.

(** X2. After a call of [askChatGPT] that passed the guards, however the
    request ended, the message list of the page shows the history as it now
    is: one element for every message but the first, in their order. *)
Theorem askChatGPT_shows_history `{Host} (net : FetchOutcome) (w : World) (inputText : string) :
  accepts w inputText ->
  getMessagesContainer (document (askChatGPT net w))
  = Some (messageDiv <$> drop 1 (messages (chatState (askChatGPT net w)))).
Proof.
  intros Haccepts. rewrite (askChatGPT_accepted net w inputText Haccepts).
  apply shown_restoreButton.
  assert (overlays (document (entered inputText w)) ≠ []) as Hmounted.
  { intros Hnil. apply (f_equal length) in Hnil. rewrite entered_length in Hnil.
    apply accepts_mounted in Haccepts. by destruct (overlays (document w)). }
  pose proof (request_mounted net _ Hmounted) as Hstill.
  destruct (shown_request net _ Hmounted) as [[e Hthrow]|Hshown];
    destruct (request net (entered inputText w)) as [[[]|error] w']; cbn [fst snd] in *;
    try done; by apply shown_requestFailed.
Qed.

Lemma askChatGPT_shows_history_witness :
  accepts (Example.typed "hello") "hello"
  ∧ getMessagesContainer (document (askChatGPT (H := Browser.host)
       (streamed Example.threeChunks) (Example.typed "hello")))
    = Some [{| className := "message user"; header := "你："; body := bodyText "hello" |};
            {| className := "message assistant"; header := "AI：";
               body := innerHTML "Hi there" |}].
Proof.
  assert (accepts (Example.typed "hello") "hello") as Haccepts.
  { exists "hello". repeat split; [vm_compute; discriminate]. }
  split; [exact Haccepts|].
  rewrite (askChatGPT_shows_history (H := Browser.host) _ _ _ Haccepts).
  vm_compute. reflexivity.
Defined.

(** ** The input and the history after the request *)

Section AfterRequest.
Context `{Host}.

Lemma renderMessages_userInput w :
  getUserInput (document (renderMessages w)) = getUserInput (document w).
Proof.
  unfold renderMessages, getMessagesContainer, getUserInput.
  by destruct w as [c [[|o os] cl t] k st tm].
Qed.

Lemma processLine_userInput line acc w :
  getUserInput (document (processLine line acc w).2) = getUserInput (document w).
Proof.
  unfold processLine. repeat case_decide; try done.
  destruct (Str.startsWith "data: " line); [|done].
  destruct (deltaContent line) as [[c|]|]; try done.
  destruct (JS.truthy c); [|done].
  unfold setLastContent. destruct (last _); [|done].
  cbn [snd]. by rewrite renderMessages_userInput.
Qed.

Lemma forLines_userInput lines acc w :
  getUserInput (document (forLines lines acc w).2) = getUserInput (document w).
Proof.
  revert acc w. induction lines as [|line rest IH]; intros acc w; [done|].
  cbn [forLines]. pose proof (processLine_userInput line acc w) as Hline.
  destruct (processLine line acc w) as [acc' w']. cbn [snd] in Hline. by rewrite IH.
Qed.

Lemma entered_userInput inputText w :
  overlays (document w) ≠ [] -> getUserInput (document (entered inputText w)) = Some "".
Proof.
  intros Hmounted. unfold entered, scrollToBottom, getUserInput, getSendButton, renderMessages,
    getMessagesContainer.
  by destruct w as [c [[|o os] cl t] k st tm].
Qed.

Lemma requestFailed_userInput inputText error w :
  overlays (document w) ≠ [] ->
  getUserInput (document (requestFailed inputText error w)) = Some inputText.
Proof.
  intros Hmounted. unfold requestFailed, showMessage, pop, getUserInput, renderMessages,
    getMessagesContainer.
  by destruct w as [c [[|o os] cl t] k st tm].
Qed.

Lemma requestFailed_console inputText error w :
  last (console (requestFailed inputText error w))
  = Some (console_log [Text ("[error] 请求失败: " +:+ message error)]).
Proof. unfold requestFailed, showMessage. cbn [console print]. apply last_snoc. Qed.

(** The reads fail after a success status: the loop has thrown, and the
    placeholder is the last message. *)
Lemma request_interrupted reads e w :
  (request (interrupted reads e) w).1 = Throw e
  ∧ ∃ text, messages (chatState (request (interrupted reads e) w).2)
            = messages (chatState w) ++ [{| role := "assistant"; content := text |}].
Proof.
  unfold request, interrupted. cbn [ok negb responseBody chunks ending].
  rewrite readLoop_lines by done. split; [done|]. cbn [snd]. eexists.
  apply (forLines_messages _ _ _ {| role := "assistant"; content := "" |}).
  by rewrite renderMessages_chatState.
Qed.

End AfterRequest.

(** X3. When the response has a success status and a read of its body fails,
    the message of the assistant is removed with all the text that had been
    streamed, the message of the user stays, the input holds the submitted
    text again, and the last entry of the console reports the error. *)
Theorem askChatGPT_interrupted_stream `{Host}
    (reads : list string) (e : Error) (w : World) (inputText : string) :
  accepts w inputText ->
  messages (chatState (askChatGPT (interrupted reads e) w))
  = messages (chatState w) ++ [{| role := "user"; content := inputText |}]
  ∧ getUserInput (document (askChatGPT (interrupted reads e) w)) = Some inputText
  ∧ last (console (askChatGPT (interrupted reads e) w))
    = Some (console_log [Text ("[error] 请求失败: " +:+ message e)]).
Proof.
  intros Haccepts. rewrite (askChatGPT_accepted _ w inputText Haccepts).
  rewrite restoreButton_messages, restoreButton_userInput, restoreButton_console.
  destruct (request_interrupted reads e (entered inputText w)) as (Hthrow & text & Hms).
  pose proof (request_length (interrupted reads e) (entered inputText w)) as Hlen.
  rewrite entered_length in Hlen.
  pose proof (accepts_mounted w inputText Haccepts) as Hmounted.
  destruct (request (interrupted reads e) (entered inputText w)) as [c w'].
  cbn [fst snd] in *. subst c. split; [|split].
  - by rewrite requestFailed_messages, Hms, take_pred_snoc, entered_messages.
  - apply requestFailed_userInput. intros Hnil. rewrite Hnil in Hlen.
    by destruct (overlays (document w)).
  - apply requestFailed_console.
Qed.

Lemma askChatGPT_interrupted_stream_witness :
  accepts (Example.typed "hello") "hello"
  ∧ messages (chatState (askChatGPT (H := Browser.host)
       (interrupted [Example.event "Hi" +:+ String Str.newline ""] (TypeError "network error"))
       (Example.typed "hello")))
    = [SYSTEM_PROMPT; {| role := "user"; content := "hello" |}].
Proof.
  assert (accepts (Example.typed "hello") "hello") as Haccepts.
  { exists "hello". repeat split; [vm_compute; discriminate]. }
  split; [exact Haccepts|].
  by rewrite (proj1 (askChatGPT_interrupted_stream (H := Browser.host) _ _ _ _ Haccepts)).
Defined.

(** X4. When the body streams to its end, the input of the chat panel is
    empty after the call: the submitted text is not put back. *)
Theorem askChatGPT_success_clears_input `{Host}
    (reads : list string) (w : World) (inputText : string) :
  accepts w inputText ->
  getUserInput (document (askChatGPT (streamed reads) w)) = Some "".
Proof.
  intros Haccepts. rewrite (askChatGPT_accepted _ w inputText Haccepts).
  rewrite restoreButton_userInput.
  unfold request, streamed. cbn [ok negb responseBody chunks ending].
  rewrite readLoop_lines by done. cbn [snd settled].
  rewrite forLines_userInput, renderMessages_userInput.
  change (getUserInput (document (entered inputText w)) = Some "").
  apply entered_userInput. by apply (accepts_mounted w inputText).
Qed.

Lemma askChatGPT_success_clears_input_witness :
  accepts (Example.typed "hello") "hello"
  ∧ getUserInput (document (Example.typed "hello")) = Some "hello"
  ∧ getUserInput (document (askChatGPT (H := Browser.host) (streamed Example.threeChunks)
                              (Example.typed "hello"))) = Some "".
Proof.
  assert (accepts (Example.typed "hello") "hello") as Haccepts.
  { exists "hello". repeat split; [vm_compute; discriminate]. }
  split; [exact Haccepts|]. split; [reflexivity|].
  exact (askChatGPT_success_clears_input (H := Browser.host) _ _ _ Haccepts).
Defined.

(** ** The end of the stream, and its growth *)

Section Tail.
Context `{Host}.

Lemma remainder_streamText lines : Forall isLine lines -> remainder (streamText lines) = "".
Proof. intros Hlines. apply (remainder_snoc lines ""). by apply split_streamText. Qed.

(** The complete lines of a text that ends inside a line. *)
Lemma completeLines_unterminated lines partial :
  Forall isLine lines -> isLine partial ->
  completeLines (streamText lines +:+ partial) = lines.
Proof.
  intros Hlines Hpartial.
  rewrite completeLines_app, (completeLines_streamText lines Hlines),
    (remainder_streamText lines Hlines).
  change ("" +:+ partial) with partial.
  by rewrite (completeLines_isLine _ Hpartial), app_nil_r.
Qed.

Lemma concat_fragments_app (a b : string) :
  Str.concat (lineFragment <$> completeLines (a +:+ b))
  = Str.concat (lineFragment <$> completeLines a)
    +:+ Str.concat (lineFragment <$> completeLines (remainder a +:+ b)).
Proof. by rewrite completeLines_app, fmap_app, concat_app. Qed.

End Tail.

(** X5. What the body delivers after its last newline is never processed:
    when the text of the reads is a sequence of lines followed by a piece
    with no newline, the content of the assistant message is made of the
    fragments of the lines alone, whatever the last piece holds. *)
Theorem askChatGPT_drops_unterminated_line `{Host}
    (lines reads : list string) (partial : string) (w : World) (inputText : string) :
  accepts w inputText ->
  Forall isLine lines ->
  isLine partial ->
  Str.concat reads = streamText lines +:+ partial ->
  messages (chatState (askChatGPT (streamed reads) w))
  = messages (chatState w)
    ++ [{| role := "user"; content := inputText |};
        {| role := "assistant"; content := Str.concat (lineFragment <$> lines) |}].
Proof.
  intros Haccepts Hlines Hpartial Htext.
  rewrite (askChatGPT_streamed_messages reads w inputText Haccepts), Htext.
  by rewrite completeLines_unterminated.
Qed.

Lemma askChatGPT_drops_unterminated_line_witness :
  accepts (Example.typed "hello") "hello"
  ∧ Forall isLine [Example.event "Hi"]
  ∧ isLine (Example.event " there")
  ∧ lineFragment (H := Browser.host) (Example.event " there") = " there"
  ∧ messages (chatState (askChatGPT (H := Browser.host)
       (streamed [Example.event "Hi" +:+ String Str.newline "" +:+ Example.event " there"])
       (Example.typed "hello")))
    = [SYSTEM_PROMPT; {| role := "user"; content := "hello" |};
       {| role := "assistant"; content := "Hi" |}].
Proof.
  assert (accepts (Example.typed "hello") "hello") as Haccepts.
  { exists "hello". repeat split; [vm_compute; discriminate]. }
  assert (Forall isLine [Example.event "Hi"]) as Hlines.
  { apply List.Forall_cons; [by vm_compute | apply List.Forall_nil]. }
  assert (isLine (Example.event " there")) as Hpartial by (by vm_compute).
  assert (Str.concat [Example.event "Hi" +:+ String Str.newline "" +:+ Example.event " there"]
          = streamText [Example.event "Hi"] +:+ Example.event " there") as Htext
    by (by vm_compute).
  split; [exact Haccepts|]. split; [exact Hlines|]. split; [exact Hpartial|].
  split; [by vm_compute|].
  rewrite (askChatGPT_drops_unterminated_line (H := Browser.host)
             _ _ _ _ _ Haccepts Hlines Hpartial Htext).
  by vm_compute.
Defined.

(** X6. The reply only grows: with further reads after [reads], the content
    of the assistant message is the content that [reads] alone gives,
    followed by more text; nothing that was streamed is taken back or
    changed. *)
Theorem askChatGPT_reply_grows `{Host}
    (reads more : list string) (w : World) (inputText : string) :
  accepts w inputText ->
  ∃ text rest,
    messages (chatState (askChatGPT (streamed reads) w))
    = messages (chatState w)
      ++ [{| role := "user"; content := inputText |};
          {| role := "assistant"; content := text |}]
    ∧ messages (chatState (askChatGPT (streamed (reads ++ more)) w))
      = messages (chatState w)
        ++ [{| role := "user"; content := inputText |};
            {| role := "assistant"; content := text +:+ rest |}].
Proof.
  intros Haccepts.
  rewrite !(askChatGPT_streamed_messages _ w inputText Haccepts).
  rewrite concat_app, concat_fragments_app. by eexists _, _.
Qed.

Lemma askChatGPT_reply_grows_witness :
  accepts (Example.typed "hello") "hello"
  ∧ ∃ text rest,
      messages (chatState (askChatGPT (H := Browser.host)
                             (streamed (take 2 Example.threeChunks)) (Example.typed "hello")))
      = messages (chatState (Example.typed "hello"))
        ++ [{| role := "user"; content := "hello" |};
            {| role := "assistant"; content := text |}]
      ∧ messages (chatState (askChatGPT (H := Browser.host)
                               (streamed (take 2 Example.threeChunks ++ drop 2 Example.threeChunks))
                               (Example.typed "hello")))
        = messages (chatState (Example.typed "hello"))
          ++ [{| role := "user"; content := "hello" |};
              {| role := "assistant"; content := text +:+ rest |}].
Proof.
  assert (accepts (Example.typed "hello") "hello") as Haccepts.
  { exists "hello". repeat split; [vm_compute; discriminate]. }
  split; [exact Haccepts|].
  exact (askChatGPT_reply_grows (H := Browser.host) _ _ _ _ Haccepts).
Defined.

(** ** Blank input *)

Section BlankInput.

Lemma stripOneOf_whiteSpace p rest :
  p ∈ Str.whiteSpace -> Str.stripOneOf Str.whiteSpace (p +:+ rest) = Some rest.
Proof.
  intros Hin. unfold Str.whiteSpace in Hin. cbn in Hin.
  repeat (apply elem_of_cons in Hin as [->|Hin]); try (by vm_compute).
  by apply elem_of_nil in Hin.
Qed.

Lemma whiteSpace_length p : p ∈ Str.whiteSpace -> 0 < String.length p.
Proof.
  intros Hin. unfold Str.whiteSpace in Hin. cbn in Hin.
  repeat (apply elem_of_cons in Hin as [->|Hin]); try (cbn; lia).
  by apply elem_of_nil in Hin.
Qed.

Lemma length_append (a b : string) :
  String.length (a +:+ b) = String.length a + String.length b.
Proof.
  induction a as [|c a IH]; [done|].
  change (String c a +:+ b) with (String c (a +:+ b)). cbn [String.length]. by rewrite IH.
Qed.

Lemma stripAll_whiteSpace ws fuel :
  Forall (.∈ Str.whiteSpace) ws -> length ws ≤ fuel ->
  Str.stripAll Str.whiteSpace fuel (Str.concat ws) = "".
Proof.
  intros Hws. revert fuel. induction Hws as [|p ws Hp _ IH]; intros fuel Hfuel.
  - by destruct fuel.
  - destruct fuel as [|fuel]; [cbn in Hfuel; lia|].
    cbn [Str.stripAll Str.concat]. rewrite (stripOneOf_whiteSpace _ _ Hp).
    apply IH. cbn in Hfuel. lia.
Qed.

Lemma concat_whiteSpace_length ws :
  Forall (.∈ Str.whiteSpace) ws -> length ws ≤ String.length (Str.concat ws).
Proof.
  induction 1 as [|p ws Hp _ IH]; [done|].
  cbn [Str.concat length]. rewrite length_append.
  pose proof (whiteSpace_length p Hp). lia.
Qed.

Lemma trim_whiteSpace ws : Forall (.∈ Str.whiteSpace) ws -> Str.trim (Str.concat ws) = "".
Proof.
  intros Hws. unfold Str.trim, Str.trimStart.
  by rewrite (stripAll_whiteSpace ws _ Hws (concat_whiteSpace_length ws Hws)).
Qed.

End BlankInput.

(** X7. An input made of white space only is not sent: the call leaves the
    conversation and the page as they are, whatever the request would have
    given, and logs the warning that asks for some text. *)
Theorem askChatGPT_rejects_blank_input `{Host}
    (net : FetchOutcome) (w : World) (spaces : list string) :
  getUserInput (document w) = Some (Str.concat spaces) ->
  Forall (.∈ Str.whiteSpace) spaces ->
  askChatGPT net w = print (console_log [Text "[warning] 请输入内容"]) w.
Proof.
  intros Hinput Hspaces. unfold askChatGPT. rewrite Hinput, (trim_whiteSpace _ Hspaces).
  by case_decide.
Qed.

Lemma askChatGPT_rejects_blank_input_witness :
  getUserInput (document (Example.typed (Str.bytes [32; 9; 227; 128; 128; 10]%N)))
  = Some (Str.concat (Str.bytes <$> [ [32]; [9]; [227; 128; 128]; [10] ]%N))
  ∧ Forall (.∈ Str.whiteSpace) (Str.bytes <$> [ [32]; [9]; [227; 128; 128]; [10] ]%N)
  ∧ chatState (askChatGPT (H := Browser.host) (streamed Example.threeChunks)
                 (Example.typed (Str.bytes [32; 9; 227; 128; 128; 10]%N)))
    = chatState Example.opened.
Proof.
  assert (Forall (.∈ Str.whiteSpace) (Str.bytes <$> [ [32]; [9]; [227; 128; 128]; [10] ]%N))
    as Hspaces.
  { repeat (apply List.Forall_cons; [by vm_compute; set_solver|]). apply List.Forall_nil. }
  assert (getUserInput (document (Example.typed (Str.bytes [32; 9; 227; 128; 128; 10]%N)))
          = Some (Str.concat (Str.bytes <$> [ [32]; [9]; [227; 128; 128]; [10] ]%N))) as Hinput
    by (vm_compute; reflexivity).
  split; [exact Hinput|]. split; [exact Hspaces|].
  by rewrite (askChatGPT_rejects_blank_input (H := Browser.host) (streamed Example.threeChunks)
                _ _ Hinput Hspaces).
Defined.



(** ** [querycontent] *)

Section PageMessage.
Context `{Host}.

Lemma mountReader_mounted article settings now w :
  overlays (document (mountReader article settings now w)) ≠ [].
Proof. rewrite mountReader_overlays. by destruct (drop 1 _). Qed.

Lemma isReaderActive_false d : isReaderActive d = false -> overlays d = [].
Proof. rewrite isReaderActive_mounted. intros Hd. by apply bool_decide_eq_false, dec_stable in Hd. Qed.


End PageMessage.


(** ** Opening and closing the reader *)

Section OpenClose.
Context `{Host}.

Lemma marked_removeReader d : length (overlays d) ≤ 1 -> marked (removeReader d).
Proof.
  intros Hone. unfold marked. rewrite removeReader_overlays.
  assert (drop 1 (overlays d) = []) as -> by (destruct (overlays d) as [|o [|o' os]]; cbn in *; [done..|lia]).
  split; [cbn; lia|]. split; [|done].
  intros Hin. assert (BODY_ACTIVE_CLASS ∈ classList d ∖ {[BODY_ACTIVE_CLASS]}) as Hd
    by (unfold removeReader in Hin; by destruct (getOverlay d)).
  apply elem_of_difference in Hd as [_ Hd]. by destruct Hd; apply elem_of_singleton.
Qed.

Lemma marked_mountReader article settings now w :
  length (overlays (document w)) ≤ 1 -> marked (document (mountReader article settings now w)).
Proof.
  intros Hone. unfold marked. rewrite mountReader_overlays.
  assert (drop 1 (overlays (document w)) = []) as ->
    by (destruct (overlays (document w)) as [|o [|o' os]]; cbn in *; [done..|lia]).
  split; [cbn; lia|]. split; [done|]. intros _. unfold mountReader. cbn. set_solver.
Qed.

Lemma marked_chatOnly d d' : chatOnly d d' -> marked d -> marked d'.
Proof.
  intros (Hclasses & _ & Hoverlays) [Hone Hclass]. unfold marked. rewrite Hclasses.
  destruct (overlays d) as [|o os], (overlays d') as [|o' os']; try done.
  destruct Hoverlays as [_ ->]. split; [done|]. by rewrite Hclass.
Qed.

Lemma marked_withFirstOverlay f d : marked d -> marked (withFirstOverlay f d).
Proof.
  intros [Hone Hclass]. unfold marked. rewrite withFirstOverlay_length. split; [done|].
  cbn. rewrite Hclass. by destruct (overlays d).
Qed.

Lemma marked_renderMessages w : marked (document w) -> marked (document (renderMessages w)).
Proof. apply marked_chatOnly. apply (chatFrame_renderMessages w). Qed.

Lemma marked_openReader extracted now w :
  marked (document w) -> marked (document (openReader extracted now w).2).
Proof.
  intros Hmarked. unfold openReader. destruct extracted as [article|]; [|done].
  apply marked_mountReader, Hmarked.
Qed.

Lemma marked_step w w' : step w w' -> marked (document w) -> marked (document w').
Proof.
  destruct 1 as [net w|extracted now w|extracted now w|article settings now w|w
                |extracted now w|action extracted now w|settings action w|w|value w|st w];
    intros Hmarked.
  - apply (marked_chatOnly (document w)); [apply askChatGPT_chatOnly|done].
  - unfold querycontent. destruct (isReaderActive (document w)).
    + destruct extracted as [article|]; [|done]. by apply marked_renderMessages.
    + pose proof (marked_openReader extracted now w Hmarked) as Hopen.
      destruct (openReader extracted now w) as [[articleText|e] w']; [|done].
      by apply marked_renderMessages.
  - by apply marked_openReader.
  - apply marked_mountReader, Hmarked.
  - apply marked_removeReader, Hmarked.
  - unfold toggleReader. destruct (isReaderActive (document w)).
    + apply marked_removeReader, Hmarked.
    + pose proof (marked_openReader extracted now w Hmarked) as Hopen.
      destruct (openReader extracted now w) as [[articleText|e] w']; [done|].
      apply marked_removeReader, Hopen.
  - unfold onMessage. repeat case_decide; try done.
    + unfold toggleReader. destruct (isReaderActive (document w)).
      * apply marked_removeReader, Hmarked.
      * pose proof (marked_openReader extracted now w Hmarked) as Hopen.
        destruct (openReader extracted now w) as [[articleText|e] w']; [done|].
        apply marked_removeReader, Hopen.
    + apply marked_removeReader, Hmarked.
  - unfold toolbarClick. repeat case_decide; try done.
    + apply marked_removeReader, Hmarked.
    + destruct (getOverlay (document w)); [|done]. by apply marked_withFirstOverlay.
    + by apply marked_withFirstOverlay.
    + by apply marked_withFirstOverlay.
  - unfold runTimer. destruct (timers w) as [|[] rest]; [done|].
    by apply marked_renderMessages.
  - by apply marked_withFirstOverlay.
  - done.
Qed.

End OpenClose.

(** X10. The class on the body follows the reader: from a page that the
    script has been loaded into and whose body has not the class
    [reader-mode-active] of its own, whatever handlers run, the body has
    the class exactly when the reader is mounted. *)
Theorem body_class_follows_reader `{Host} (w0 w : World) :
  initial w0 ->
  BODY_ACTIVE_CLASS ∉ classList (document w0) ->
  rtc step w0 w ->
  BODY_ACTIVE_CLASS ∈ classList (document w) ↔ (isReaderActive (document w) = true).
Proof.
  intros (_ & Hnone & _) Hclass Hsteps.
  assert (marked (document w)) as [_ Hmarked].
  { revert w Hsteps. apply (rtc_ind_r (fun w => marked (document w))).
    - unfold marked. rewrite Hnone. split; [cbn; lia|]. by split.
    - intros w1 w2 _ Hstep Hmarked. by apply (marked_step w1 w2). }
  rewrite Hmarked, isReaderActive_mounted. by rewrite bool_decide_eq_true.
Qed.

Lemma body_class_follows_reader_witness :
  initial Example.loaded
  ∧ (BODY_ACTIVE_CLASS ∉ classList (document Example.loaded))
  ∧ rtc (step (H := Browser.host)) Example.loaded (toolbarClick ∅ "close" Example.opened)
  ∧ (BODY_ACTIVE_CLASS ∈ classList (document (toolbarClick ∅ "close"
                                                  Example.opened))
     ↔ (isReaderActive (document (toolbarClick ∅ "close" Example.opened)) = true)).
Proof.
  assert (initial Example.loaded) as Hinitial by (repeat split; by eexists).
  assert (BODY_ACTIVE_CLASS ∉ classList (document Example.loaded)) as Hclass
    by (vm_compute; set_solver).
  assert (rtc (step (H := Browser.host)) Example.loaded
            (toolbarClick ∅ "close" Example.opened)) as Hsteps.
  { eapply rtc_l; [apply (step_openReader (Some Example.article) "now")|].
    apply rtc_once, step_toolbarClick. }
  split; [exact Hinitial|]. split; [exact Hclass|]. split; [exact Hsteps|].
  exact (body_class_follows_reader (H := Browser.host) _ _ Hinitial Hclass Hsteps).
Defined.

Lemma World_eq (w w' : World) :
  chatState w = chatState w' -> document w = document w' -> console w = console w' ->
  storage w = storage w' -> timers w = timers w' -> w = w'.
Proof. destruct w, w'. cbn. by intros -> -> -> -> ->. Qed.

Lemma Document_eq (d d' : Document) :
  overlays d = overlays d' -> classList d = classList d' -> pageTitle d = pageTitle d' ->
  d = d'.
Proof. destruct d, d'. cbn. by intros -> -> ->. Qed.

Lemma removeReader_classList d :
  classList (removeReader d) = classList d ∖ {[BODY_ACTIVE_CLASS]}.
Proof. unfold removeReader. by destruct (getOverlay d). Qed.

Lemma removeReader_pageTitle d : pageTitle (removeReader d) = pageTitle d.
Proof. unfold removeReader. by destruct (getOverlay d). Qed.

Lemma renderMessages_closed `{Host} w : overlays (document w) = [] -> renderMessages w = w.
Proof. intros Hnone. unfold renderMessages, getMessagesContainer. by rewrite Hnone. Qed.

Lemma toolbarClick_close settings w :
  toolbarClick settings "close" w = withDocument removeReader w.
Proof. unfold toolbarClick. by repeat case_decide. Qed.

(** X11. Closing gives the page back: when nothing is mounted and the body
    has not the class of the reader, opening the reader and closing it
    again, and running the initialisation that the opening had queued,
    leaves the document and the conversation as they were. *)
Theorem open_then_close_restores_page `{Host}
    (article : Article.t) (settings : gmap string JSON) (now : string) (w : World) :
  overlays (document w) = [] ->
  BODY_ACTIVE_CLASS ∉ classList (document w) ->
  timers w = [] ->
  runTimer (toolbarClick settings "close" (mountReader article settings now w)) = w.
Proof.
  intros Hnone Hclass Htimers. rewrite toolbarClick_close.
  assert (overlays (document (withDocument removeReader (mountReader article settings now w)))
          = []) as Hclosed.
  { change (overlays (removeReader (document (mountReader article settings now w))) = []).
    by rewrite removeReader_overlays, mountReader_overlays, Hnone. }
  unfold runTimer.
  assert (timers (withDocument removeReader (mountReader article settings now w))
          = [InitializeChatInterface]) as -> by (cbn; by rewrite Htimers).
  unfold initializeChatInterface. rewrite renderMessages_closed by done.
  apply World_eq; [done| |done|done|by rewrite Htimers].
  change (removeReader (document (mountReader article settings now w)) = document w).
  change (overlays (removeReader (document (mountReader article settings now w))) = [])
    in Hclosed.
  apply Document_eq; [by rewrite Hclosed, Hnone| |].
  - rewrite removeReader_classList. unfold mountReader. cbn [setTimeout withDocument document
      withClassList classList appendOverlay withOverlays].
    rewrite removeReader_classList. apply set_eq. intros x.
    rewrite !elem_of_difference, elem_of_union, elem_of_difference.
    split; [by intros [[[? ?]|?] ?]|]. intros Hx. split; [left; split; [done|]|];
      intros ->%elem_of_singleton; done.
  - rewrite removeReader_pageTitle. unfold mountReader. cbn [setTimeout withDocument document
      withClassList pageTitle appendOverlay withOverlays]. by rewrite removeReader_pageTitle.
Qed.

Lemma open_then_close_restores_page_witness :
  overlays (document Example.loaded) = []
  ∧ (BODY_ACTIVE_CLASS ∉ classList (document Example.loaded))
  ∧ timers Example.loaded = []
  ∧ runTimer (H := Browser.host)
      (toolbarClick ∅ "close"
         (mountReader (H := Browser.host) Example.article ∅ "now" Example.loaded))
    = Example.loaded.
Proof.
  assert (BODY_ACTIVE_CLASS ∉ classList (document Example.loaded)) as Hclass
    by (vm_compute; set_solver).
  split; [reflexivity|]. split; [exact Hclass|]. split; [reflexivity|].
  exact (open_then_close_restores_page (H := Browser.host) Example.article ∅ "now"
           Example.loaded eq_refl Hclass eq_refl).
Defined.

(** ** The theme *)

Section Theme.
Context `{Host}.

(** The members of an object that was built from a map are this map. *)
Lemma ownProperties_map_to_list (m : gmap string JSON) :
  ownProperties (JObject (map_to_list m)) = m.
Proof.
  unfold ownProperties.
  rewrite <- (list_to_map_to_list m) at 2.
  apply list_to_map_proper.
  - rewrite fmap_reverse, reverse_Permutation. apply NoDup_fst_map_to_list.
  - apply reverse_Permutation.
Qed.

Lemma fetchReaderSettings_stored (m : gmap string JSON) w :
  storage w !! "readerSettings" = Some (JObject (map_to_list m)) ->
  fetchReaderSettings w = m ∪ DEFAULT_SETTINGS.
Proof.
  intros Hstored. unfold fetchReaderSettings, Object_assign. rewrite Hstored.
  unfold JS.truthy. cbn [from_option JS.ToBoolean default foldl id].
  rewrite ownProperties_map_to_list. by rewrite (right_id_L ∅ (∪)).
Qed.

End Theme.

(** X12. The theme that the button chooses is the theme of the next
    opening: after a click on the theme button of a mounted reader, the
    stored settings are read back with [darkMode] as chosen and with every
    other setting as the toolbar had it, and an overlay built from them
    has the theme and the button label that the click gave to the mounted
    one. *)
Theorem toggle_theme_is_remembered `{Host}
    (settings : gmap string JSON) (w : World) (overlay : Overlay)
    (article : Article.t) (now : string) (d : Document) :
  getOverlay (document w) = Some overlay ->
  ∃ toggled,
    getOverlay (document (toolbarClick settings "toggle-theme" w)) = Some toggled
    ∧ theme toggled = (if decide (theme overlay = "dark") then "light" else "dark")
    ∧ fetchReaderSettings (toolbarClick settings "toggle-theme" w)
      = <["darkMode" := JBool (bool_decide (theme overlay ≠ "dark"))]> settings
        ∪ DEFAULT_SETTINGS
    ∧ theme (buildOverlay article
               (fetchReaderSettings (toolbarClick settings "toggle-theme" w)) now d)
      = theme toggled
    ∧ themeButton (buildOverlay article
                     (fetchReaderSettings (toolbarClick settings "toggle-theme" w)) now d)
      = themeButton toggled.
Proof.
  intros Hoverlay.
  assert (toolbarClick settings "toggle-theme" w
          = withStorage (fun st =>
              <["readerSettings" :=
                  JObject (map_to_list (Object_assign ∅
                     [settings; {["darkMode" := JBool (negb (bool_decide (theme overlay = "dark")))]}]))]> st)
              (withDocument (withFirstOverlay
                 (setTheme (if bool_decide (theme overlay = "dark") then "light" else "dark")
                           (if bool_decide (theme overlay = "dark") then "暗色模式" else "浅色模式")))
                 w)) as ->.
  { unfold toolbarClick. rewrite Hoverlay. by repeat case_decide. }
  assert (Object_assign ∅ [settings; {["darkMode" := JBool (negb (bool_decide (theme overlay = "dark")))]}]
          = <["darkMode" := JBool (bool_decide (theme overlay ≠ "dark"))]> settings) as Hsaved.
  { assert (negb (bool_decide (theme overlay = "dark")) = bool_decide (theme overlay ≠ "dark"))
      as -> by (by repeat case_bool_decide).
    unfold Object_assign. cbn [foldl]. by rewrite (right_id_L ∅ (∪)), insert_union_singleton_l. }
  rewrite (fetchReaderSettings_stored
             (<["darkMode" := JBool (bool_decide (theme overlay ≠ "dark"))]> settings)).
  2: { cbn [storage withStorage]. by rewrite lookup_insert_eq, Hsaved. }
  unfold getOverlay in *. destruct w as [c [[|o os] cl t] k st tm]; [done|].
  cbn in Hoverlay. injection Hoverlay as ->.
  eexists. split; [reflexivity|]. cbn [theme themeButton setTheme buildOverlay].
  assert ((<["darkMode" := JBool (bool_decide (theme overlay ≠ "dark"))]> settings
           ∪ DEFAULT_SETTINGS) !! "darkMode"
          = Some (JBool (bool_decide (theme overlay ≠ "dark")))) as ->.
  { apply lookup_union_Some_l. by rewrite lookup_insert_eq. }
  unfold JS.truthy. cbn [from_option JS.ToBoolean].
  repeat split; by repeat (case_bool_decide || case_decide).
Qed.

Lemma toggle_theme_is_remembered_witness :
  getOverlay (document Example.opened)
  = Some (buildOverlay (H := Browser.host) Example.article (fetchReaderSettings Example.loaded)
            "now" (document Example.loaded))
  ∧ ∃ toggled,
      getOverlay (document (toolbarClick (fetchReaderSettings Example.loaded) "toggle-theme"
                              Example.opened)) = Some toggled
      ∧ theme toggled = "dark".
Proof.
  assert (getOverlay (document Example.opened)
          = Some (buildOverlay (H := Browser.host) Example.article
                    (fetchReaderSettings Example.loaded) "now" (document Example.loaded)))
    as Hoverlay by (vm_compute; reflexivity).
  split; [exact Hoverlay|].
  destruct (toggle_theme_is_remembered (H := Browser.host) (fetchReaderSettings Example.loaded)
              Example.opened _ Example.article "now" (document Example.loaded) Hoverlay)
    as (toggled & Hget & Htheme & _).
  exists toggled. split; [exact Hget|]. rewrite Htheme. by vm_compute.
Defined.

(** X13. The chat panel of a newly opened reader shows the conversation:
    once the initialisation that [openReader] queues has run, the message
    list shows the history as it is; until then the list of the new overlay
    is empty. *)
Theorem reopened_reader_shows_history `{Host}
    (article : Article.t) (settings : gmap string JSON) (now : string) (w : World) :
  length (overlays (document w)) ≤ 1 ->
  getMessagesContainer (document (mountReader article settings now w)) = Some []
  ∧ shown (runTimer (mountReader article settings now w))
  ∧ chatState (runTimer (mountReader article settings now w)) = chatState w.
Proof.
  intros Hone. split; [|split].
  - unfold getMessagesContainer. rewrite mountReader_overlays.
    by destruct (overlays (document w)) as [|o [|o' os]]; cbn in *; [..|lia].
  - unfold runTimer. pose proof (mountReader_mounted article settings now w) as Hmounted.
    destruct (timers (mountReader article settings now w)) as [|[] rest] eqn:Htimers.
    + unfold mountReader, setTimeout in Htimers. cbn in Htimers. by destruct (timers w).
    + by apply shown_renderMessages.
  - by rewrite runTimer_chatState.
Qed.

Lemma reopened_reader_shows_history_witness :
  length (overlays (document (withDocument removeReader
            (askChatGPT (H := Browser.host) (streamed Example.threeChunks)
               (Example.typed "hello"))))) ≤ 1
  ∧ getMessagesContainer (document (runTimer (H := Browser.host)
       (mountReader (H := Browser.host) Example.article ∅ "later"
          (withDocument removeReader
             (askChatGPT (H := Browser.host) (streamed Example.threeChunks)
                (Example.typed "hello"))))))
    = Some [messageDiv (H := Browser.host) {| role := "user"; content := "hello" |};
            messageDiv (H := Browser.host) {| role := "assistant"; content := "Hi there" |}].
Proof.
  assert (length (overlays (document (withDocument removeReader
            (askChatGPT (H := Browser.host) (streamed Example.threeChunks)
               (Example.typed "hello"))))) ≤ 1) as Hone by (vm_compute; lia).
  split; [exact Hone|].
  destruct (reopened_reader_shows_history (H := Browser.host) Example.article ∅ "later" _ Hone)
    as (_ & Hshown & _).
  rewrite Hshown. by vm_compute.
Defined.

(** ** The resizer *)

Section Dragging.
Import Resizer.

Lemma foldl_onMouseMove clientX ds r :
  isResizing (foldl (fun r d => onMouseMove clientX d r) r ds) = isResizing r
  ∧ listeners (foldl (fun r d => onMouseMove clientX d r) r ds) = listeners r
  ∧ (inRange r -> inRange (foldl (fun r d => onMouseMove clientX d r) r ds))
  ∧ (isResizing r = false -> foldl (fun r d => onMouseMove clientX d r) r ds = r).
Proof.
  revert r. induction ds as [|d ds IH]; intros r; [done|].
  cbn [foldl]. destruct (IH (onMouseMove clientX d r)) as (Hflag & Hlisteners & Hrange & Hidle).
  assert (isResizing (onMouseMove clientX d r) = isResizing r
          ∧ listeners (onMouseMove clientX d r) = listeners r
          ∧ (inRange r -> inRange (onMouseMove clientX d r))
          ∧ (isResizing r = false -> onMouseMove clientX d r = r)) as (Hflag' & Hlisteners' & Hrange' & Hidle').
  { unfold onMouseMove. destruct (isResizing r) eqn:Hr; cbn [negb]; [|by rewrite ?Hr].
    split; [done|]. split; [done|]. split; [|done]. intros _ px [= <-]. lia. }
  rewrite Hflag, Hlisteners, Hflag', Hlisteners'. split; [done|]. split; [done|].
  split; [auto|].
  intros Hr. rewrite Hidle by (by rewrite Hflag'). by apply Hidle'.
Qed.

Lemma iter_onMouseUp k r :
  listeners (Nat.iter k onMouseUp r) = drop k (listeners r)
  ∧ width (Nat.iter k onMouseUp r) = width r
  ∧ isResizing (Nat.iter k onMouseUp r) = (if k is 0 then isResizing r else false).
Proof.
  induction k as [|k (Hlisteners & Hwidth & _)]; [by rewrite drop_0|].
  change (Nat.iter (S k) onMouseUp r) with (onMouseUp (Nat.iter k onMouseUp r)).
  unfold onMouseUp at 1 3 5. cbn [listeners width isResizing].
  rewrite Hlisteners, Hwidth, drop_drop. split; [|done]. f_equal. lia.
Qed.

Lemma step_sound r r' :
  step r r' ->
  inRange r ∧ (isResizing r = false ↔ listeners r = []) ->
  inRange r' ∧ (isResizing r' = false ↔ listeners r' = []).
Proof.
  destruct 1 as [clientX offsetWidth r|clientX r|r]; intros [Hrange Hflag].
  - split; [done|]. cbn. split; [done|]. by destruct (listeners r).
  - unfold mousemove.
    destruct (foldl_onMouseMove clientX (listeners r) r) as (-> & -> & Hkept & _). auto.
  - unfold mouseup, inRange.
    destruct (iter_onMouseUp (length (listeners r)) r) as (-> & -> & ->).
    rewrite drop_all. split; [done|]. destruct (listeners r); [|done]. apply Hflag.
Qed.

Lemma reachable_sound r :
  reachable r -> inRange r ∧ (isResizing r = false ↔ listeners r = []).
Proof.
  intros (r0 & (Hflag & Hlisteners & Hwidth) & Hsteps). revert r Hsteps.
  apply (rtc_ind_r (fun r => inRange r ∧ (isResizing r = false ↔ listeners r = []))).
  - split; [|done]. intros px. by rewrite Hwidth.
  - intros r1 r2 _ Hstep Hsound. by apply (step_sound r1 r2).
Qed.

End Dragging.

(** X14. However the mouse is pressed, moved and released on the bar, the
    width that the script gives to the article panel stays between 200 and
    1200 pixels; a drag is going on exactly while listeners are bound to
    the document; a release ends every drag and leaves no listener; and
    outside a drag a move of the mouse changes nothing. *)
Theorem resizer_keeps_width_in_bounds (r : Resizer.t) :
  Resizer.reachable r ->
  Resizer.inRange r
  ∧ (Resizer.isResizing r = false ↔ Resizer.listeners r = [])
  ∧ Resizer.idle (Resizer.mouseup r)
  ∧ (Resizer.isResizing r = false -> ∀ clientX, Resizer.mousemove clientX r = r).
Proof.
  intros Hreachable. destruct (reachable_sound r Hreachable) as [Hrange Hflag].
  split; [done|]. split; [done|]. split.
  - unfold Resizer.idle, Resizer.mouseup.
    destruct (iter_onMouseUp (length (Resizer.listeners r)) r) as (-> & _ & ->).
    rewrite drop_all. split; [|done]. destruct (Resizer.listeners r); [|done]. by apply Hflag.
  - intros Hidle clientX. unfold Resizer.mousemove.
    by apply (foldl_onMouseMove clientX (Resizer.listeners r) r).
Qed.

Lemma resizer_keeps_width_in_bounds_witness :
  Resizer.reachable
    (Resizer.mousemove 5000
       (Resizer.mousedown 100 600
          {| Resizer.isResizing := false; Resizer.listeners := []; Resizer.width := None;
             Resizer.cursor := ""; Resizer.userSelect := "" |}))
  ∧ Resizer.width
      (Resizer.mousemove 5000
         (Resizer.mousedown 100 600
            {| Resizer.isResizing := false; Resizer.listeners := []; Resizer.width := None;
               Resizer.cursor := ""; Resizer.userSelect := "" |})) = Some 1200%Z
  ∧ Resizer.inRange
      (Resizer.mousemove 5000
         (Resizer.mousedown 100 600
            {| Resizer.isResizing := false; Resizer.listeners := []; Resizer.width := None;
               Resizer.cursor := ""; Resizer.userSelect := "" |})).
Proof.
  assert (Resizer.reachable
    (Resizer.mousemove 5000
       (Resizer.mousedown 100 600
          {| Resizer.isResizing := false; Resizer.listeners := []; Resizer.width := None;
             Resizer.cursor := ""; Resizer.userSelect := "" |}))) as Hreachable.
  { eexists. split; [|eapply rtc_l; [apply Resizer.step_mousedown|
                                     apply rtc_once, Resizer.step_mousemove]].
    by repeat split. }
  split; [exact Hreachable|]. split; [reflexivity|].
  exact (proj1 (resizer_keeps_width_in_bounds _ Hreachable)).
Defined.

(** ** The notebook *)

Section Autosave.
Context `{Host}.
Import Notebook.

Lemma run_fields cb n :
  notebookTextarea (run cb n) = notebookTextarea n
  ∧ queue (run cb n) = queue n
  ∧ saveTimeouts (run cb n) = saveTimeouts n
  ∧ nextId (run cb n) = nextId n
  ∧ clock (run cb n) = clock n
  ∧ downloads (run cb n) = downloads n
  ∧ mounted (run cb n) = mounted n
  ∧ clickListeners (run cb n) = clickListeners n.
Proof. by destruct cb. Qed.

Lemma foldl_run_fields l n :
  notebookTextarea (foldl (fun n p => run (callback p) n) n l) = notebookTextarea n
  ∧ queue (foldl (fun n p => run (callback p) n) n l) = queue n
  ∧ saveTimeouts (foldl (fun n p => run (callback p) n) n l) = saveTimeouts n
  ∧ nextId (foldl (fun n p => run (callback p) n) n l) = nextId n
  ∧ clock (foldl (fun n p => run (callback p) n) n l) = clock n
  ∧ downloads (foldl (fun n p => run (callback p) n) n l) = downloads n
  ∧ mounted (foldl (fun n p => run (callback p) n) n l) = mounted n
  ∧ clickListeners (foldl (fun n p => run (callback p) n) n l) = clickListeners n.
Proof.
  revert n. induction l as [|p l IH]; intros n; [done|].
  cbn [foldl]. destruct (IH (run (callback p) n)) as (-> & -> & -> & -> & -> & -> & -> & ->).
  apply run_fields.
Qed.

(** Callbacks other than autosaves leave the storage. *)
Lemma foldl_run_local l n :
  Forall (fun p => callback p ≠ Autosave) l ->
  local (foldl (fun n p => run (callback p) n) n l) = local n.
Proof.
  intros Hl. revert n. induction Hl as [|p l Hp _ IH]; intros n; [done|].
  cbn [foldl]. rewrite IH. by destruct (callback p).
Qed.

(** Once the text of the text area is stored, callbacks keep it stored. *)
Lemma foldl_run_stored l n :
  local n !! "notebookContent" = Some (JString (notebookTextarea n)) ->
  local (foldl (fun n p => run (callback p) n) n l) !! "notebookContent"
  = Some (JString (notebookTextarea n)).
Proof.
  revert n. induction l as [|p l IH]; intros n Hstored; [done|].
  cbn [foldl]. destruct (run_fields (callback p) n) as (<- & _). apply IH.
  destruct (callback p); cbn; [|done].
  unfold saveNotebook. by rewrite lookup_insert_eq.
Qed.

(** An autosave stores the text of the text area. *)
Lemma foldl_run_autosave l p l' n :
  callback p = Autosave ->
  local (foldl (fun n p => run (callback p) n) n (l ++ p :: l')) !! "notebookContent"
  = Some (JString (notebookTextarea n)).
Proof.
  intros Hp. rewrite foldl_app. cbn [foldl]. rewrite Hp.
  destruct (foldl_run_fields l n) as (<- & _).
  set (m := foldl _ n l).
  destruct (run_fields Autosave m) as (<- & _). apply foldl_run_stored.
  cbn. unfold saveNotebook. by rewrite lookup_insert_eq.
Qed.

Lemma autosaved_run cb n :
  autosaved (run cb n) = autosaved n + (if decide (cb = Autosave) then 1 else 0).
Proof.
  destruct cb; unfold autosaved; cbn [run page withPage withLocal print console setSaveBtn].
  - rewrite filter_app, length_app. done.
  - case_decide; [done|]. lia.
Qed.

Lemma foldl_run_autosaved l n :
  autosaved (foldl (fun n p => run (callback p) n) n l)
  = autosaved n + length (filter (fun p => callback p = Autosave) l).
Proof.
  revert n. induction l as [|p l IH]; intros n; [cbn; lia|].
  cbn [foldl]. rewrite IH, autosaved_run, filter_cons.
  destruct (decide (callback p = Autosave)); cbn [length]; lia.
Qed.

Lemma onInput_fields i n :
  queue (onInput i n)
  = match saveTimeouts n !! i with
    | Some (Some old) => filter (fun p => id p ≠ old) (queue n)
    | _ => queue n
    end ++ [{| id := nextId n; due := clock n + 2000; callback := Autosave |}]
  ∧ saveTimeouts (onInput i n) = <[i := Some (nextId n)]> (saveTimeouts n)
  ∧ nextId (onInput i n) = S (nextId n)
  ∧ clock (onInput i n) = clock n
  ∧ local (onInput i n) = local n
  ∧ notebookTextarea (onInput i n) = notebookTextarea n
  ∧ page (onInput i n) = page n
  ∧ downloads (onInput i n) = downloads n
  ∧ mounted (onInput i n) = mounted n
  ∧ clickListeners (onInput i n) = clickListeners n.
Proof. unfold onInput. by destruct (saveTimeouts n !! i) as [[old|]|]. Qed.

(** The listeners of an edit leave all but the timers. *)
Lemma foldl_onInput_fields indices n :
  clock (foldl (fun n i => onInput i n) n indices) = clock n
  ∧ local (foldl (fun n i => onInput i n) n indices) = local n
  ∧ notebookTextarea (foldl (fun n i => onInput i n) n indices) = notebookTextarea n
  ∧ page (foldl (fun n i => onInput i n) n indices) = page n
  ∧ downloads (foldl (fun n i => onInput i n) n indices) = downloads n
  ∧ mounted (foldl (fun n i => onInput i n) n indices) = mounted n
  ∧ clickListeners (foldl (fun n i => onInput i n) n indices) = clickListeners n.
Proof.
  revert n. induction indices as [|i indices IH]; intros n; [done|].
  cbn [foldl]. destruct (IH (onInput i n)) as (-> & -> & -> & -> & -> & -> & ->).
  by destruct (onInput_fields i n) as (_ & _ & _ & -> & -> & -> & -> & -> & -> & ->).
Qed.

(** After an edit the queue ends with the autosave of the last listener. *)
Lemma input_queue value n :
  saveTimeouts n ≠ [] ->
  ∃ q i, queue (input value n)
         = q ++ [{| id := i; due := clock n + 2000; callback := Autosave |}].
Proof.
  intros Hlisteners. unfold input.
  destruct (saveTimeouts n) as [|slot slots] eqn:Hslots using rev_ind; [done|].
  rewrite length_app, Nat.add_1_r, seq_S, foldl_app. cbn [foldl].
  set (m := foldl _ _ _).
  destruct (onInput_fields (0 + length slots) m) as (-> & _).
  assert (clock m = clock n) as ->; [|by eexists _, _].
  subst m.
  by destruct (foldl_onInput_fields (seq 0 (length slots)) (setTextarea value n)) as (-> & _).
Qed.

(** The passing of time: the callbacks that are due run on a state that
    differs from [n] in the clock and in the queue only. *)
Lemma advance_ready dt n :
  ∃ m, advance dt n
       = foldl (fun n p => run (callback p) n) m
           (filter (fun p => due p ≤ clock n + dt) (queue n))
       ∧ notebookTextarea m = notebookTextarea n
       ∧ local m = local n
       ∧ page m = page n
       ∧ queue m = filter (fun p => clock n + dt < due p) (queue n)
       ∧ saveTimeouts m = saveTimeouts n
       ∧ nextId m = nextId n
       ∧ downloads m = downloads n
       ∧ mounted m = mounted n
       ∧ clickListeners m = clickListeners n.
Proof. eexists. split; [reflexivity|]. done. Qed.

End Autosave.

(** X15. The autosave stores the note: when the panel has been initialised
    and the user edits the text area, then, once two seconds have passed
    with no other event, the storage holds the text of the text area under
    [notebookContent], and the text area still shows it. *)
Theorem notebook_autosave_stores_text
    (value : string) (dt : nat) (n : Notebook.t) :
  Notebook.saveTimeouts n ≠ [] ->
  2000 ≤ dt ->
  Notebook.local (Notebook.advance dt (Notebook.input value n)) !! "notebookContent"
  = Some (JString value)
  ∧ Notebook.notebookTextarea (Notebook.advance dt (Notebook.input value n)) = value.
Proof.
  intros Hlisteners Hdt.
  destruct (input_queue value n Hlisteners) as (q & i & Hqueue).
  destruct (foldl_onInput_fields (seq 0 (length (Notebook.saveTimeouts n)))
              (Notebook.setTextarea value n)) as (Hclock & _ & Htext & _).
  change (foldl _ _ _) with (Notebook.input value n) in Hclock, Htext.
  cbn in Hclock, Htext.
  destruct (advance_ready dt (Notebook.input value n)) as (m & -> & Htext' & _).
  rewrite Hqueue, Hclock, filter_app, filter_cons.
  cbn [Notebook.due]. case_decide; [|lia]. rewrite filter_nil. split.
  - rewrite foldl_run_autosave by done. by rewrite Htext', Htext.
  - match goal with |- context [foldl ?f m ?l] =>
      destruct (foldl_run_fields l m) as (-> & _) end.
    by rewrite Htext', Htext.
Qed.

Lemma notebook_autosave_stores_text_witness :
  Notebook.saveTimeouts
    (Notebook.initializeNotebook (H := Browser.host)
       (Notebook.mountedOn Example.opened ∅)) ≠ []
  ∧ 2000 ≤ 2500
  ∧ Notebook.local
      (Notebook.advance 2500
         (Notebook.input "a note"
            (Notebook.initializeNotebook (H := Browser.host)
               (Notebook.mountedOn Example.opened ∅))))
    !! "notebookContent" = Some (JString "a note").
Proof.
  assert (Notebook.saveTimeouts
    (Notebook.initializeNotebook (H := Browser.host)
       (Notebook.mountedOn Example.opened ∅)) ≠ []) as Hlisteners
    by (vm_compute; discriminate).
  assert (2000 ≤ 2500) as Hdt by lia.
  split; [exact Hlisteners|]. split; [exact Hdt|].
  exact (proj1 (notebook_autosave_stores_text "a note" 2500 _ Hlisteners Hdt)).
Defined.

(** ** The autosave waits for a pause *)

Section Debounce.
Context `{Host}.
Import Notebook.

Lemma filter_all {A} (P : A -> Prop) `{∀ x, Decision (P x)} (l : list A) :
  Forall P l -> filter P l = l.
Proof.
  induction 1 as [|x l Hx _ IH]; [done|]. rewrite filter_cons, IH. by case_decide.
Qed.

Lemma filter_none {A} (P : A -> Prop) `{∀ x, Decision (P x)} (l : list A) :
  Forall (fun x => ¬ P x) l -> filter P l = [].
Proof.
  induction 1 as [|x l Hx _ IH]; [done|]. rewrite filter_cons, IH. by case_decide.
Qed.

Lemma rearmed_S n count :
  rearmed n (S count)
  = rearmed n count
    ++ [{| id := nextId n + count; due := clock n + 2000; callback := Autosave |}].
Proof. unfold rearmed. by rewrite seq_S, fmap_app. Qed.

Lemma rearmed_new n count :
  Forall (fun p => nextId n ≤ id p ∧ id p < nextId n + count
                   ∧ due p = clock n + 2000 ∧ callback p = Autosave) (rearmed n count).
Proof.
  unfold rearmed. apply Forall_fmap, Forall_forall. intros i Hi%elem_of_seq. cbn.
  split; [lia|]. split; [lia|]. done.
Qed.

(** The state when the first [j] listeners of an edit have run. *)
Lemma onInput_loop n0 (count : nat) :
  tidy n0 ->
  ∀ j m,
    j + count = length (saveTimeouts n0) ->
    nextId m = nextId n0 + j ->
    clock m = clock n0 ->
    length (saveTimeouts m) = length (saveTimeouts n0) ->
    (∀ j', j ≤ j' -> saveTimeouts m !! j' = saveTimeouts n0 !! j') ->
    (∀ j', j' < j -> saveTimeouts m !! j' = Some (Some (nextId n0 + j'))) ->
    (∃ old, queue m = old ++ rearmed n0 j
            ∧ Forall (fun p => id p < nextId n0) old
            ∧ Forall (fun p => callback p = Autosave ->
                               ∃ j', j ≤ j' ∧ saveTimeouts n0 !! j' = Some (Some (id p))) old) ->
    let m' := foldl (fun n i => onInput i n) m (seq j count) in
    nextId m' = nextId n0 + length (saveTimeouts n0)
    ∧ (∀ j', j' < length (saveTimeouts n0) ->
             saveTimeouts m' !! j' = Some (Some (nextId n0 + j')))
    ∧ length (saveTimeouts m') = length (saveTimeouts n0)
    ∧ ∃ old, queue m' = old ++ rearmed n0 (length (saveTimeouts n0))
             ∧ Forall (fun p => id p < nextId n0) old
             ∧ Forall (fun p => callback p ≠ Autosave) old.
Proof.
  intros (_ & Hslots0 & _). induction count as [|count IH];
    intros j m Hcount Hnext Hclock Hlength Hlater Hearlier (old & Hqueue & Hold & Hheld).
  - cbn. rewrite Nat.add_0_r in Hcount. subst j. split; [done|]. split; [done|].
    split; [done|]. exists old. split; [done|]. split; [done|].
    eapply Forall_impl; [exact Hheld|]. intros p Hp Hauto.
    destruct (Hp Hauto) as (j' & Hj' & Hlookup).
    apply lookup_lt_Some in Hlookup. lia.
  - cbn [seq foldl].
    destruct (onInput_fields j m) as (Hq & Hs & Hn & Hc & _).
    assert (j < length (saveTimeouts m)) as Hj by lia.
    apply (IH (S j)); [lia|lia|congruence|by rewrite Hs, length_insert| | |].
    + intros j' Hj'. rewrite Hs, list_lookup_insert_ne by lia. apply Hlater. lia.
    + intros j' Hj'. rewrite Hs. destruct (decide (j' = j)) as [->|Hne].
      * rewrite list_lookup_insert_eq by done. by rewrite Hnext.
      * rewrite list_lookup_insert_ne by done. apply Hearlier. lia.
    + rewrite Hq, Hqueue, rearmed_S, Hnext, Hclock.
      destruct (saveTimeouts m !! j) as [[stale|]|] eqn:Hslot.
      * assert (stale < nextId n0) as Hstale.
        { rewrite (Hlater j) in Hslot by done.
          apply list_elem_of_lookup_2 in Hslot.
          by apply (proj1 (Forall_forall _ _) Hslots0 _ Hslot). }
        exists (filter (fun p => id p ≠ stale) old).
        rewrite filter_app, (filter_all _ (rearmed n0 j)), app_assoc.
        2: { eapply Forall_impl; [apply rearmed_new|]. cbn. intros p Hp. lia. }
        split; [done|]. split.
        -- apply Forall_forall. intros p [_ Hp]%list_elem_of_filter.
           by apply (proj1 (Forall_forall _ _) Hold).
        -- apply Forall_forall. intros p [Hne Hp]%list_elem_of_filter Hauto.
           destruct (proj1 (Forall_forall _ _) Hheld p Hp Hauto) as (j' & Hj' & Hlookup).
           exists j'. split; [|done].
           destruct (decide (j' = j)) as [->|]; [|lia].
           rewrite (Hlater j) in Hslot by done. congruence.
      * exists old. rewrite app_assoc. split; [done|]. split; [done|].
        eapply Forall_impl; [exact Hheld|]. intros p Hp Hauto.
        destruct (Hp Hauto) as (j' & Hj' & Hlookup). exists j'. split; [|done].
        destruct (decide (j' = j)) as [->|]; [|lia].
        rewrite (Hlater j) in Hslot by done. congruence.
      * exists old. rewrite app_assoc. split; [done|]. split; [done|].
        eapply Forall_impl; [exact Hheld|]. intros p Hp Hauto.
        destruct (Hp Hauto) as (j' & Hj' & Hlookup). exists j'. split; [|done].
        destruct (decide (j' = j)) as [->|]; [|lia].
        rewrite (Hlater j) in Hslot by done. congruence.
Qed.

(** The timers after an edit. *)
Lemma input_timers value n :
  tidy n ->
  nextId (input value n) = nextId n + length (saveTimeouts n)
  ∧ (∀ j, j < length (saveTimeouts n) ->
          saveTimeouts (input value n) !! j = Some (Some (nextId n + j)))
  ∧ length (saveTimeouts (input value n)) = length (saveTimeouts n)
  ∧ ∃ old, queue (input value n) = old ++ rearmed n (length (saveTimeouts n))
           ∧ Forall (fun p => id p < nextId n) old
           ∧ Forall (fun p => callback p ≠ Autosave) old.
Proof.
  intros Htidy. unfold input.
  apply (onInput_loop n (length (saveTimeouts n)) Htidy 0 (setTextarea value n));
    [done|cbn; lia|done|done|done|lia|].
  destruct Htidy as (Hids & _ & Hheld).
  exists (queue n). cbn. rewrite app_nil_r. split; [done|]. split; [done|].
  eapply Forall_impl; [exact Hheld|]. intros p Hp Hauto.
  apply list_elem_of_lookup_1 in Hp as [j Hj]; [|done]. exists j. split; [lia|done].
Qed.

Lemma tidy_input value n : tidy n -> tidy (input value n).
Proof.
  intros Htidy.
  destruct (input_timers value n Htidy)
    as (Hnext & Hslots & Hlength & old & Hqueue & Hold & Hother).
  unfold tidy. rewrite Hqueue, Hnext. split; [|split].
  - apply Forall_app. split.
    + eapply Forall_impl; [exact Hold|]. cbn. intros p Hp. lia.
    + eapply Forall_impl; [apply rearmed_new|]. cbn. intros p Hp. lia.
  - apply Forall_forall. intros slot [j Hj]%list_elem_of_lookup_1 i ->.
    pose proof (lookup_lt_Some _ _ _ Hj) as Hlt. rewrite Hlength in Hlt.
    rewrite (Hslots j Hlt) in Hj. injection Hj as <-. lia.
  - apply Forall_app. split.
    + eapply Forall_impl; [exact Hother|]. by intros p Hp Hauto.
    + unfold rearmed. apply Forall_fmap, Forall_forall. intros i Hi%elem_of_seq _. cbn.
      apply (list_elem_of_lookup_2 _ i), Hslots. lia.
Qed.

(** [tidy] looks at the queue, the variables of the listeners and the
    next id only. *)
Lemma tidy_same n n' :
  queue n' = queue n -> saveTimeouts n' = saveTimeouts n -> nextId n' = nextId n ->
  tidy n -> tidy n'.
Proof. unfold tidy. by intros -> -> ->. Qed.

Lemma tidy_initializeNotebook n : tidy n -> tidy (initializeNotebook n).
Proof.
  intros (Hids & Hslots & Hheld). unfold initializeNotebook.
  destruct (mounted n); cbn [negb]; [|done].
  assert (∀ n', queue n' = queue n -> saveTimeouts n' = saveTimeouts n ->
                nextId n' = nextId n ->
                tidy {| page := page n'; clock := clock n'; local := local n';
                        mounted := mounted n'; notebookTextarea := notebookTextarea n';
                        saveBtn := saveBtn n'; queue := queue n'; nextId := nextId n';
                        saveTimeouts := saveTimeouts n' ++ [None];
                        clickListeners := S (clickListeners n');
                        downloads := downloads n' |}) as Hadded.
  { intros n' -> -> ->. unfold tidy. cbn. split; [done|]. split.
    - apply Forall_app. split; [done|]. apply Forall_singleton. by intros i [=].
    - eapply Forall_impl; [exact Hheld|]. intros p Hp Hauto.
      apply elem_of_app. left. by apply Hp. }
  by destruct (JS.ToBoolean _); apply Hadded.
Qed.

Lemma tidy_saveClicked n : tidy n -> tidy (saveClicked n).
Proof.
  intros (Hids & Hslots & Hheld). unfold saveClicked, tidy. cbn. split; [|split].
  - apply Forall_app. split; [|apply Forall_singleton; cbn; lia].
    eapply Forall_impl; [exact Hids|]. cbn. intros p Hp. lia.
  - eapply Forall_impl; [exact Hslots|]. cbn. intros slot Hslot i Hi.
    specialize (Hslot i Hi). lia.
  - apply Forall_app. split; [done|]. by apply Forall_singleton.
Qed.

Lemma tidy_clickSave n : tidy n -> tidy (clickSave n).
Proof.
  intros Htidy. unfold clickSave. induction (clickListeners n) as [|k IH]; [done|].
  by apply tidy_saveClicked.
Qed.

Lemma exportNotebookAsText_fields content iso n :
  queue (exportNotebookAsText content iso n) = queue n
  ∧ saveTimeouts (exportNotebookAsText content iso n) = saveTimeouts n
  ∧ nextId (exportNotebookAsText content iso n) = nextId n
  ∧ clickListeners (exportNotebookAsText content iso n) = clickListeners n.
Proof. unfold exportNotebookAsText. by destruct (_ || _). Qed.

Lemma tidy_clickExport iso n : tidy n -> tidy (clickExport iso n).
Proof.
  intros Htidy. unfold clickExport. induction (clickListeners n) as [|k IH]; [done|].
  cbn [Nat.iter]. set (m := Nat.iter k _ n) in *.
  destruct (exportNotebookAsText_fields (notebookTextarea m) iso m) as (Hq & Hs & Hn & _).
  by apply (tidy_same m).
Qed.

Lemma tidy_advance dt n : tidy n -> tidy (advance dt n).
Proof.
  intros (Hids & Hslots & Hheld).
  destruct (advance_ready dt n) as (m & -> & _ & _ & _ & Hq & Hs & Hn & _).
  match goal with |- tidy (foldl ?f m ?l) =>
    destruct (foldl_run_fields l m) as (_ & Hq' & Hs' & Hn' & _) end.
  unfold tidy. rewrite Hq', Hs', Hn', Hq, Hs, Hn. split; [|split; [done|]].
  - apply Forall_forall. intros p [_ Hp]%list_elem_of_filter.
    by apply (proj1 (Forall_forall _ _) Hids).
  - apply Forall_forall. intros p [_ Hp]%list_elem_of_filter.
    by apply (proj1 (Forall_forall _ _) Hheld).
Qed.

Lemma reachable_tidy n : reachable n -> tidy n.
Proof.
  intros (n0 & (_ & Hqueue & Hslots & _) & Hsteps). revert n Hsteps.
  apply (rtc_ind_r (fun n => tidy n)).
  - unfold tidy. by rewrite Hqueue, Hslots.
  - intros n1 n2 _ Hstep Htidy. destruct Hstep as [n1|value n1|n1|iso n1|dt n1].
    + by apply tidy_initializeNotebook.
    + by apply tidy_input.
    + by apply tidy_clickSave.
    + by apply tidy_clickExport.
    + by apply tidy_advance.
Qed.

Lemma length_rearmed n count : length (rearmed n count) = count.
Proof. unfold rearmed. by rewrite length_fmap, length_seq. Qed.

End Debounce.

(** X16. The autosave waits for a pause in the typing, and runs once for
    every time the panel was initialised.  In every state that the panel
    can reach, an edit cancels the autosaves that were pending and queues
    one for each [input] listener, due two seconds later; so within these
    two seconds the passing of time stores nothing, and after them the
    autosave has stored and logged the note once for each listener: as
    many times as the notebook tab has been opened. *)
Theorem notebook_autosave_waits_for_pause `{Host} (value : string) (n : Notebook.t) :
  Notebook.reachable n ->
  Notebook.pending Notebook.Autosave (Notebook.input value n)
  = Notebook.rearmed n (length (Notebook.saveTimeouts n))
  ∧ (∀ dt, dt < 2000 ->
           Notebook.local (Notebook.advance dt (Notebook.input value n)) = Notebook.local n)
  ∧ (∀ dt, 2000 ≤ dt ->
           Notebook.autosaved (Notebook.advance dt (Notebook.input value n))
           = Notebook.autosaved n + length (Notebook.saveTimeouts n)).
Proof.
  intros Htidy%reachable_tidy.
  destruct (input_timers value n Htidy) as (_ & _ & _ & old & Hqueue & _ & Hother).
  destruct (foldl_onInput_fields (seq 0 (length (Notebook.saveTimeouts n)))
              (Notebook.setTextarea value n)) as (Hclock & Hlocal & _ & Hpage & _).
  change (foldl _ _ _) with (Notebook.input value n) in Hclock, Hlocal, Hpage.
  cbn in Hclock, Hlocal, Hpage.
  pose proof (rearmed_new n (length (Notebook.saveTimeouts n))) as Hnew.
  split; [|split].
  - unfold Notebook.pending. rewrite Hqueue, filter_app, (filter_none _ old), filter_all; [done| |done].
    eapply Forall_impl; [exact Hnew|]. by intros p (_ & _ & _ & Hp).
  - intros dt Hdt.
    destruct (advance_ready dt (Notebook.input value n)) as (m & -> & _ & Hlocal' & _).
    rewrite foldl_run_local, Hlocal', Hlocal; [done|].
    rewrite Hqueue, Hclock, filter_app. apply Forall_app. split.
    + apply Forall_forall. intros p [_ Hp]%list_elem_of_filter.
      by apply (proj1 (Forall_forall _ _) Hother).
    + apply Forall_forall. intros p [Hdue Hp]%list_elem_of_filter.
      destruct (proj1 (Forall_forall _ _) Hnew p Hp) as (_ & _ & Hp' & _). lia.
  - intros dt Hdt.
    destruct (advance_ready dt (Notebook.input value n)) as (m & -> & _ & _ & Hpage' & _).
    rewrite foldl_run_autosaved.
    assert (Notebook.autosaved m = Notebook.autosaved n) as ->
      by (unfold Notebook.autosaved; by rewrite Hpage', Hpage).
    f_equal. rewrite Hqueue, Hclock, !filter_app, length_app.
    rewrite (filter_none _ (filter _ old)), (filter_all _ (Notebook.rearmed n _)),
      (filter_all _ (Notebook.rearmed n _)), length_rearmed; [done| | |].
    + eapply Forall_impl; [exact Hnew|]. by intros p (_ & _ & _ & Hp).
    + eapply Forall_impl; [exact Hnew|]. cbn. intros p (_ & _ & Hp & _). lia.
    + apply Forall_forall. intros p [_ Hp]%list_elem_of_filter.
      by apply (proj1 (Forall_forall _ _) Hother).
Qed.

Lemma notebook_autosave_waits_for_pause_witness :
  Notebook.reachable (H := Browser.host)
    (Notebook.initializeNotebook (H := Browser.host)
       (Notebook.initializeNotebook (H := Browser.host)
          (Notebook.mountedOn Example.opened ∅)))
  ∧ Notebook.autosaved
      (Notebook.advance 2000
         (Notebook.input "a note"
            (Notebook.initializeNotebook (H := Browser.host)
               (Notebook.initializeNotebook (H := Browser.host)
                  (Notebook.mountedOn Example.opened ∅)))))
    = 2.
Proof.
  assert (Notebook.reachable (H := Browser.host)
    (Notebook.initializeNotebook (H := Browser.host)
       (Notebook.initializeNotebook (H := Browser.host)
          (Notebook.mountedOn Example.opened ∅)))) as Hreachable.
  { eexists. split; [|eapply rtc_l; [apply Notebook.step_initializeNotebook|
                                     apply rtc_once, Notebook.step_initializeNotebook]].
    repeat split. cbn. lia. }
  split; [exact Hreachable|].
  destruct (notebook_autosave_waits_for_pause (H := Browser.host) "a note" _ Hreachable)
    as (_ & _ & Hcount).
  rewrite (Hcount 2000) by lia. by vm_compute.
Defined.

(** ** Saving, restoring and exporting the note *)

Section SaveAndExport.
Context `{Host}.
Import Notebook.

Lemma saveClicked_fields n :
  notebookTextarea (saveClicked n) = notebookTextarea n
  ∧ local (saveClicked n) = saveNotebook (notebookTextarea n) (local n)
  ∧ downloads (saveClicked n) = downloads n
  ∧ mounted (saveClicked n) = mounted n
  ∧ clickListeners (saveClicked n) = clickListeners n.
Proof. done. Qed.

Lemma iter_saveClicked_fields k n :
  notebookTextarea (Nat.iter k saveClicked n) = notebookTextarea n
  ∧ downloads (Nat.iter k saveClicked n) = downloads n
  ∧ (0 < k -> local (Nat.iter k saveClicked n) !! "notebookContent"
              = Some (JString (notebookTextarea n))).
Proof.
  induction k as [|k (Htext & Hdownloads & _)]; [split; [done|split; [done|lia]]|].
  change (Nat.iter (S k) saveClicked n) with (saveClicked (Nat.iter k saveClicked n)).
  destruct (saveClicked_fields (Nat.iter k saveClicked n)) as (-> & -> & -> & _).
  rewrite Htext, Hdownloads. split; [done|]. split; [done|]. intros _.
  unfold saveNotebook. by rewrite lookup_insert_eq.
Qed.

(** A panel that is initialised on a stored note shows this note. *)
Lemma initializeNotebook_restores saved n :
  mounted n = true ->
  local n !! "notebookContent" = Some (JString saved) ->
  saved ≠ "" ->
  notebookTextarea (initializeNotebook n) = saved
  ∧ local (initializeNotebook n) = local n
  ∧ queue (initializeNotebook n) = queue n.
Proof.
  intros Hmounted Hstored Hsaved. unfold initializeNotebook, loadNotebook.
  rewrite Hmounted, Hstored. unfold JS.truthy.
  cbn [negb from_option JS.ToBoolean default].
  case_bool_decide; [done|]. cbn [negb Datatypes.id JS.ToBoolean]. by case_bool_decide.
Qed.

Lemma initializeNotebook_downloads n : downloads (initializeNotebook n) = downloads n.
Proof.
  unfold initializeNotebook. destruct (mounted n); cbn [negb]; [|done].
  by destruct (JS.ToBoolean _).
Qed.

(** The stamp of a file name has no colon. *)
Lemma replaceFirst_occurs c d x s :
  d ≠ x -> Str.occurs x s = false -> Str.occurs x (replaceFirst c d s) = false.
Proof.
  intros Hd. induction s as [|y s IH]; [done|]. cbn [Str.occurs replaceFirst].
  destruct (decide (y = x)) as [|Hy]; [done|]. intros Hs.
  destruct (decide (y = c)); cbn [Str.occurs].
  - by rewrite decide_False.
  - rewrite decide_False by done. by apply IH.
Qed.

Lemma replaceAll_occurs c d s : d ≠ c -> Str.occurs c (replaceAll c d s) = false.
Proof.
  intros Hd. induction s as [|y s IH]; [done|]. cbn [Str.occurs replaceAll].
  destruct (decide (y = c)); by rewrite decide_False.
Qed.

Lemma dateStr_occurs iso : Str.occurs ":" (dateStr iso) = false.
Proof. unfold dateStr. by apply replaceFirst_occurs; [|apply replaceAll_occurs]. Qed.

Lemma exportNotebookAsText_downloads content iso n :
  downloads (exportNotebookAsText content iso n)
  = downloads n
    ++ (if bool_decide (content = "") || bool_decide (Str.trim content = "") then []
        else [("笔记_" +:+ dateStr iso +:+ ".txt", content)]).
Proof.
  unfold exportNotebookAsText. destruct (_ || _); cbn [downloads withPage]; [|done].
  by rewrite app_nil_r.
Qed.

Lemma clickExport_downloads (P : string * string -> Prop) iso n :
  (∀ content, Str.trim content ≠ "" -> P ("笔记_" +:+ dateStr iso +:+ ".txt", content)) ->
  Forall P (downloads n) -> Forall P (downloads (clickExport iso n)).
Proof.
  intros Hnew Hfiles. unfold clickExport.
  induction (clickListeners n) as [|k IH]; [done|].
  rewrite Nat.iter_succ, exportNotebookAsText_downloads. apply Forall_app. split; [done|].
  destruct (bool_decide _ || bool_decide _) eqn:Hblank; [done|].
  apply orb_false_elim in Hblank as [_ Hblank%bool_decide_eq_false].
  by apply Forall_singleton, Hnew.
Qed.

End SaveAndExport.

(** X17. A note saved with the button comes back: after a click on the
    save button of an initialised panel whose text area is not empty, a
    panel that is initialised on the same storage, as after closing and
    opening the reader, shows the saved text. *)
Theorem notebook_saved_text_is_restored `{Host} (n n' : Notebook.t) :
  0 < Notebook.clickListeners n ->
  Notebook.notebookTextarea n ≠ "" ->
  Notebook.mounted n' = true ->
  Notebook.local n' = Notebook.local (Notebook.clickSave n) ->
  Notebook.notebookTextarea (Notebook.initializeNotebook n') = Notebook.notebookTextarea n.
Proof.
  intros Hlisteners Htext Hmounted Hlocal.
  apply (initializeNotebook_restores _ n' Hmounted); [|done].
  rewrite Hlocal. unfold Notebook.clickSave.
  by apply (iter_saveClicked_fields (Notebook.clickListeners n) n).
Qed.

Lemma notebook_saved_text_is_restored_witness :
  0 < Notebook.clickListeners
        (Notebook.input "a note"
           (Notebook.initializeNotebook (H := Browser.host)
              (Notebook.mountedOn Example.opened ∅)))
  ∧ Notebook.notebookTextarea
      (Notebook.initializeNotebook (H := Browser.host)
         (Notebook.mountedOn Example.loaded
            (Notebook.local
               (Notebook.clickSave
                  (Notebook.input "a note"
                     (Notebook.initializeNotebook (H := Browser.host)
                        (Notebook.mountedOn Example.opened ∅)))))))
    = "a note".
Proof.
  assert (0 < Notebook.clickListeners
                (Notebook.input "a note"
                   (Notebook.initializeNotebook (H := Browser.host)
                      (Notebook.mountedOn Example.opened ∅)))) as Hlisteners
    by (vm_compute; lia).
  split; [exact Hlisteners|].
  rewrite (notebook_saved_text_is_restored (H := Browser.host)
             (Notebook.input "a note"
                (Notebook.initializeNotebook (H := Browser.host)
                   (Notebook.mountedOn Example.opened ∅)))
             (Notebook.mountedOn Example.loaded
                (Notebook.local
                   (Notebook.clickSave
                      (Notebook.input "a note"
                         (Notebook.initializeNotebook (H := Browser.host)
                            (Notebook.mountedOn Example.opened ∅))))))
             Hlisteners); [by vm_compute|by vm_compute|reflexivity|reflexivity].
Defined.

(** X18. An exported file is never blank and has a name that a file system
    takes: in every state that the panel can reach, each download holds a
    text that is not empty after trimming, under a name that begins with
    [笔记_] and has no colon. *)
Theorem notebook_exports_are_named_and_not_blank `{Host} (n : Notebook.t) :
  Notebook.reachable n ->
  Forall (fun file => Str.trim file.2 ≠ ""
                      ∧ Str.startsWith "笔记_" file.1 = true
                      ∧ Str.occurs ":" file.1 = false)
    (Notebook.downloads n).
Proof.
  intros (n0 & (_ & _ & _ & _ & _ & Hnone) & Hsteps). revert n Hsteps.
  apply (rtc_ind_r (fun n => Forall _ (Notebook.downloads n))); [by rewrite Hnone|].
  intros n1 n2 _ Hstep Hfiles. destruct Hstep as [n1|value n1|n1|iso n1|dt n1].
  - by rewrite initializeNotebook_downloads.
  - unfold Notebook.input.
    by destruct (foldl_onInput_fields (seq 0 (length (Notebook.saveTimeouts n1)))
                   (Notebook.setTextarea value n1)) as (_ & _ & _ & _ & -> & _).
  - unfold Notebook.clickSave.
    by destruct (iter_saveClicked_fields (Notebook.clickListeners n1) n1) as (_ & -> & _).
  - apply clickExport_downloads; [|done]. intros content Hcontent. cbn [fst snd].
    split; [done|]. split; [done|]. by rewrite !occurs_app, dateStr_occurs.
  - destruct (advance_ready dt n1) as (m & -> & _ & _ & _ & _ & _ & _ & Hdownloads & _).
    match goal with |- context [foldl ?f m ?l] =>
      destruct (foldl_run_fields l m) as (_ & _ & _ & _ & _ & -> & _) end.
    by rewrite Hdownloads.
Qed.

Lemma notebook_exports_are_named_and_not_blank_witness :
  Notebook.reachable (H := Browser.host)
    (Notebook.clickExport "2026-11-03T09:15:30.000Z"
       (Notebook.input "a note"
          (Notebook.initializeNotebook (H := Browser.host)
             (Notebook.mountedOn Example.opened ∅))))
  ∧ Notebook.downloads
      (Notebook.clickExport "2026-11-03T09:15:30.000Z"
         (Notebook.input "a note"
            (Notebook.initializeNotebook (H := Browser.host)
               (Notebook.mountedOn Example.opened ∅))))
    = [("笔记_2026-11-03_09-15-30.txt", "a note")]
  ∧ Forall (fun file => Str.trim file.2 ≠ ""
                        ∧ Str.startsWith "笔记_" file.1 = true
                        ∧ Str.occurs ":" file.1 = false)
      (Notebook.downloads
         (Notebook.clickExport "2026-11-03T09:15:30.000Z"
            (Notebook.input "a note"
               (Notebook.initializeNotebook (H := Browser.host)
                  (Notebook.mountedOn Example.opened ∅))))).
Proof.
  assert (Notebook.reachable (H := Browser.host)
    (Notebook.clickExport "2026-11-03T09:15:30.000Z"
       (Notebook.input "a note"
          (Notebook.initializeNotebook (H := Browser.host)
             (Notebook.mountedOn Example.opened ∅))))) as Hreachable.
  { eexists. split; [|eapply rtc_l; [apply Notebook.step_initializeNotebook|
                        eapply rtc_l; [apply Notebook.step_input|
                          apply rtc_once, Notebook.step_clickExport]]].
    repeat split. cbn. lia. }
  split; [exact Hreachable|]. split; [by vm_compute|].
  exact (notebook_exports_are_named_and_not_blank (H := Browser.host) _ Hreachable).
Defined.

(** X19. Opening the notebook tab again discards an edit that has not been
    stored: when a note is stored and the user edits the text area, a new
    run of [initializeNotebook], which every click on the tab queues,
    writes the stored note over the edit; the autosave that the edit had
    queued then stores the stored note again, so that the edit is neither
    shown nor stored, however long one waits. *)
Theorem notebook_reinitialising_discards_edit `{Host}
    (value saved : string) (dt : nat) (n : Notebook.t) :
  Notebook.mounted n = true ->
  Notebook.local n !! "notebookContent" = Some (JString saved) ->
  saved ≠ "" ->
  Notebook.notebookTextarea
    (Notebook.advance dt (Notebook.initializeNotebook (Notebook.input value n))) = saved
  ∧ Notebook.local
      (Notebook.advance dt (Notebook.initializeNotebook (Notebook.input value n)))
    !! "notebookContent" = Some (JString saved).
Proof.
  intros Hmounted Hstored Hsaved.
  destruct (foldl_onInput_fields (seq 0 (length (Notebook.saveTimeouts n)))
              (Notebook.setTextarea value n)) as (_ & Hlocal & _ & _ & _ & Hmounted' & _).
  change (foldl _ _ _) with (Notebook.input value n) in Hlocal, Hmounted'.
  cbn in Hlocal, Hmounted'.
  destruct (initializeNotebook_restores saved (Notebook.input value n))
    as (Htext & Hlocal' & _); [congruence|by rewrite Hlocal|done|].
  destruct (advance_ready dt (Notebook.initializeNotebook (Notebook.input value n)))
    as (m & -> & Htext'' & Hlocal'' & _).
  match goal with |- context [foldl ?f m ?l] =>
    destruct (foldl_run_fields l m) as (-> & _); pose proof (foldl_run_stored l m) as Hkept end.
  rewrite Htext'', Hlocal'', Htext, Hlocal', Hlocal in *. split; [done|]. by apply Hkept.
Qed.

Lemma notebook_reinitialising_discards_edit_witness :
  Notebook.mounted
    (Notebook.initializeNotebook (H := Browser.host)
       (Notebook.mountedOn Example.opened {["notebookContent" := JString "first draft"]}))
  = true
  ∧ Notebook.notebookTextarea
      (Notebook.input "first draft, continued"
         (Notebook.initializeNotebook (H := Browser.host)
            (Notebook.mountedOn Example.opened
               {["notebookContent" := JString "first draft"]})))
    = "first draft, continued"
  ∧ Notebook.notebookTextarea
      (Notebook.advance 5000
         (Notebook.initializeNotebook (H := Browser.host)
            (Notebook.input "first draft, continued"
               (Notebook.initializeNotebook (H := Browser.host)
                  (Notebook.mountedOn Example.opened
                     {["notebookContent" := JString "first draft"]})))))
    = "first draft".
Proof.
  split; [reflexivity|]. split; [by vm_compute|].
  refine (proj1 (notebook_reinitialising_discards_edit (H := Browser.host)
                   "first draft, continued" "first draft" 5000
                   (Notebook.initializeNotebook (H := Browser.host)
                      (Notebook.mountedOn Example.opened
                         {["notebookContent" := JString "first draft"]}))
                   eq_refl _ _)).
  - by vm_compute.
  - discriminate.
Defined.

(** ** The answers of the message listener *)

(** X20. The listener reports the state that it leaves: with one overlay
    at most, every answer that reports a success carries, as [active],
    whether the reader is mounted when the listener has run, whatever the
    action is. *)
Theorem reply_reports_reader_state `{Host}
    (action : string) (extracted : option Article.t) (now : string) (w : World)
    (reply : Reply) :
  length (overlays (document w)) ≤ 1 ->
  reply ∈ (onMessage action extracted now w).1.2 ->
  success reply = true ->
  active reply = Some (isReaderActive (document (onMessage action extracted now w).2)).
Proof.
  intros Hone. unfold onMessage. repeat case_decide.
  - unfold toggleReader, openReader.
    destruct (isReaderActive (document w)); cbn [fst snd]; [by intros ?%elem_of_nil|].
    destruct extracted as [article|]; cbn [fst snd].
    + intros ->%list_elem_of_singleton _. cbn [active].
      rewrite isReaderActive_mounted, bool_decide_true; [done|].
      apply mountReader_mounted.
    + by intros ->%list_elem_of_singleton.
  - cbn [fst snd]. by intros ->%list_elem_of_singleton.
  - cbn [fst snd]. intros ->%list_elem_of_singleton _. cbn [active].
    rewrite isReaderActive_mounted, bool_decide_false; [done|].
    change (¬ overlays (removeReader (document w)) ≠ []).
    rewrite removeReader_overlays. destruct (overlays (document w)) as [|o [|o' os]];
      cbn in *; [by intros []..|lia].
  - cbn [fst snd]. by intros ?%elem_of_nil.
Qed.

Lemma reply_reports_reader_state_witness :
  length (overlays (document Example.loaded)) ≤ 1
  ∧ {| success := true; active := Some true; error := None |}
    ∈ (onMessage (H := Browser.host) "toggle-reader" (Some Example.article) "now"
         Example.loaded).1.2
  ∧ isReaderActive (document (onMessage (H := Browser.host) "toggle-reader"
                                (Some Example.article) "now" Example.loaded).2) = true.
Proof.
  assert (length (overlays (document Example.loaded)) ≤ 1) as Hone by (cbn; lia).
  assert ({| success := true; active := Some true; error := None |}
          ∈ (onMessage (H := Browser.host) "toggle-reader" (Some Example.article) "now"
               Example.loaded).1.2) as Hreply by (vm_compute; apply list_elem_of_here).
  split; [exact Hone|]. split; [exact Hreply|].
  pose proof (reply_reports_reader_state (H := Browser.host) "toggle-reader"
                (Some Example.article) "now" Example.loaded _ Hone Hreply eq_refl) as Hactive.
  cbn [active] in Hactive. congruence.
Defined.

(** ** Lines after the sentinel *)

Section Sentinel.
Context `{Host}.

Lemma lineFragment_sentinel : lineFragment "data: [DONE]" = "".
Proof.
  unfold lineFragment. case_decide as Hblank; [done|]. by case_decide.
Qed.

End Sentinel.

(** X21. The sentinel line does not end the reading: the lines that the
    body delivers after [data: [DONE]] are processed like those before it,
    and their fragments are appended to the reply. *)
Theorem askChatGPT_reads_past_sentinel `{Host}
    (before after reads : list string) (w : World) (inputText : string) :
  accepts w inputText ->
  Forall isLine before ->
  Forall isLine after ->
  Str.concat reads = streamText (before ++ "data: [DONE]" :: after) ->
  messages (chatState (askChatGPT (streamed reads) w))
  = messages (chatState w)
    ++ [{| role := "user"; content := inputText |};
        {| role := "assistant";
           content := Str.concat (lineFragment <$> before)
                      +:+ Str.concat (lineFragment <$> after) |}].
Proof.
  intros Haccepts Hbefore Hafter Htext.
  rewrite (askChatGPT_streamed_messages reads w inputText Haccepts), Htext.
  rewrite completeLines_streamText.
  - rewrite fmap_app, concat_app. cbn [fmap list_fmap Str.concat].
    pose proof lineFragment_sentinel as Hsentinel.
    by destruct (lineFragment "data: [DONE]").
  - apply Forall_app. split; [done|]. by apply Forall_cons.
Qed.

Lemma askChatGPT_reads_past_sentinel_witness :
  accepts (Example.typed "hello") "hello"
  ∧ messages (chatState (askChatGPT (H := Browser.host)
       (streamed [Example.event "Hi" +:+ String Str.newline "";
                  "data: [DONE]" +:+ String Str.newline "";
                  Example.event " there" +:+ String Str.newline ""])
       (Example.typed "hello")))
    = [SYSTEM_PROMPT; {| role := "user"; content := "hello" |};
       {| role := "assistant"; content := "Hi there" |}].
Proof.
  assert (accepts (Example.typed "hello") "hello") as Haccepts.
  { exists "hello". repeat split; [vm_compute; discriminate]. }
  assert (Forall isLine [Example.event "Hi"]) as Hbefore.
  { apply List.Forall_cons; [by vm_compute | apply List.Forall_nil]. }
  assert (Forall isLine [Example.event " there"]) as Hafter.
  { apply List.Forall_cons; [by vm_compute | apply List.Forall_nil]. }
  assert (Str.concat [Example.event "Hi" +:+ String Str.newline "";
                      "data: [DONE]" +:+ String Str.newline "";
                      Example.event " there" +:+ String Str.newline ""]
          = streamText ([Example.event "Hi"] ++ "data: [DONE]" :: [Example.event " there"]))
    as Htext by (by vm_compute).
  split; [exact Haccepts|].
  rewrite (askChatGPT_reads_past_sentinel (H := Browser.host)
             _ _ _ _ _ Haccepts Hbefore Hafter Htext).
  by vm_compute.
Defined.

